(** * media-adapter: cookie store, browser sessions and the Xiaohongshu facade

  A shallow embedding of
    - [media_adapter/utils/cookie_manager.py]   (module [CookieManager]),
    - [media_adapter/utils/browser_session.py]  (module [BrowserSessionManager]),
    - [media_adapter/adapters/xhs/adapter.py]   (module [XhsSignalAdapter]),
  followed by the properties of these three components.

  Conventions.  A Python [str] is a [string] whose characters are code
  points below 256; a Python [int] is a [Z]; a [dict] kept by an object
  ([_cache], [_sessions], the file system) is a [gmap]; JSON-like payloads
  are the type [value].  Calls into the browser driver, the platform client
  and the other collaborators are answered by an oracle that sees the log
  of everything that happened before; every call and its answer is
  appended to that log.  [print] and [asyncio.sleep] are left out. *)

From Stdlib Require Import ZArith Lia Ascii String DecimalString.
From stdpp Require Import base decidable option list gmap strings.

Local Open Scope Z_scope.
Set Warnings "-register-all".

(* ===================================================================== *)
(** ** Python strings *)
(* ===================================================================== *)

Module PyStr.

Definition code (c : ascii) : nat := nat_of_ascii c.

(** [str.isspace] on one code point below 256. *)
Definition is_space (c : ascii) : bool :=
  let n := code c in
  ((9 <=? n) && (n <=? 13) || (28 <=? n) && (n <=? 32)
   || (n =? 133) || (n =? 160))%nat.

Definition is_nl (c : ascii) : bool := (code c =? 10)%nat.
Definition is_cr (c : ascii) : bool := (code c =? 13)%nat.

Definition nl : string := String (ascii_of_nat 10) EmptyString.

(** [bool(s)] *)
Definition nonempty (s : string) : bool :=
  match s with EmptyString => false | String _ _ => true end.

(** [s.lstrip(chars)], [s.rstrip(chars)] for a set of characters [p]. *)
Fixpoint lstrip_by (p : ascii -> bool) (s : string) : string :=
  match s with
  | EmptyString => EmptyString
  | String c r => if p c then lstrip_by p r else s
  end.

Fixpoint rstrip_by (p : ascii -> bool) (s : string) : string :=
  match s with
  | EmptyString => EmptyString
  | String c r =>
      match rstrip_by p r with
      | EmptyString => if p c then EmptyString else String c EmptyString
      | r' => String c r'
      end
  end.

(** [s.strip()] *)
Definition strip (s : string) : string := rstrip_by is_space (lstrip_by is_space s).

(** [s.rstrip('\n')] *)
Definition rstrip_nl (s : string) : string := rstrip_by is_nl s.

(** [c in s] for a single character [c]. *)
Fixpoint has_char (p : ascii -> bool) (s : string) : bool :=
  match s with
  | EmptyString => false
  | String c r => p c || has_char p r
  end.

Definition is_char (a : ascii) (c : ascii) : bool := (code c =? code a)%nat.

(** [s.startswith(prefix)] *)
Fixpoint startswith (prefix s : string) : bool :=
  match prefix, s with
  | EmptyString, _ => true
  | String a p, String b r => (code a =? code b)%nat && startswith p r
  | String _ _, EmptyString => false
  end.

(** [needle in s] for strings. *)
Fixpoint contains (needle s : string) : bool :=
  startswith needle s ||
  match s with
  | EmptyString => false
  | String _ r => contains needle r
  end.

(** [s.lower()] on code points below 256. *)
Definition lower_char (c : ascii) : ascii :=
  let n := code c in
  if ((65 <=? n) && (n <=? 90) || (192 <=? n) && (n <=? 214)
      || (216 <=? n) && (n <=? 222))%nat
  then ascii_of_nat (n + 32) else c.

Fixpoint lower (s : string) : string :=
  match s with
  | EmptyString => EmptyString
  | String c r => String (lower_char c) (lower r)
  end.

(** [s.split(sep)] for a one-character separator: never empty. *)
Fixpoint split (sep : ascii) (s : string) : list string :=
  match s with
  | EmptyString => [EmptyString]
  | String c r =>
      if is_char sep c then EmptyString :: split sep r
      else match split sep r with
           | h :: t => String c h :: t
           | [] => [String c EmptyString]
           end
  end.

(** [s.split(sep, 1)]: the part before the first [sep] and the rest. *)
Fixpoint split1 (sep : ascii) (s : string) : string * option string :=
  match s with
  | EmptyString => (EmptyString, None)
  | String c r =>
      if is_char sep c then (EmptyString, Some r)
      else let '(h, t) := split1 sep r in (String c h, t)
  end.

(** [sep.join(parts)] *)
Fixpoint join (sep : string) (parts : list string) : string :=
  match parts with
  | [] => EmptyString
  | [x] => x
  | x :: rest => x +:+ sep +:+ join sep rest
  end.

(** [str(n)] for a natural number. *)
Definition of_nat (n : nat) : string := NilZero.string_of_uint (Nat.to_uint n).

(** Text-mode reading with universal newlines: a carriage return, alone or
    followed by a line feed, is read as one line feed. *)
Fixpoint universal_newlines (s : string) : string :=
  match s with
  | EmptyString => EmptyString
  | String c r =>
      if is_cr c then
        String (ascii_of_nat 10)
          match r with
          | String d r' => if is_nl d then universal_newlines r' else universal_newlines r
          | EmptyString => EmptyString
          end
      else String c (universal_newlines r)
  end.

(** The lines of an already translated text, each with its line feed (the
    last one has none when the text does not end with one). *)
Fixpoint split_lines (s : string) : list string :=
  match s with
  | EmptyString => []
  | String c r =>
      if is_nl c then String c EmptyString :: split_lines r
      else match split_lines r with
           | h :: t => String c h :: t
           | [] => [String c EmptyString]
           end
  end.

(** [for line in f] on a file opened with [open(path, "r")]. *)
Definition file_lines (content : string) : list string :=
  split_lines (universal_newlines content).

(** A text without line break. *)
Definition one_line (s : string) : Prop :=
  has_char is_nl s = false /\ has_char is_cr s = false.

(** What [for line in f] yields: the text of a line, with a line feed at
    its end except possibly for the last line of the file. *)
Definition line_of (s : string) : Prop :=
  exists l, one_line l /\ (s = l +:+ nl \/ s = l).

End PyStr.

(* ===================================================================== *)
(** ** Python values, exceptions and sequences *)
(* ===================================================================== *)

Module Py.

(** JSON-like payloads: what the platform clients return and what the
    facade puts into [ToolResult.data] and [ToolResult.metadata].  A [dict]
    is kept in insertion order. *)
Inductive value : Type :=
| VNone
| VBool (b : bool)
| VInt (n : Z)
| VStr (s : string)
| VList (l : list value)
| VDict (d : list (string * value)).

(** An instance of a subclass of [Exception]: class name and [str(e)]. *)
Inductive exn : Type := Exn (cls : string) (msg : string).

Definition str_of_exn (e : exn) : string := match e with Exn _ msg => msg end.

(** The result of running a piece of code: it returns, it raises, or the
    loop budget of the model ran out before it finished. *)
Inductive outcome (A : Type) : Type :=
| Ret (a : A)
| Raise (e : exn)
| Diverge.
Arguments Ret {A} a.
Arguments Raise {A} e.
Arguments Diverge {A}.

Definition obind {A B} (m : outcome A) (k : A -> outcome B) : outcome B :=
  match m with
  | Ret a => k a
  | Raise e => Raise e
  | Diverge => Diverge
  end.

(** [bool(v)] *)
Definition truthy (v : value) : bool :=
  match v with
  | VNone => false
  | VBool b => b
  | VInt n => negb (n =? 0)
  | VStr s => PyStr.nonempty s
  | VList l => match l with [] => false | _ => true end
  | VDict d => match d with [] => false | _ => true end
  end.

Definition type_name (v : value) : string :=
  match v with
  | VNone => "NoneType"
  | VBool _ => "bool"
  | VInt _ => "int"
  | VStr _ => "str"
  | VList _ => "list"
  | VDict _ => "dict"
  end.

Definition AttributeError (v : value) (attr : string) : exn :=
  Exn "AttributeError"
      ("'" +:+ type_name v +:+ "' object has no attribute '" +:+ attr +:+ "'").

Definition TypeError_not_iterable (v : value) : exn :=
  Exn "TypeError" ("'" +:+ type_name v +:+ "' object is not iterable").

Definition TypeError_not_container (v : value) : exn :=
  Exn "TypeError" ("argument of type '" +:+ type_name v +:+ "' is not iterable").

(** Lookup in a [dict] literal. *)
Fixpoint assoc {A} (k : string) (d : list (string * A)) : option A :=
  match d with
  | [] => None
  | (k', v) :: rest => if String.eqb k' k then Some v else assoc k rest
  end.

(** [v.get(key, default)]: only a [dict] has the method. *)
Definition get (v : value) (key : string) (default : value) : outcome value :=
  match v with
  | VDict d => Ret (match assoc key d with Some x => x | None => default end)
  | _ => Raise (AttributeError v "get")
  end.

(** [v == s] for a string literal [s]. *)
Definition eq_str (v : value) (s : string) : bool :=
  match v with
  | VStr s' => String.eqb s' s
  | _ => false
  end.

Fixpoint chars (s : string) : list value :=
  match s with
  | EmptyString => []
  | String c r => VStr (String c EmptyString) :: chars r
  end.

(** The elements a [for] loop or a comprehension runs over. *)
Definition iter (v : value) : outcome (list value) :=
  match v with
  | VList l => Ret l
  | VDict d => Ret (map (fun kv => VStr (fst kv)) d)
  | VStr s => Ret (chars s)
  | _ => Raise (TypeError_not_iterable v)
  end.

(** [key in v] for a string literal [key]. *)
Definition contains_key (key : string) (v : value) : outcome bool :=
  match v with
  | VDict d => Ret (match assoc key d with Some _ => true | None => false end)
  | VList l => Ret (existsb (fun x => eq_str x key) l)
  | VStr s => Ret (PyStr.contains key s)
  | _ => Raise (TypeError_not_container v)
  end.

(** [l[:n]] *)
Definition slice_to {A} (l : list A) (n : Z) : list A :=
  if 0 <=? n then take (Z.to_nat n) l
  else take (length l - Z.to_nat (- n))%nat l.

(** [l[i]]; [None] stands for [IndexError]. *)
Definition index {A} (l : list A) (i : Z) : option A :=
  if 0 <=? i then l !! Z.to_nat i
  else if - Z.of_nat (length l) <=? i then l !! Z.to_nat (Z.of_nat (length l) + i)
  else None.

(** [len(l)] *)
Definition len {A} (l : list A) : Z := Z.of_nat (length l).


End Py.

Import Py.

Declare Scope py_scope.
Delimit Scope py_scope with py.
Notation "'let!' x ':=' m 'in' k" := (obind m (fun x => k))
(at level 10, x pattern, m at level 100, k at level 200) : py_scope.

(* ===================================================================== *)
(** ** utils/cookie_manager.py *)
(* ===================================================================== *)

Module CookieManager.

(** The file system: path to text content ([pathlib] without
    normalisation; reads and writes do not fail). *)
Definition path_join (dir name : string) : string := dir +:+ "/" +:+ name.

(** A [CookieManager] instance. *)
Record t : Type := mk {
  cookies_dir : string;
  _cache : gmap string (list string);
}.

Definition __init__ (cookies_dir : string) : t :=
  {| cookies_dir := cookies_dir; _cache := ∅ |}.

Definition platform_files : list (string * string) :=
  [ ("xhs", "xhs_cookies.txt");
    ("xiaohongshu", "xhs_cookies.txt");
    ("weibo", "weibo_cookies.txt");
    ("wb", "weibo_cookies.txt");
    ("douyin", "douyin_cookies.txt");
    ("dy", "douyin_cookies.txt");
    ("bilibili", "bilibili_cookies.txt");
    ("bili", "bilibili_cookies.txt");
    ("kuaishou", "kuaishou_cookies.txt");
    ("ks", "kuaishou_cookies.txt");
    ("tieba", "tieba_cookies.txt");
    ("zhihu", "zhihu_cookies.txt") ].

Definition hash : string := "#".
Definition has_eq (s : string) : bool := PyStr.has_char (PyStr.is_char "=") s.

(** A stripped line that [_load_cookies_from_file] keeps: not empty, not a
    comment, and with a [=]. *)
Definition is_cookie_line (line : string) : bool :=
  PyStr.nonempty line && negb (PyStr.startswith hash line) && has_eq line.

(** The body of the reading loop of [_load_cookies_from_file]. *)
Fixpoint load_lines (lines : list string) : list string :=
  match lines with
  | [] => []
  | line :: rest =>
      let line := PyStr.strip line in
      if negb (PyStr.nonempty line) || PyStr.startswith hash line then load_lines rest
      else if has_eq line then line :: load_lines rest
      else load_lines rest
  end.

Definition _load_cookies_from_file (fs : gmap string string) (filepath : string)
  : list string :=
  match fs !! filepath with
  | None => []
  | Some content => load_lines (PyStr.file_lines content)
  end.

Definition _get_cookie_file (self : t) (platform : string) : string :=
  let filename :=
    match assoc (PyStr.lower platform) platform_files with
    | Some f => f
    | None => platform +:+ "_cookies.txt"
    end in
  path_join (cookies_dir self) filename.

Definition get_all_cookies (self : t) (fs : gmap string string) (platform : string)
  : list string * t :=
  let platform := PyStr.lower platform in
  match _cache self !! platform with
  | Some cookies => (cookies, self)
  | None =>
      let cookie_file := _get_cookie_file self platform in
      let cookies := _load_cookies_from_file fs cookie_file in
      (cookies, {| cookies_dir := cookies_dir self;
                   _cache := <[platform := cookies]> (_cache self) |})
  end.

(** [random.choice(cookies)] picks the element at [rnd mod len(cookies)]. *)
Definition random_choice (rnd : nat) (cookies : list string) : string :=
  default EmptyString (cookies !! (rnd mod length cookies)%nat).

Definition get_cookie (self : t) (fs : gmap string string) (rnd : nat)
    (platform : string) (account_index : option Z) (random_select : bool)
  : string * t :=
  let '(cookies, self) := get_all_cookies self fs platform in
  match cookies with
  | [] => (EmptyString, self)
  | _ =>
      match account_index with
      | Some i =>
          if (0 <=? i) && (i <? len cookies)
          then (default EmptyString (cookies !! Z.to_nat i), self)
          else (EmptyString, self)
      | None =>
          if random_select then (random_choice rnd cookies, self)
          else (default EmptyString (cookies !! 0%nat), self)
      end
  end.

Definition get_account_count (self : t) (fs : gmap string string) (platform : string)
  : Z * t :=
  let '(cookies, self) := get_all_cookies self fs platform in (len cookies, self).

Definition clear_cache (self : t) : t :=
  {| cookies_dir := cookies_dir self; _cache := ∅ |}.

(** The reading loop of [save_cookie]: the lines without their line feed
    and the positions of the lines that hold a cookie. *)
Fixpoint scan_lines (i : nat) (raw : list string) : list string * list nat :=
  match raw with
  | [] => ([], [])
  | line :: rest =>
      let '(lines, cookie_lines_indices) := scan_lines (S i) rest in
      let stripped := PyStr.strip line in
      (PyStr.rstrip_nl line :: lines,
       if PyStr.nonempty stripped && negb (PyStr.startswith hash stripped) && has_eq stripped
       then i :: cookie_lines_indices else cookie_lines_indices)
  end.

Definition auto_saved_comment (n : nat) : string :=
  "# Account " +:+ PyStr.of_nat n +:+ " - Auto-saved after login".

(** What is written back: the joined lines and a final line feed. *)
Definition render (lines : list string) : string :=
  PyStr.join PyStr.nl lines +:+ (match lines with [] => EmptyString | _ => PyStr.nl end).

Definition save_cookie (self : t) (fs : gmap string string)
    (platform cookie_str : string) (account_index : Z)
  : bool * t * gmap string string :=
  if negb (PyStr.nonempty cookie_str) || negb (PyStr.nonempty (PyStr.strip cookie_str))
  then (false, self, fs)
  else
    let cookie_file := _get_cookie_file self platform in
    let '(lines, cookie_lines_indices) :=
      match fs !! cookie_file with
      | Some content => scan_lines 0 (PyStr.file_lines content)
      | None => ([], [])
      end in
    let new_lines : option (list string) :=
      if account_index <? len cookie_lines_indices then
        match index cookie_lines_indices account_index with
        | Some target_line => Some (<[target_line := PyStr.strip cookie_str]> lines)
        | None => None
        end
      else
        let lines :=
          match last lines with
          | Some l => if PyStr.nonempty l then lines ++ [EmptyString] else lines
          | None => lines
          end in
        Some (lines
              ++ [auto_saved_comment (length cookie_lines_indices + 1)]
              ++ [PyStr.strip cookie_str])
    in
    match new_lines with
    | None => (false, self, fs)
    | Some lines =>
        (true,
         {| cookies_dir := cookies_dir self;
            _cache := delete (PyStr.lower platform) (_cache self) |},
         <[cookie_file := render lines]> fs)
    end.

(** [parse_cookie_string]: later pairs overwrite earlier ones with the same
    key, the position of the first occurrence is kept. *)
Fixpoint dict_set (k v : string) (d : list (string * string)) : list (string * string) :=
  match d with
  | [] => [(k, v)]
  | (k', v') :: rest => if String.eqb k' k then (k', v) :: rest else (k', v') :: dict_set k v rest
  end.

Fixpoint parse_items (items : list string) (cookie_dict : list (string * string))
  : list (string * string) :=
  match items with
  | [] => cookie_dict
  | item :: rest =>
      let item := PyStr.strip item in
      match PyStr.split1 "=" item with
      | (key, Some value) =>
          parse_items rest (dict_set (PyStr.strip key) (PyStr.strip value) cookie_dict)
      | (_, None) => parse_items rest cookie_dict
      end
  end.

Definition parse_cookie_string (cookie_str : string) : list (string * string) :=
  if negb (PyStr.nonempty cookie_str) then []
  else parse_items (PyStr.split ";" cookie_str) [].

(** One Playwright cookie: name, value, domain, path. *)
Definition format_cookies_for_playwright (cookie_str domain path : string)
  : list (string * string * string * string) :=
  map (fun kv => (fst kv, snd kv, domain, path)) (parse_cookie_string cookie_str).

(** [str(Path(s))] on a POSIX system.  The root of [s]: two leading
    slashes, and only two, are kept as they are; any other number of them
    is one slash. *)
Definition is_slash (c : ascii) : bool := PyStr.is_char "/" c.

Definition path_root (s : string) : string :=
  match s with
  | String a (String b (String c _)) =>
      if is_slash a
      then if is_slash b then if is_slash c then "/" else "//" else "/"
      else EmptyString
  | String a (String b EmptyString) =>
      if is_slash a then if is_slash b then "//" else "/" else EmptyString
  | String a EmptyString => if is_slash a then "/" else EmptyString
  | EmptyString => EmptyString
  end.

(** The parts between the slashes; empty parts and dots are dropped. *)
Definition path_parts (s : string) : list string :=
  List.filter (fun part => PyStr.nonempty part && negb (String.eqb part "."))
              (PyStr.split "/" s).

Definition path_str (s : string) : string :=
  match path_root s, path_parts s with
  | EmptyString, [] => "."
  | root, parts => root +:+ PyStr.join "/" parts
  end.

(** The module-level singleton [_cookie_manager].  The manager keeps the
    directory as the [Path] made of the string it was given, and that
    string stands for it here: [str(_cookie_manager.cookies_dir)] is its
    [path_str]. *)
Definition get_cookie_manager (global : option t) (cookies_dir : string) : t :=
  match global with
  | Some m => if String.eqb (path_str (CookieManager.cookies_dir m)) cookies_dir then m
              else __init__ cookies_dir
  | None => __init__ cookies_dir
  end.

(** The text [create_template] writes for a platform whose upper-case name
    is [upper_platform]. *)
Definition template (upper_platform : string) : string :=
  "# " +:+ upper_platform +:+ " Cookies" +:+ PyStr.nl +:+
  "# Each line is a cookie string for one account" +:+ PyStr.nl +:+
  "# Empty lines and lines starting with # are ignored" +:+ PyStr.nl +:+
  "# Format: key1=value1; key2=value2; ..." +:+ PyStr.nl +:+
  PyStr.nl +:+
  "# Account 1 - paste your cookie string below" +:+ PyStr.nl +:+
  "# Example: a1=xxx; web_session=yyy; ..." +:+ PyStr.nl +:+
  PyStr.nl.

(** [create_template]; [upper] is [str.upper], whose result can leave the
    code points below 256. *)
Definition create_template (upper : string -> string) (self : t)
    (fs : gmap string string) (platform : string) : gmap string string :=
  let cookie_file := _get_cookie_file self platform in
  match fs !! cookie_file with
  | Some _ => fs
  | None => <[cookie_file := template (upper platform)]> fs
  end.

End CookieManager.

(* ===================================================================== *)
(** ** The collaborators: browser driver, platform clients, result sink *)
(* ===================================================================== *)

Module Effects.

(** Objects handed out by the driver and the client libraries (the
    Playwright instance, a browser, a context, a page, a client, a login
    object) are opaque: each is known by the number it got at creation. *)
Definition handle : Type := nat.

Inductive SearchSortType : Type := GENERAL | MOST_POPULAR | LATEST.

(** Every call that leaves the modelled code. *)
Inductive call : Type :=
| PlaywrightStart (p : handle)
| ChromiumLaunch (p browser : handle) (headless : bool)
| NewContext (browser context : handle) (user_agent : string)
| AddInitScript (context : handle)
| AddCookies (context : handle) (cookies : list (string * string * string * string))
| NewPage (context page : handle)
| PageGoto (page : handle) (url wait_until : string)
| PageTitle (page : handle)
| PageEvaluate (page : handle) (script : string)
| ContextCookies (context : handle) (urls : list string)
| BrowserClose (browser : handle)
| PlaywrightStop (p : handle)
| ClientNew (platform : string) (client page : handle)
            (headers : list (string * string)) (cookie_dict : list (string * string))
| ClientPong (client : handle)
| ClientUpdateCookies (client context : handle) (urls : list string)
| ClientSetCookie (client : handle) (cookie_str : string)
                  (cookie_dict : list (string * string))
| LoginNew (platform : string) (login context page : handle)
           (login_type cookie_str : string)
| LoginBegin (login : handle)
| GetNoteByKeyword (client : handle) (keyword : string) (page : Z) (sort : SearchSortType)
| GetNoteById (client : handle) (note_id xsec_source xsec_token : string)
| GetNoteComments (client : handle) (note_id xsec_token : string) (cursor : value)
| GetCreatorInfo (client : handle) (creator_id : string)
| SaveJson (data : value) (name suffix : string)
| RandomChoice (n : nat)
| DatetimeNow.

Inductive reply : Type :=
| Returns (v : value)
| Raises (e : exn).

Inductive event : Type := Event (c : call) (r : reply).

(** The outside world: the answer to a call may depend on everything that
    happened before it. *)
Definition oracle : Type := list event -> call -> reply.

(** What the modules that are imported but not modelled provide:
    [media_adapter.config], [utils.convert_cookies],
    [utils.get_mobile_user_agent] and
    [platforms.xhs.help.parse_note_info_from_note_url]. *)
Record Config : Type := {
  COOKIES : string;
  COOKIES_DIR : string;
  LOGIN_TYPE : string;
  convert_cookies : value -> string * list (string * string);
  get_mobile_user_agent : string;
  parse_note_info_from_note_url : string -> exn + string * string;
}.

(** [BrowserSession]: [oid] is the identity of the Python object. *)
Record BrowserSession : Type := {
  oid : handle;
  platform : string;
  playwright : handle;
  browser : handle;
  context : handle;
  page : handle;
  client : handle;
  cookie_str : string;
  cookie_dict : list (string * string);
  created_at : value;
  is_logged_in : bool;
}.

(** The state of the process: the log of calls, the next free object
    number, the file system, the global cookie manager and the session
    table of the global [BrowserSessionManager]. *)
Record world : Type := {
  log : list event;
  next_id : handle;
  fs : gmap string string;
  _cookie_manager : option CookieManager.t;
  _sessions : gmap string BrowserSession;
}.

Definition set_log (w : world) (l : list event) : world :=
  {| log := l; next_id := next_id w; fs := fs w;
     _cookie_manager := _cookie_manager w; _sessions := _sessions w |}.
Definition set_next_id (w : world) (n : handle) : world :=
  {| log := log w; next_id := n; fs := fs w;
     _cookie_manager := _cookie_manager w; _sessions := _sessions w |}.
Definition set_cookies (w : world) (m : option CookieManager.t) (f : gmap string string)
  : world :=
  {| log := log w; next_id := next_id w; fs := f;
     _cookie_manager := m; _sessions := _sessions w |}.
Definition set_sessions (w : world) (s : gmap string BrowserSession) : world :=
  {| log := log w; next_id := next_id w; fs := fs w;
     _cookie_manager := _cookie_manager w; _sessions := s |}.

(** Code that runs in the process. *)
Definition M (A : Type) : Type := world -> outcome A * world.

Definition ret {A} (a : A) : M A := fun w => (Ret a, w).
Definition raise {A} (e : exn) : M A := fun w => (Raise e, w).
Definition diverge {A} : M A := fun w => (Diverge, w).
Definition lift {A} (o : outcome A) : M A := fun w => (o, w).

(** The result of a function that returns or raises. *)
Definition of_sum {A} (r : exn + A) : M A :=
  fun w => (match r with inl e => Raise e | inr a => Ret a end, w).

Definition bind {A B} (m : M A) (k : A -> M B) : M B :=
  fun w =>
    match m w with
    | (Ret a, w') => k a w'
    | (Raise e, w') => (Raise e, w')
    | (Diverge, w') => (Diverge, w')
    end.

(** [try: body / except Exception as e: handler(e)] *)
Definition try_except {A} (body : M A) (handler : exn -> M A) : M A :=
  fun w =>
    match body w with
    | (Raise e, w') => handler e w'
    | r => r
    end.

(** Run [m] and hand its exception, if any, over as a value. *)
Definition attempt {A} (m : M A) : M (exn + A) :=
  fun w =>
    match m w with
    | (Ret a, w') => (Ret (inr a), w')
    | (Raise e, w') => (Ret (inl e), w')
    | (Diverge, w') => (Diverge, w')
    end.

Definition get_world : M world := fun w => (Ret w, w).
Definition modify (f : world -> world) : M unit := fun w => (Ret tt, f w).

(** A new object number. *)
Definition fresh : M handle :=
  fun w => (Ret (next_id w), set_next_id w (S (next_id w))).

(** A call to the outside: ask the oracle, log call and answer. *)
Definition external (env : oracle) (c : call) : M value :=
  fun w =>
    let r := env (log w) c in
    (match r with Returns v => Ret v | Raises e => Raise e end,
     set_log w (log w ++ [Event c r])).

(** A call whose result is not used and that does not raise (an attribute
    assignment on a foreign object). *)
Definition notify (env : oracle) (c : call) : M unit :=
  fun w => (Ret tt, set_log w (log w ++ [Event c (env (log w) c)])).

(** [random.choice] on a sequence of [n > 0] elements: the position taken. *)
Definition random_index (env : oracle) (n : nat) : M nat :=
  fun w =>
    let r := env (log w) (RandomChoice n) in
    (Ret (match r with Returns (VInt i) => Z.to_nat i | _ => 0%nat end),
     set_log w (log w ++ [Event (RandomChoice n) r])).

(** [datetime.now()] *)
Definition now (env : oracle) : M value :=
  fun w =>
    let r := env (log w) DatetimeNow in
    (Ret (match r with Returns v => v | Raises _ => VNone end),
     set_log w (log w ++ [Event DatetimeNow r])).

End Effects.

Import Effects.

Declare Scope m_scope.
Delimit Scope m_scope with M.
Notation "'let*' x ':=' m 'in' k" := (bind m (fun x => k))
(at level 10, x pattern, m at level 100, k at level 200) : m_scope.
Notation "m ';;' k" := (bind m (fun _ => k))
(at level 100, k at level 200, right associativity) : m_scope.

(* ===================================================================== *)
(** ** The module-level singletons seen from running code *)
(* ===================================================================== *)

Module Globals.
Section WithCollaborators.

Context (env : oracle) (cfg : Config).
Local Open Scope m_scope.

(** [cookie_manager = get_cookie_manager(cookies_dir)] *)
Definition use_cookie_manager (cookies_dir : string) : M unit :=
  modify (fun w =>
    set_cookies w
      (Some (CookieManager.get_cookie_manager (_cookie_manager w) cookies_dir)) (fs w)).

Definition the_cookie_manager (w : world) : CookieManager.t :=
  default (CookieManager.__init__ (COOKIES_DIR cfg)) (_cookie_manager w).

(** [cookie_manager.get_cookie(platform)] *)
Definition cm_get_cookie (platform : string) : M string :=
  let* w := get_world in
  let self := the_cookie_manager w in
  let* rnd :=
    match fst (CookieManager.get_all_cookies self (fs w) platform) with
    | [] => ret 0%nat
    | cookies => random_index env (length cookies)
    end in
  let '(cookie_str, self) :=
    CookieManager.get_cookie self (fs w) rnd platform None true in
  modify (fun w => set_cookies w (Some self) (fs w)) ;;
  ret cookie_str.

(** [cookie_manager.save_cookie(platform, cookie_str)] *)
Definition cm_save_cookie (platform cookie_str : string) : M bool :=
  let* w := get_world in
  let '(ok, self, files) :=
    CookieManager.save_cookie (the_cookie_manager w) (fs w) platform cookie_str 0 in
  modify (fun w => set_cookies w (Some self) files) ;;
  ret ok.

(** [convert_cookies(await context.cookies(urls))] *)
Definition context_cookies (context : handle) (urls : list string)
  : M (string * list (string * string)) :=
  let* cookies := external env (ContextCookies context urls) in
  ret (convert_cookies cfg cookies).

End WithCollaborators.
End Globals.

(* ===================================================================== *)
(** ** utils/browser_session.py *)
(* ===================================================================== *)

Module BrowserSessionManager.
Section WithCollaborators.

Context (env : oracle) (cfg : Config).
Local Open Scope m_scope.

Local Abbreviation use_cookie_manager := (Globals.use_cookie_manager).
Local Abbreviation cm_get_cookie := (Globals.cm_get_cookie env cfg).
Local Abbreviation cm_save_cookie := (Globals.cm_save_cookie cfg).
Local Abbreviation context_cookies := (Globals.context_cookies env cfg).

Record platform_config : Type := {
  index_url : string;
  user_agent : string;
  cookie_domains : list string;
}.

Definition mac_chrome_131 : string :=
  "Mozilla/5.0 (Macintosh; Intel Mac OS X 10_15_7) AppleWebKit/537.36 (KHTML, like Gecko) Chrome/131.0.0.0 Safari/537.36".

Definition configs : list (string * platform_config) :=
  [ ("xhs", {| index_url := "https://www.xiaohongshu.com/explore";
               user_agent := mac_chrome_131;
               cookie_domains := [".xiaohongshu.com"] |});
    ("weibo", {| index_url := "https://m.weibo.cn";
                 user_agent := "Mozilla/5.0 (iPhone; CPU iPhone OS 16_6 like Mac OS X) AppleWebKit/605.1.15 (KHTML, like Gecko) Version/16.6 Mobile/15E148 Safari/604.1";
                 cookie_domains := [".weibo.cn"; ".weibo.com"] |});
    ("douyin", {| index_url := "https://www.douyin.com";
                  user_agent := mac_chrome_131;
                  cookie_domains := [".douyin.com"] |}) ].

Definition _get_platform_config (platform : string) : platform_config :=
  match assoc platform configs with
  | Some c => c
  | None => {| index_url := "https://www.xiaohongshu.com/explore";
               user_agent := mac_chrome_131;
               cookie_domains := [".xiaohongshu.com"] |}
  end.

Definition with_cookie (headers : list (string * string)) (cookie_str : string)
  : list (string * string) :=
  if PyStr.nonempty cookie_str then headers ++ [("Cookie", cookie_str)] else headers.

(** The tail shared by the three [_setup_*_client]: write the cookies of a
    logged-in browser back to the cookie file. *)
Definition save_if_logged_in (platform : string) (context : handle)
    (is_logged_in : bool) : M unit :=
  if is_logged_in then
    let* (new_cookie_str, _) := context_cookies context [] in
    if PyStr.nonempty new_cookie_str
    then (let* _ := cm_save_cookie platform new_cookie_str in ret tt)
    else ret tt
  else ret tt.

Definition _setup_xhs_client (context page : handle) (cookie_str : string)
    (cookie_dict : list (string * string)) (headless : bool)
  : M (handle * bool) :=
  let* (current_cookie_str, current_cookie_dict) := context_cookies context [] in
  let '(cookie_str, cookie_dict) :=
    if PyStr.nonempty current_cookie_str
    then (current_cookie_str, current_cookie_dict) else (cookie_str, cookie_dict) in
  let headers :=
    with_cookie
      [ ("accept", "application/json, text/plain, */*");
        ("accept-language", "zh-CN,zh;q=0.9");
        ("content-type", "application/json;charset=UTF-8");
        ("origin", "https://www.xiaohongshu.com");
        ("referer", "https://www.xiaohongshu.com/");
        ("user-agent", mac_chrome_131) ] cookie_str in
  let* client := fresh in
  let* _ := external env (ClientNew "xhs" client page headers cookie_dict) in
  let* pong := external env (ClientPong client) in
  let is_logged_in := truthy pong in
  if is_logged_in then
    save_if_logged_in "xhs" context is_logged_in ;;
    ret (client, is_logged_in)
  else if headless then ret (client, false)
  else
    let* login_obj := fresh in
    let* _ := external env
                (LoginNew "xhs" login_obj context page (LOGIN_TYPE cfg) cookie_str) in
    let* _ := external env (LoginBegin login_obj) in
    let* _ := external env (ClientUpdateCookies client context []) in
    let is_logged_in := true in
    save_if_logged_in "xhs" context is_logged_in ;;
    ret (client, is_logged_in).

Definition mobile_url : string := "https://m.weibo.cn".
Definition pc_url : string := "https://weibo.com".

Definition _setup_weibo_client (context page : handle) (cookie_str : string)
    (cookie_dict : list (string * string)) (headless : bool)
  : M (handle * bool) :=
  let* (mobile_cookie_str, mobile_cookie_dict) := context_cookies context [mobile_url] in
  let '(mobile_cookie_str, mobile_cookie_dict) :=
    if negb (PyStr.nonempty mobile_cookie_str) && PyStr.nonempty cookie_str
    then (cookie_str, cookie_dict) else (mobile_cookie_str, mobile_cookie_dict) in
  let headers :=
    with_cookie
      [ ("User-Agent", get_mobile_user_agent cfg);
        ("Origin", "https://m.weibo.cn");
        ("Referer", "https://m.weibo.cn");
        ("Content-Type", "application/json;charset=UTF-8") ] mobile_cookie_str in
  let* client := fresh in
  let* _ := external env (ClientNew "weibo" client page headers mobile_cookie_dict) in
  let* pong := external env (ClientPong client) in
  let is_logged_in := truthy pong in
  if is_logged_in then
    save_if_logged_in "weibo" context is_logged_in ;;
    ret (client, is_logged_in)
  else if headless then ret (client, false)
  else
    let* _ := external env (PageGoto page pc_url "load") in
    let* login_obj := fresh in
    let* _ := external env
                (LoginNew "weibo" login_obj context page (LOGIN_TYPE cfg) cookie_str) in
    let* _ := external env (LoginBegin login_obj) in
    let* _ := external env (PageGoto page mobile_url "load") in
    let* _ := external env (ClientUpdateCookies client context [mobile_url]) in
    let* (mobile_cookie_str, mobile_cookie_dict) := context_cookies context [mobile_url] in
    notify env (ClientSetCookie client mobile_cookie_str mobile_cookie_dict) ;;
    let is_logged_in := true in
    save_if_logged_in "weibo" context is_logged_in ;;
    ret (client, is_logged_in).

Definition _setup_douyin_client (context page : handle) (cookie_str : string)
    (cookie_dict : list (string * string)) (headless : bool)
  : M (handle * bool) :=
  let* (current_cookie_str, current_cookie_dict) := context_cookies context [] in
  let '(cookie_str, cookie_dict) :=
    if PyStr.nonempty current_cookie_str
    then (current_cookie_str, current_cookie_dict) else (cookie_str, cookie_dict) in
  let* user_agent := external env (PageEvaluate page "() => navigator.userAgent") in
  let headers :=
    with_cookie
      [ ("User-Agent", match user_agent with VStr s => s | _ => EmptyString end);
        ("Host", "www.douyin.com");
        ("Origin", "https://www.douyin.com/");
        ("Referer", "https://www.douyin.com/");
        ("Content-Type", "application/json;charset=UTF-8") ] cookie_str in
  let* client := fresh in
  let* _ := external env (ClientNew "douyin" client page headers cookie_dict) in
  let* pong := external env (ClientPong client) in
  let is_logged_in := truthy pong in
  if is_logged_in then
    save_if_logged_in "douyin" context is_logged_in ;;
    ret (client, is_logged_in)
  else if headless then ret (client, false)
  else
    let* login_obj := fresh in
    let* _ := external env
                (LoginNew "douyin" login_obj context page (LOGIN_TYPE cfg) EmptyString) in
    let* _ := external env (LoginBegin login_obj) in
    let* _ := external env (ClientUpdateCookies client context []) in
    let* (new_cookie_str, new_cookie_dict) := context_cookies context [] in
    notify env (ClientSetCookie client new_cookie_str new_cookie_dict) ;;
    let is_logged_in := true in
    save_if_logged_in "douyin" context is_logged_in ;;
    ret (client, is_logged_in).

Definition _setup_client_and_login (platform : string) (context page : handle)
    (cookie_str : string) (cookie_dict : list (string * string)) (headless : bool)
  : M (handle * bool) :=
  if String.eqb platform "xhs"
  then _setup_xhs_client context page cookie_str cookie_dict headless
  else if String.eqb platform "weibo"
  then _setup_weibo_client context page cookie_str cookie_dict headless
  else if String.eqb platform "douyin"
  then _setup_douyin_client context page cookie_str cookie_dict headless
  else raise (Exn "ValueError" ("Unsupported platform: " +:+ platform)).

(** The loop that injects the cookies of the file for each cookie domain. *)
Fixpoint inject_cookies (context : handle) (cookie_str : string) (domains : list string)
  : M unit :=
  match domains with
  | [] => ret tt
  | domain :: rest =>
      let cookies := CookieManager.format_cookies_for_playwright cookie_str domain "/" in
      match cookies with
      | [] => inject_cookies context cookie_str rest
      | _ =>
          let* _ := external env (AddCookies context cookies) in
          inject_cookies context cookie_str rest
      end
  end.

Definition _create_session (platform : string) (headless : bool)
    (cookies_dir : option string) : M BrowserSession :=
  let platform_config := _get_platform_config platform in
  use_cookie_manager
    (match cookies_dir with
     | Some d => if PyStr.nonempty d then d else COOKIES_DIR cfg
     | None => COOKIES_DIR cfg
     end) ;;
  let* cookie_str := cm_get_cookie platform in
  let cookie_str := if PyStr.nonempty cookie_str then cookie_str else COOKIES cfg in
  let cookie_dict := CookieManager.parse_cookie_string cookie_str in
  let* p := fresh in
  let* _ := external env (PlaywrightStart p) in
  let* browser := fresh in
  let* _ := external env (ChromiumLaunch p browser headless) in
  let* context := fresh in
  let* _ := external env (NewContext browser context (user_agent platform_config)) in
  let* _ := external env (AddInitScript context) in
  (if PyStr.nonempty cookie_str
   then inject_cookies context cookie_str (cookie_domains platform_config)
   else ret tt) ;;
  let* page := fresh in
  let* _ := external env (NewPage context page) in
  let* _ :=
    try_except
      (external env (PageGoto page (index_url platform_config) "domcontentloaded"))
      (fun _ => external env (PageGoto page (index_url platform_config) "load")) in
  let* (client, is_logged_in) :=
    _setup_client_and_login platform context page cookie_str cookie_dict headless in
  let* (final_cookie_str, final_cookie_dict) := context_cookies context [] in
  let* created_at := now env in
  let* oid := fresh in
  ret {| oid := oid;
         platform := platform;
         playwright := p;
         browser := browser;
         context := context;
         page := page;
         client := client;
         cookie_str := final_cookie_str;
         cookie_dict := final_cookie_dict;
         created_at := created_at;
         is_logged_in := is_logged_in |}.

Definition _cleanup_session (platform : string) : M unit :=
  let* w := get_world in
  match _sessions w !! platform with
  | Some session =>
      let* _ := attempt (external env (BrowserClose (browser session))) in
      let* _ := attempt (external env (PlaywrightStop (playwright session))) in
      modify (fun w => set_sessions w (delete platform (_sessions w)))
  | None => ret tt
  end.

(** The last three lines of [get_session]. *)
Definition create_and_store (platform : string) (headless : bool)
    (cookies_dir : option string) : M BrowserSession :=
  let* session := _create_session platform headless cookies_dir in
  modify (fun w => set_sessions w (<[platform := session]> (_sessions w))) ;;
  ret session.

(** One task at a time: taking and releasing the platform lock changes
    nothing. *)
Definition get_session (platform : string) (headless : bool)
    (cookies_dir : option string) (force_new : bool) : M BrowserSession :=
  let* w := get_world in
  match _sessions w !! platform with
  | Some session =>
      if negb force_new then
        let* probe := attempt (external env (PageTitle (page session))) in
        match probe with
        | inr _ => ret session
        | inl _ =>
            _cleanup_session platform ;;
            create_and_store platform headless cookies_dir
        end
      else create_and_store platform headless cookies_dir
  | None => create_and_store platform headless cookies_dir
  end.

Definition close_session (platform : string) : M unit := _cleanup_session platform.

Definition has_session (platform : string) : M bool :=
  let* w := get_world in
  ret (match _sessions w !! platform with Some _ => true | None => false end).

(** [get_browser_session]: the global manager's [get_session]. *)
Definition get_browser_session (platform : string) (headless : bool)
    (cookies_dir : option string) (force_new : bool) : M BrowserSession :=
  get_session platform headless cookies_dir force_new.

(** [for platform in platforms: await self.close_session(platform)] *)
Fixpoint close_each (platforms : list string) : M unit :=
  match platforms with
  | [] => ret tt
  | platform :: rest => close_session platform ;; close_each rest
  end.

(** [close_all] runs through [list(self._sessions.keys())], taken before
    the first session is closed.  The table of the model does not record
    the order of insertion, in which Python lists the keys: the keys are
    listed in the order of the table. *)
Definition close_all : M unit :=
  let* w := get_world in
  close_each (map fst (map_to_list (_sessions w))).

End WithCollaborators.
End BrowserSessionManager.

(* ===================================================================== *)
(** ** adapters/base.py and adapters/xhs/adapter.py *)
(* ===================================================================== *)

(** [ToolResult] with its defaults: [success=True], [data=None],
  [error=None], [metadata={}]. *)
Record ToolResult : Type := {
success : bool;
data : value;
error : option string;
metadata : list (string * value);
}.

Module XhsSignalAdapter.

(** The adapter as [__init__] leaves it ([_use_session_manager] is [True]
    and is never changed). *)
Record t : Type := {
  headless : bool;
  cookies_dir : option string;
  output_dir : option string;
}.

Definition platform : string := "xhs".

Definition failure (message : string) : ToolResult :=
  {| success := false; data := VNone; error := Some message;
     metadata := [("platform", VStr platform)] |}.

Definition truthy_dir (d : option string) : bool :=
  match d with Some s => PyStr.nonempty s | None => false end.

Definition sort_type_map (sort_by : string) : SearchSortType :=
  match assoc sort_by [("general", GENERAL); ("hot", MOST_POPULAR); ("time", LATEST)] with
  | Some t => t
  | None => GENERAL
  end.

Local Open Scope py_scope.

(** The comprehension that drops the [rec_query] and [hot_query] items. *)
Fixpoint filter_notes (notes : list value) : outcome (list value) :=
  match notes with
  | [] => Ret []
  | n :: rest =>
      let! model_type := get n "model_type" VNone in
      let! kept := filter_notes rest in
      Ret (if eq_str model_type "rec_query" || eq_str model_type "hot_query"
           then kept else n :: kept)
  end.

(** The record appended to [keyword_results] for one note. *)
Definition note_record (keyword : string) (note : value) : outcome value :=
  let! note_card := get note "note_card" note in
  let! user_info := get note_card "user" (VDict []) in
  let! interact_info := get note_card "interact_info" (VDict []) in
  let! note_id := get note "id" (VStr EmptyString) in
  let! title0 := get note_card "title" (VStr EmptyString) in
  let! title := get note_card "display_title" title0 in
  let! desc := get note_card "desc" (VStr EmptyString) in
  let! author0 := get user_info "nick_name" (VStr EmptyString) in
  let! author := get user_info "nickname" author0 in
  let! author_id := get user_info "user_id" (VStr EmptyString) in
  let! liked0 := get note_card "liked_count" (VInt 0) in
  let! liked_count := get interact_info "liked_count" liked0 in
  let! collected0 := get note_card "collected_count" (VInt 0) in
  let! collected_count := get interact_info "collected_count" collected0 in
  let! comment0 := get note_card "comments_count" (VInt 0) in
  let! comment_count := get interact_info "comment_count" comment0 in
  let! type := get note_card "type" (VStr EmptyString) in
  let! xsec_token := get note "xsec_token" (VStr EmptyString) in
  Ret (VDict [ ("note_id", note_id);
               ("title", title);
               ("desc", desc);
               ("author", author);
               ("author_id", author_id);
               ("liked_count", liked_count);
               ("collected_count", collected_count);
               ("comment_count", comment_count);
               ("type", type);
               ("keyword", VStr keyword);
               ("xsec_token", xsec_token) ]).

(** [for note in notes]: stops at the limit; an exception leaves what was
    appended before it in [keyword_results]. *)
Fixpoint append_notes (keyword : string) (limit_per_keyword : Z)
    (notes : list value) (keyword_results : list value)
  : list value * option exn :=
  match notes with
  | [] => (keyword_results, None)
  | note :: rest =>
      if limit_per_keyword <=? len keyword_results then (keyword_results, None)
      else match note_record keyword note with
           | Ret record =>
               append_notes keyword limit_per_keyword rest (keyword_results ++ [record])
           | Raise e => (keyword_results, Some e)
           | Diverge => (keyword_results, None)
           end
  end.

(** What one pass of the [while] loop does with the answer of the client:
    the new [keyword_results] and whether the loop goes on to the next
    page ([false]: a [break], also the one in the [except] clause). *)
Definition handle_response (keyword : string) (limit_per_keyword : Z)
    (response : value) (keyword_results : list value) : list value * bool :=
  if negb (truthy response) then (keyword_results, false)
  else
    match get response "items" (VList []) with
    | Ret notes =>
        if negb (truthy notes) then (keyword_results, false)
        else
          match (let! l := iter notes in filter_notes l) with
          | Ret notes =>
              match append_notes keyword limit_per_keyword notes keyword_results with
              | (keyword_results, Some _) => (keyword_results, false)
              | (keyword_results, None) =>
                  match get response "has_more" (VBool false) with
                  | Ret has_more => (keyword_results, truthy has_more)
                  | _ => (keyword_results, false)
                  end
              end
          | _ => (keyword_results, false)
          end
    | _ => (keyword_results, false)
    end.

(** What the [while] loop of one keyword holds after the answers
    [responses] to its requests, one pass for each. *)
Fixpoint collect_pages (keyword : string) (limit_per_keyword : Z)
    (responses : list value) (keyword_results : list value) : list value :=
  match responses with
  | [] => keyword_results
  | response :: rest =>
      collect_pages keyword limit_per_keyword rest
        (fst (handle_response keyword limit_per_keyword response keyword_results))
  end.

(** The record appended to [comments] for one comment. *)
Definition comment_record (comment : value) : outcome value :=
  let! comment_id := get comment "id" (VStr EmptyString) in
  let! content := get comment "content" (VStr EmptyString) in
  let! user_info := get comment "user_info" (VDict []) in
  let! author := get user_info "nickname" (VStr EmptyString) in
  let! user_info' := get comment "user_info" (VDict []) in
  let! author_id := get user_info' "user_id" (VStr EmptyString) in
  let! liked_count := get comment "like_count" (VInt 0) in
  let! create_time := get comment "create_time" (VStr EmptyString) in
  let! sub_comment_count := get comment "sub_comment_count" (VInt 0) in
  Ret (VDict [ ("comment_id", comment_id);
               ("content", content);
               ("author", author);
               ("author_id", author_id);
               ("liked_count", liked_count);
               ("create_time", create_time);
               ("sub_comment_count", sub_comment_count) ]).

(** [for comment in result.get("comments", [])]: every comment of the page
    is appended. *)
Fixpoint append_comments (page_comments : list value) (comments : list value)
  : outcome (list value) :=
  match page_comments with
  | [] => Ret comments
  | comment :: rest =>
      let! record := comment_record comment in
      append_comments rest (comments ++ [record])
  end.





Section WithCollaborators.

Context (env : oracle) (cfg : Config).
Local Open Scope m_scope.

Definition _get_session (self : t) (force_new : bool) : M BrowserSession :=
  BrowserSessionManager.get_browser_session env cfg
    "xhs" (headless self) (cookies_dir self) force_new.

Definition _get_cookie (self : t) : M string :=
  Globals.use_cookie_manager
    (if truthy_dir (cookies_dir self)
     then default EmptyString (cookies_dir self) else COOKIES_DIR cfg) ;;
  let* cookie_str := Globals.cm_get_cookie env cfg "xhs" in
  ret (if PyStr.nonempty cookie_str then cookie_str else COOKIES cfg).

(** The [while] loop of [search_notes] for one keyword; [fuel] bounds the
    number of pages asked for. *)
Fixpoint keyword_loop (fuel : nat) (client : handle) (keyword : string)
    (sort_type : SearchSortType) (limit_per_keyword : Z) (page : Z)
    (keyword_results : list value) : M (list value) :=
  if len keyword_results <? limit_per_keyword then
    match fuel with
    | O => diverge
    | S fuel =>
        let* answer :=
          attempt (external env (GetNoteByKeyword client keyword page sort_type)) in
        match answer with
        | inl _ => ret keyword_results
        | inr response =>
            match handle_response keyword limit_per_keyword response keyword_results with
            | (keyword_results, true) =>
                keyword_loop fuel client keyword sort_type limit_per_keyword
                  (page + 1) keyword_results
            | (keyword_results, false) => ret keyword_results
            end
        end
    end
  else ret keyword_results.

(** [for keyword in keyword_list] *)
Fixpoint keywords_loop (fuel : nat) (client : handle) (sort_type : SearchSortType)
    (limit_per_keyword : Z) (keyword_list : list string) (results : list value)
  : M (list value) :=
  match keyword_list with
  | [] => ret results
  | keyword :: rest =>
      let* keyword_results :=
        keyword_loop fuel client keyword sort_type limit_per_keyword 1 [] in
      keywords_loop fuel client sort_type limit_per_keyword rest
        (results ++ keyword_results)
  end.

(** The guard at the top of [search_notes]: no session login, no cookie
    and a headless browser. *)
Definition no_cookie_headless (self : t) (session : BrowserSession) : M bool :=
  if negb (is_logged_in session) then
    let* cookie_str := _get_cookie self in
    ret (negb (PyStr.nonempty cookie_str) && headless self)
  else ret false.

(** The [try] block of [search_notes]. *)
Definition search_notes_try (fuel : nat) (self : t) (keywords : string) (limit : Z)
    (sort_by : string) (save_results : bool) : M ToolResult :=
  let* session := _get_session self false in
  let* rejected := no_cookie_headless self session in
  if rejected then
    ret (failure "No cookies found and headless mode enabled. Please add cookies to cookies/xhs_cookies.txt or run with headless=False for QR login.")
  else
    let client := client session in
    let sort_type := sort_type_map sort_by in
    let keyword_list := map PyStr.strip (PyStr.split "," keywords) in
    let limit_per_keyword :=
      match keyword_list with
      | [] => limit
      | _ => limit / len keyword_list
      end in
    let* results :=
      keywords_loop fuel client sort_type limit_per_keyword keyword_list [] in
    let final_results := slice_to results limit in
    let* saved_path :=
      if save_results && truthy (VList final_results) then
        external env
          (SaveJson (VList final_results)
             ("search_" +:+ PyStr.join "_" (slice_to keyword_list 2)) "notes")
      else ret VNone in
    ret {| success := true;
           data := VList final_results;
           error := None;
           metadata := [ ("total", VInt (len final_results));
                         ("keywords", VList (map VStr keyword_list));
                         ("platform", VStr platform);
                         ("saved_path", saved_path) ] |}.

(** The [except Exception as e] clause of the four operations. *)
Definition on_exception (e : exn) : M ToolResult := ret (failure (str_of_exn e)).

Definition search_notes (fuel : nat) (self : t) (keywords : string) (limit : Z)
    (sort_by : string) (save_results : bool) : M ToolResult :=
  try_except (search_notes_try fuel self keywords limit sort_by save_results)
             on_exception.

(** The URL handling shared by [get_note_detail] and [get_note_comments]. *)
Definition resolve_note (note_id xsec_token : string) : M (string * string) :=
  let xsec_token_from_url := xsec_token in
  if PyStr.contains "xiaohongshu.com" note_id || PyStr.contains "xhslink.com" note_id then
    let* (url_note_id, url_xsec_token) :=
      of_sum (parse_note_info_from_note_url cfg note_id) in
    ret (url_note_id,
         if negb (PyStr.nonempty xsec_token_from_url) && PyStr.nonempty url_xsec_token
         then url_xsec_token else xsec_token_from_url)
  else ret (note_id, xsec_token_from_url).

Definition note_detail_data (note_id : string) (note_detail : value) : outcome value :=
  (let! r_note_id := get note_detail "note_id" (VStr note_id) in
   let! title := get note_detail "title" (VStr EmptyString) in
   let! desc := get note_detail "desc" (VStr EmptyString) in
   let! content := get note_detail "desc" (VStr EmptyString) in
   let! user := get note_detail "user" (VDict []) in
   let! author := get user "nickname" (VStr EmptyString) in
   let! user' := get note_detail "user" (VDict []) in
   let! author_id := get user' "user_id" (VStr EmptyString) in
   let! interact := get note_detail "interact_info" (VDict []) in
   let! liked_count := get interact "liked_count" (VInt 0) in
   let! collected_count := get interact "collected_count" (VInt 0) in
   let! comment_count := get interact "comment_count" (VInt 0) in
   let! share_count := get interact "share_count" (VInt 0) in
   let! create_time := get note_detail "time" (VStr EmptyString) in
   let! last_update_time := get note_detail "last_update_time" (VStr EmptyString) in
   let! image_list := get note_detail "image_list" (VList []) in
   let! tag_list := get note_detail "tag_list" (VList []) in
   Ret (VDict [ ("note_id", r_note_id);
                ("title", title);
                ("desc", desc);
                ("content", content);
                ("author", author);
                ("author_id", author_id);
                ("liked_count", liked_count);
                ("collected_count", collected_count);
                ("comment_count", comment_count);
                ("share_count", share_count);
                ("create_time", create_time);
                ("last_update_time", last_update_time);
                ("image_list", image_list);
                ("tag_list", tag_list) ]))%py.

(** The [try] block of [get_note_detail]. *)
Definition get_note_detail_try (self : t) (note_id xsec_token : string)
    (save_result : bool) : M ToolResult :=
  let* (note_id, xsec_token_from_url) := resolve_note note_id xsec_token in
  let* session := _get_session self false in
  let client := client session in
  let* note_detail :=
    external env (GetNoteById client note_id "pc_search" xsec_token_from_url) in
  if truthy note_detail then
    let* d := lift (note_detail_data note_id note_detail) in
    ret {| success := true; data := d; error := None;
           metadata := [("platform", VStr platform)] |}
  else ret (failure ("Note not found: " +:+ note_id)).

Definition get_note_detail (self : t) (note_id xsec_token : string)
    (save_result : bool) : M ToolResult :=
  try_except (get_note_detail_try self note_id xsec_token save_result) on_exception.

(** The [while] loop of [get_note_comments]; [fuel] bounds the number of
    pages asked for. *)
Fixpoint comments_loop (fuel : nat) (client : handle) (note_id xsec_token : string)
    (limit : Z) (cursor : value) (comments : list value) : M (list value) :=
  if len comments <? limit then
    match fuel with
    | O => diverge
    | S fuel =>
        let* result :=
          external env (GetNoteComments client note_id xsec_token cursor) in
        let* has_comments :=
          lift (if negb (truthy result) then Ret false
                else contains_key "comments" result) in
        if negb has_comments then ret comments
        else
          let* comments :=
            lift (let! page_comments := get result "comments" (VList []) in
                  let! page_comments := iter page_comments in
                  append_comments page_comments comments)%py in
          let* cursor := lift (get result "cursor" (VStr EmptyString)) in
          let* has_more := lift (get result "has_more" (VBool false)) in
          if negb (truthy has_more) then ret comments
          else comments_loop fuel client note_id xsec_token limit cursor comments
    end
  else ret comments.











End WithCollaborators.


(** A search result that stems from [keyword]. *)
Definition tagged (keyword : string) (item : value) : Prop :=
  get item "keyword" VNone = Ret (VStr keyword).


End XhsSignalAdapter.

(* ===================================================================== *)
(** ** Reading the log *)
(* ===================================================================== *)

Module Trace.

(** What a run from [w] to [w'] added to the log. *)
Definition new_events (w w' : world) : list event :=
  drop (length (log w)) (log w').

(** The interactive login object is constructed or started. *)
Definition is_login (e : event) : bool :=
  match e with
  | Event (LoginNew _ _ _ _ _ _) _ => true
  | Event (LoginBegin _) _ => true
  | _ => false
  end.

(** [client.pong()] returned something false. *)
Definition is_failed_probe (e : event) : bool :=
  match e with
  | Event (ClientPong _) (Returns v) => negb (truthy v)
  | _ => false
  end.

(** [client.pong()] is called. *)
Definition is_probe (e : event) : bool :=
  match e with
  | Event (ClientPong _) _ => true
  | _ => false
  end.

(** [browser.close()] or [playwright.stop()] on a resource of [s]. *)
Definition is_close_of (s : BrowserSession) (e : event) : bool :=
  match e with
  | Event (BrowserClose b) _ => (b =? browser s)%nat
  | Event (PlaywrightStop p) _ => (p =? playwright s)%nat
  | _ => false
  end.

Definition is_close (e : event) : bool :=
  match e with
  | Event (BrowserClose _) _ => true
  | Event (PlaywrightStop _) _ => true
  | _ => false
  end.

(** A browser is launched. *)
Definition is_launch (e : event) : bool :=
  match e with
  | Event (PlaywrightStart _) _ => true
  | Event (ChromiumLaunch _ _ _) _ => true
  | _ => false
  end.

(** A page of search results or of comments is asked for. *)
Definition is_search (e : event) : bool :=
  match e with
  | Event (GetNoteByKeyword _ _ _ _) _ => true
  | _ => false
  end.

Definition is_comments_request (e : event) : bool :=
  match e with
  | Event (GetNoteComments _ _ _ _) _ => true
  | _ => false
  end.


Definition no_search (e : event) : bool := negb (is_search e).



(** The requests for the pages from [page] on, one after the other, that
    were answered with [responses]. *)
Fixpoint answered_pages (client : handle) (keyword : string) (sort : SearchSortType)
    (page : Z) (responses : list value) : list event :=
  match responses with
  | [] => []
  | response :: rest =>
      Event (GetNoteByKeyword client keyword page sort) (Returns response)
      :: answered_pages client keyword sort (page + 1) rest
  end.


(** A run of [m] comes to an end without using up a loop budget, and
    every event it logs satisfies [p]. *)
Definition emits {A} (p : event -> bool) (m : M A) : Prop :=
  forall w r w', m w = (r, w') ->
    r <> Diverge /\
    exists evs, log w' = log w ++ evs /\ Forall (fun e => p e = true) evs.

(** [m] never raises. *)
Definition no_raise {A} (m : M A) : Prop :=
  forall w e w', m w <> (Raise e, w').

Definition call_of (e : event) : call := match e with Event c _ => c end.

(** Requests for pages of comments, each but the first with the cursor
    that the answer to the one before it holds (the empty string when it
    holds none). *)
Fixpoint cursor_chain (client : handle) (note_id xsec_token : string)
    (cursor : value) (evs : list event) : Prop :=
  match evs with
  | [] => True
  | Event c r :: rest =>
      c = GetNoteComments client note_id xsec_token cursor /\
      match rest with
      | [] => True
      | _ :: _ =>
          exists result next,
            r = Returns result /\
            get result "cursor" (VStr EmptyString) = Ret next /\
            cursor_chain client note_id xsec_token next rest
      end
  end.

(** A run of [m] leaves the part [f] of the state of the process as it
    was. *)
Definition keeps {A X} (f : world -> X) (m : M A) : Prop :=
  forall w r w', m w = (r, w') -> f w' = f w.

End Trace.

Import Trace.

(* ===================================================================== *)
(** ** Sample collaborators *)
(* ===================================================================== *)

Module Examples.

Definition cfg0 : Config :=
  {| COOKIES := EmptyString;
     COOKIES_DIR := "./cookies";
     LOGIN_TYPE := "qrcode";
     convert_cookies := fun v =>
       match v with
       | VStr s => (s, CookieManager.parse_cookie_string s)
       | _ => (EmptyString, [])
       end;
     get_mobile_user_agent := "Mozilla/5.0 (iPhone)";
     parse_note_info_from_note_url := fun url => inr (url, EmptyString) |}.

Definition note (i : Z) : value :=
  VDict [ ("id", VInt i);
          ("note_card", VDict [("display_title", VStr "title")]) ].

(** A browser that is logged in; a client that has one page of three notes
    for every keyword but [bad], for which it raises, and that always has
    another page of three comments. *)
Definition logged_in : oracle := fun _ c =>
  match c with
  | ClientPong _ => Returns (VBool true)
  | ContextCookies _ _ => Returns (VStr "a=1; b=2")
  | GetNoteByKeyword _ keyword _ _ =>
      if String.eqb keyword "bad" then Raises (Exn "TimeoutError" "boom")
      else Returns (VDict [ ("items", VList [note 1; note 2; note 3]);
                            ("has_more", VBool false) ])
  | GetNoteComments _ _ _ _ =>
      Returns (VDict [ ("comments", VList [VDict []; VDict []; VDict []]);
                       ("cursor", VStr "next");
                       ("has_more", VBool true) ])
  | _ => Returns VNone
  end.

(** A browser without cookies whose login probe fails. *)
Definition logged_out : oracle := fun _ c =>
  match c with
  | ClientPong _ => Returns (VBool false)
  | ContextCookies _ _ => Returns (VStr EmptyString)
  | _ => Returns VNone
  end.


(** A client that has two pages for the keyword [bad], three notes on the
    first, and raises when asked for the second; for every other keyword it
    has one page of three notes. *)
Definition flaky : oracle := fun _ c =>
  match c with
  | ClientPong _ => Returns (VBool true)
  | ContextCookies _ _ => Returns (VStr "a=1; b=2")
  | GetNoteByKeyword _ keyword page _ =>
      if String.eqb keyword "bad" && (2 <=? page)
      then Raises (Exn "TimeoutError" "boom")
      else Returns (VDict [ ("items", VList [note 1; note 2; note 3]);
                            ("has_more", VBool (String.eqb keyword "bad")) ])
  | _ => Returns VNone
  end.

(** A machine on which no call to the outside succeeds. *)
Definition broken : oracle := fun _ _ => Raises (Exn "Error" "browser not installed").

(** What [search_notes] makes of the three notes for [keyword]. *)
Definition found (keyword : string) : list value :=
  map (fun i => VDict [ ("note_id", VInt i); ("title", VStr "title");
                        ("desc", VStr EmptyString); ("author", VStr EmptyString);
                        ("author_id", VStr EmptyString); ("liked_count", VInt 0);
                        ("collected_count", VInt 0); ("comment_count", VInt 0);
                        ("type", VStr EmptyString); ("keyword", VStr keyword);
                        ("xsec_token", VStr EmptyString) ]) [1; 2; 3].

(** A cookie file with two accounts. *)
Definition two_accounts : string := "a=1" +:+ PyStr.nl +:+ "b=2" +:+ PyStr.nl.

Definition disk : gmap string string := {[ "cookies/xhs_cookies.txt" := two_accounts ]}.

(** The [ToolResult] a run returned. *)
Definition returned (run : outcome ToolResult * world) : ToolResult :=
  match fst run with
  | Ret tr => tr
  | _ => XhsSignalAdapter.failure EmptyString
  end.

(** A fresh process with an empty disk. *)
Definition w0 : world :=
  {| log := []; next_id := 0%nat; fs := ∅; _cookie_manager := None; _sessions := ∅ |}.

(** [XhsSignalAdapter()] with its defaults. *)
Definition adapter : XhsSignalAdapter.t :=
  {| XhsSignalAdapter.headless := true;
     XhsSignalAdapter.cookies_dir := None;
     XhsSignalAdapter.output_dir := None |}.

(** The process after a first [get_session("xhs", headless=True)]. *)
Definition w1 : world :=
  snd (BrowserSessionManager.get_session logged_in cfg0 "xhs" true None false w0).

Definition s1 : BrowserSession :=
  {| oid := 5%nat; platform := "xhs"; playwright := 0%nat; browser := 1%nat;
     context := 2%nat; page := 3%nat; client := 4%nat;
     cookie_str := "a=1; b=2"; cookie_dict := [("a", "1"); ("b", "2")];
     created_at := VNone; is_logged_in := true |}.

End Examples.

(* ===================================================================== *)
(** * Properties *)
(* ===================================================================== *)

(** ** Running code only appends to the log *)

Section LogLemmas.

Context (env : oracle).
Context {A B : Type}.
Implicit Types (p : event -> bool).

Lemma new_events_app (w w' : world) (evs : list event) :
  log w' = log w ++ evs -> new_events w w' = evs.
Proof.
  intros H. unfold new_events. rewrite H. apply drop_app_length.
Qed.

Lemma new_events_extend (w W w' : world) (evs0 evs : list event) :
  log W = log w ++ evs0 -> log w' = log W ++ evs -> new_events w w' = evs0 ++ evs.
Proof.
  intros H0 H1. apply new_events_app. by rewrite H1, H0, app_assoc.
Qed.

Lemma existsb_Forall_false {X} (p : X -> bool) (l : list X) :
  Forall (fun x => negb (p x) = true) l -> existsb p l = false.
Proof.
  induction 1 as [|x l Hx _ IH]; simpl; [done|].
  rewrite IH. by destruct (p x).
Qed.

Local Ltac silent :=
  intros w r w' [= <- <-]; split; [done|];
  exists []; simpl; rewrite app_nil_r; by split.

Lemma emits_ret p (a : A) : emits p (ret a).
Proof. silent. Qed.

Lemma emits_raise p (e : exn) : emits p (@raise A e).
Proof. silent. Qed.


Lemma emits_of_sum p (o : exn + A) : emits p (of_sum o).
Proof. intros w r w' [= <- <-]. split; [by destruct o|]. exists []. rewrite app_nil_r. by split. Qed.

Lemma emits_get_world p : emits p get_world.
Proof. silent. Qed.

Lemma emits_fresh p : emits p fresh.
Proof. silent. Qed.

Lemma emits_modify p (f : world -> world) :
  (forall w, log (f w) = log w) -> emits p (modify f).
Proof.
  intros Hf w r w' [= <- <-]. split; [done|].
  exists []. rewrite Hf, app_nil_r. by split.
Qed.

Lemma emits_external p (c : call) :
  (forall r, p (Event c r) = true) -> emits p (external env c).
Proof.
  intros Hp w r w' [= <- <-]. split; [by destruct (env (log w) c)|].
  exists [Event c (env (log w) c)]. simpl. split; [done|]. by constructor.
Qed.

Lemma emits_notify p (c : call) :
  (forall r, p (Event c r) = true) -> emits p (notify env c).
Proof.
  intros Hp w r w' [= <- <-]. split; [done|].
  exists [Event c (env (log w) c)]. simpl. split; [done|]. by constructor.
Qed.

Lemma emits_random_index p (n : nat) :
  (forall r, p (Event (RandomChoice n) r) = true) -> emits p (random_index env n).
Proof.
  intros Hp w r w' [= <- <-]. split; [done|].
  eexists [_]. simpl. split; [done|]. by constructor.
Qed.

Lemma emits_now p :
  (forall r, p (Event DatetimeNow r) = true) -> emits p (now env).
Proof.
  intros Hp w r w' [= <- <-]. split; [done|].
  eexists [_]. simpl. split; [done|]. by constructor.
Qed.

Lemma emits_bind p (m : M A) (k : A -> M B) :
  emits p m -> (forall a, emits p (k a)) -> emits p (bind m k).
Proof.
  intros Hm Hk w r w'. unfold bind.
  destruct (m w) as [[a|e|] w1] eqn:E; intros H.
  - destruct (Hm _ _ _ E) as (_ & evs1 & L1 & F1).
    destruct (Hk a _ _ _ H) as (D & evs2 & L2 & F2). split; [done|].
    exists (evs1 ++ evs2). rewrite L2, L1, app_assoc. split; [done|].
    by apply Forall_app.
  - injection H as <- <-. destruct (Hm _ _ _ E) as (_ & H). by split.
  - by destruct (Hm _ _ _ E) as (D & _).
Qed.

Lemma emits_try_except p (body : M A) (handler : exn -> M A) :
  emits p body -> (forall e, emits p (handler e)) -> emits p (try_except body handler).
Proof.
  intros Hm Hk w r w'. unfold try_except.
  destruct (body w) as [[a|e|] w1] eqn:E; intros H.
  - injection H as <- <-. eauto.
  - destruct (Hm _ _ _ E) as (_ & evs1 & L1 & F1).
    destruct (Hk e _ _ _ H) as (D & evs2 & L2 & F2). split; [done|].
    exists (evs1 ++ evs2). rewrite L2, L1, app_assoc. split; [done|].
    by apply Forall_app.
  - by destruct (Hm _ _ _ E) as (D & _).
Qed.

Lemma emits_attempt p (m : M A) : emits p m -> emits p (attempt m).
Proof.
  intros Hm w r w'. unfold attempt.
  destruct (m w) as [[a|e|] w1] eqn:E; intros [= <- <-];
    destruct (Hm _ _ _ E) as (D & H); by split.
Qed.

Lemma emits_weaken p q (m : M A) :
  (forall e, p e = true -> q e = true) -> emits p m -> emits q m.
Proof.
  intros Hpq Hm w r w' H. destruct (Hm _ _ _ H) as (D & evs & L & F).
  split; [done|]. exists evs. split; [done|]. eapply Forall_impl; [exact F|]. auto.
Qed.

End LogLemmas.

Ltac accept_event :=
  intros ?;
  first [ reflexivity
        | match goal with H : forall e : event, _ |- _ => apply H; reflexivity end ].

Ltac emits_step :=
  match goal with
  | |- emits _ (bind _ _) => apply emits_bind; [|intros ?]
  | |- emits _ (ret _) => apply emits_ret
  | |- emits _ (raise _) => apply emits_raise
  | |- emits _ (of_sum _) => apply emits_of_sum
  | |- emits _ fresh => apply emits_fresh
  | |- emits _ get_world => apply emits_get_world
  | |- emits _ (external _ _) => apply emits_external; accept_event
  | |- emits _ (notify _ _) => apply emits_notify; accept_event
  | |- emits _ (now _) => apply emits_now; accept_event
  | |- emits _ (random_index _ _) => apply emits_random_index; accept_event
  | |- emits _ (modify _) => apply emits_modify; intros ?; reflexivity
  | |- emits _ (try_except _ _) => apply emits_try_except; [|intros ?]
  | |- emits _ (attempt _) => apply emits_attempt
  | |- emits _ (if ?b then _ else _) => destruct b
  | |- emits _ (match ?x with _ => _ end) => destruct x
  | |- emits _ _ => solve [eauto]
  end.

Ltac emits_auto := repeat emits_step.

(** ** The session manager *)

Section SessionManager.

Context (env : oracle) (cfg : Config).

Local Abbreviation get_session := (BrowserSessionManager.get_session env cfg).

Section Passive.

(** [p] holds of every event that is neither a close, nor a login, nor
    a login probe, nor a search request. *)
Variable p : event -> bool.
Hypothesis p_passive :
  forall e, is_close e = false -> is_login e = false -> is_probe e = false ->
            is_search e = false -> p e = true.

Lemma emits_use_cookie_manager dir : emits p (Globals.use_cookie_manager dir).
Proof. unfold Globals.use_cookie_manager. emits_auto. Qed.

Lemma emits_cm_get_cookie platform : emits p (Globals.cm_get_cookie env cfg platform).
Proof. unfold Globals.cm_get_cookie. emits_auto. Qed.

Lemma emits_cm_save_cookie platform c : emits p (Globals.cm_save_cookie cfg platform c).
Proof. unfold Globals.cm_save_cookie. emits_auto. Qed.

Lemma emits_context_cookies context urls :
  emits p (Globals.context_cookies env cfg context urls).
Proof. unfold Globals.context_cookies. emits_auto. Qed.

Lemma emits_save_if_logged_in platform context b :
  emits p (BrowserSessionManager.save_if_logged_in env cfg platform context b).
Proof.
  pose proof emits_context_cookies. pose proof emits_cm_save_cookie.
  unfold BrowserSessionManager.save_if_logged_in. emits_auto.
Qed.

End Passive.

(** The tail of a [_setup_*_client] that found the browser logged in makes
    neither a login call nor a probe. *)
Lemma save_if_logged_in_quiet platform context b w r w' :
  BrowserSessionManager.save_if_logged_in env cfg platform context b w = (r, w') ->
  exists evs, log w' = log w ++ evs /\
              existsb is_login evs = false /\ existsb is_failed_probe evs = false.
Proof.
  intros H.
  destruct (emits_save_if_logged_in
              (fun e => negb (is_login e) && negb (is_probe e))
              ltac:(intros e _ H1 H2 _; simpl; by rewrite H1, H2)
              platform context b _ _ _ H) as (_ & evs & L & F).
  exists evs. split; [done|].
  split; apply existsb_Forall_false; (eapply Forall_impl; [exact F|]); simpl;
    intros [[] []]; simpl; try done; intros; by destruct (truthy _).
Qed.

(** Claim C4.  Given a stored session [s] for platform [P] whose liveness
    probe ([page.title()]) succeeds at both calls, two calls of [get_session]
    for [P] in a row without [force_new] both return the session object [s]
    itself; the session table is left as it was, no object is created, and
    the two probes are the only calls made: nothing is launched. *)
Theorem get_session_reuses_live_session
    (P : string) (s : BrowserSession) (w : world)
    (headless1 headless2 : bool) (dir1 dir2 : option string) (t1 t2 : value) :
  _sessions w !! P = Some s ->
  env (log w) (PageTitle (page s)) = Returns t1 ->
  env (log w ++ [Event (PageTitle (page s)) (Returns t1)]) (PageTitle (page s))
    = Returns t2 ->
  exists w1 w2,
    get_session P headless1 dir1 false w = (Ret s, w1) /\
    get_session P headless2 dir2 false w1 = (Ret s, w2) /\
    _sessions w2 = _sessions w /\
    next_id w2 = next_id w /\
    new_events w w2 = [Event (PageTitle (page s)) (Returns t1);
                       Event (PageTitle (page s)) (Returns t2)].
Proof.
  intros Hs H1 H2.
  set (w1 := set_log w (log w ++ [Event (PageTitle (page s)) (Returns t1)])).
  set (w2 := set_log w1 (log w1 ++ [Event (PageTitle (page s)) (Returns t2)])).
  exists w1, w2.
  assert (R1 : get_session P headless1 dir1 false w = (Ret s, w1)).
  { unfold BrowserSessionManager.get_session, bind, get_world. rewrite Hs. simpl.
    unfold attempt, external. rewrite H1. reflexivity. }
  assert (R2 : get_session P headless2 dir2 false w1 = (Ret s, w2)).
  { unfold BrowserSessionManager.get_session, bind, get_world.
    replace (_sessions w1 !! P) with (Some s) by (symmetry; exact Hs). simpl.
    unfold attempt, external. simpl. rewrite H2. reflexivity. }
  repeat split; try assumption; try reflexivity.
  apply new_events_app. simpl. by rewrite <- app_assoc.
Qed.

End SessionManager.

Section LoginGate.
Context (env : oracle) (cfg : Config).

Local Ltac run_setup H :=
  repeat match type of H with
  | context [env ?h ?c] => destruct (env h c) eqn:? ; simpl in H
  | context [convert_cookies ?cfg ?v] => destruct (convert_cookies cfg v) eqn:? ; simpl in H
  | context [if ?b then _ else _] => destruct b eqn:? ; simpl in H
  end.

Local Ltac finish_setup platform ctx H :=
  lazymatch type of H with
  | (let (_, _) := ?T ?W in _) = _ =>
      let E := fresh "E" in
      let o := fresh "o" in
      let w4 := fresh "w" in
      let evs := fresh "evs" in
      let L := fresh "L" in
      let Hl := fresh "Hl" in
      let Hp := fresh "Hp" in
      destruct (T W) as [o w4] eqn:E;
      destruct (save_if_logged_in_quiet env cfg platform ctx true _ _ _ E)
        as (evs & L & Hl & Hp);
      destruct o; injection H as <- <-;
      unfold new_events; rewrite L; simpl;
      rewrite <- ?app_assoc, drop_app_length; simpl;
      rewrite ?Hl, ?Hp
  | _ =>
      injection H as <- <-; unfold new_events; simpl;
      rewrite <- ?app_assoc, drop_app_length; simpl
  end;
  repeat match goal with Hb : truthy _ = _ |- _ => rewrite Hb end; simpl;
  intuition (try discriminate; eauto).

Lemma xhs_login_gate ctx page cs cd headless w r w' :
  BrowserSessionManager._setup_xhs_client env cfg ctx page cs cd headless w = (r, w') ->
  (existsb is_login (new_events w w') = true ->
   headless = false /\ existsb is_failed_probe (new_events w w') = true) /\
  (headless = true -> existsb is_failed_probe (new_events w w') = true ->
   exists client, r = Ret (client, false)).
Proof.
  unfold BrowserSessionManager._setup_xhs_client, Globals.context_cookies.
  unfold bind, external, fresh, ret. simpl.
  intros H. run_setup H; finish_setup "xhs" ctx H.
Qed.

Lemma douyin_login_gate ctx page cs cd headless w r w' :
  BrowserSessionManager._setup_douyin_client env cfg ctx page cs cd headless w = (r, w') ->
  (existsb is_login (new_events w w') = true ->
   headless = false /\ existsb is_failed_probe (new_events w w') = true) /\
  (headless = true -> existsb is_failed_probe (new_events w w') = true ->
   exists client, r = Ret (client, false)).
Proof.
  unfold BrowserSessionManager._setup_douyin_client, Globals.context_cookies.
  unfold bind, external, notify, fresh, ret. simpl.
  intros H. run_setup H; finish_setup "douyin" ctx H.
Qed.

Lemma weibo_login_gate ctx page cs cd headless w r w' :
  BrowserSessionManager._setup_weibo_client env cfg ctx page cs cd headless w = (r, w') ->
  (existsb is_login (new_events w w') = true ->
   headless = false /\ existsb is_failed_probe (new_events w w') = true) /\
  (headless = true -> existsb is_failed_probe (new_events w w') = true ->
   exists client, r = Ret (client, false)).
Proof.
  unfold BrowserSessionManager._setup_weibo_client, Globals.context_cookies.
  unfold bind, external, notify, fresh, ret. simpl.
  intros H. run_setup H; finish_setup "weibo" ctx H.
Qed.

End LoginGate.

Section SessionReplacement.

Context (env : oracle) (cfg : Config).

(** [p] holds of every event that is neither a close nor a search request. *)
Variable p : event -> bool.
Hypothesis p_no_close :
  forall e, is_close e = false -> is_search e = false -> p e = true.

Let p_passive :
  forall e, is_close e = false -> is_login e = false -> is_probe e = false ->
            is_search e = false -> p e = true.
Proof. auto. Qed.

Lemma emits_setup platform ctx page cookie_str cookie_dict headless :
  emits p (BrowserSessionManager._setup_client_and_login env cfg
             platform ctx page cookie_str cookie_dict headless).
Proof.
  pose proof (emits_context_cookies env cfg p p_passive).
  pose proof (emits_save_if_logged_in env cfg p p_passive).
  unfold BrowserSessionManager._setup_client_and_login,
    BrowserSessionManager._setup_xhs_client,
    BrowserSessionManager._setup_weibo_client,
    BrowserSessionManager._setup_douyin_client.
  emits_auto.
Qed.

Lemma emits_inject_cookies ctx cookie_str domains :
  emits p (BrowserSessionManager.inject_cookies env ctx cookie_str domains).
Proof.
  induction domains as [|d ds IH]; simpl; emits_auto.
Qed.

(** Creating a session closes nothing. *)
Lemma emits_create_session platform headless cookies_dir :
  emits p (BrowserSessionManager._create_session env cfg platform headless cookies_dir).
Proof.
  pose proof (emits_context_cookies env cfg p p_passive).
  pose proof (emits_cm_get_cookie env cfg p p_passive).
  pose proof (emits_use_cookie_manager p).
  pose proof emits_inject_cookies.
  pose proof emits_setup.
  unfold BrowserSessionManager._create_session.
  emits_auto.
Qed.

Lemma emits_create_and_store platform headless cookies_dir :
  emits p (BrowserSessionManager.create_and_store env cfg platform headless cookies_dir).
Proof.
  pose proof emits_create_session.
  unfold BrowserSessionManager.create_and_store. emits_auto.
Qed.

End SessionReplacement.

Section Acquisition.

Context (env : oracle) (cfg : Config).

(** [p] holds of every event that is not a search request. *)
Variable p : event -> bool.
Hypothesis p_no_search : forall e, is_search e = false -> p e = true.

Let p_no_close : forall e, is_close e = false -> is_search e = false -> p e = true.
Proof. auto. Qed.

Let p_passive :
  forall e, is_close e = false -> is_login e = false -> is_probe e = false ->
            is_search e = false -> p e = true.
Proof. auto. Qed.

Lemma emits_cleanup_session platform :
  emits p (BrowserSessionManager._cleanup_session env platform).
Proof. unfold BrowserSessionManager._cleanup_session. emits_auto. Qed.

(** Getting a session sends no search request and comes to an end. *)
Lemma emits_get_session platform headless cookies_dir force_new :
  emits p (BrowserSessionManager.get_session env cfg platform headless cookies_dir force_new).
Proof.
  pose proof emits_cleanup_session.
  pose proof (emits_create_and_store env cfg p p_no_close).
  unfold BrowserSessionManager.get_session. emits_auto.
Qed.

Lemma emits__get_session self force_new :
  emits p (XhsSignalAdapter._get_session env cfg self force_new).
Proof. apply emits_get_session. Qed.

Lemma emits__get_cookie self : emits p (XhsSignalAdapter._get_cookie env cfg self).
Proof.
  pose proof (emits_cm_get_cookie env cfg p p_passive).
  pose proof (emits_use_cookie_manager p).
  unfold XhsSignalAdapter._get_cookie. emits_auto.
Qed.

Lemma emits_no_cookie_headless self session :
  emits p (XhsSignalAdapter.no_cookie_headless env cfg self session).
Proof.
  pose proof emits__get_cookie.
  unfold XhsSignalAdapter.no_cookie_headless. emits_auto.
Qed.


End Acquisition.

Section LoginClaim.
Context (env : oracle) (cfg : Config).
Local Abbreviation get_session := (BrowserSessionManager.get_session env cfg).

(** Claim C7.  For a run of the authentication step of session creation
    ([_setup_client_and_login], which is [_setup_xhs_client],
    [_setup_weibo_client] or [_setup_douyin_client]): a login object is
    constructed or started only when [headless] is false; and when
    [headless] is true and the login probe [client.pong()] has returned
    something false, no login call is made and the step returns the client
    with [is_logged_in = False]. *)
Theorem interactive_login_only_with_visible_browser
    (platform : string) (ctx page : handle) (cookie_str : string)
    (cookie_dict : list (string * string)) (headless : bool)
    (w : world) (r : outcome (handle * bool)) (w' : world) :
  BrowserSessionManager._setup_client_and_login env cfg
    platform ctx page cookie_str cookie_dict headless w = (r, w') ->
  (existsb is_login (new_events w w') = true -> headless = false) /\
  (headless = true -> existsb is_failed_probe (new_events w w') = true ->
   existsb is_login (new_events w w') = false /\
   exists client, r = Ret (client, false)).
Proof.
  unfold BrowserSessionManager._setup_client_and_login. intros H.
  assert (G :
    (existsb is_login (new_events w w') = true ->
     headless = false /\ existsb is_failed_probe (new_events w w') = true) /\
    (headless = true -> existsb is_failed_probe (new_events w w') = true ->
     exists client, r = Ret (client, false))).
  { destruct (String.eqb platform "xhs"); [by eapply xhs_login_gate|].
    destruct (String.eqb platform "weibo"); [by eapply weibo_login_gate|].
    destruct (String.eqb platform "douyin"); [by eapply douyin_login_gate|].
    injection H as <- <-. unfold new_events. rewrite drop_all. simpl. split; [done|].
    done. }
  destruct G as [G1 G2]. split.
  - intros Hl. by destruct (G1 Hl).
  - intros Hh Hp. split; [|by apply G2].
    destruct (existsb is_login (new_events w w')) eqn:E; [|done].
    destruct (G1 eq_refl) as [? _]. congruence.
Qed.

End LoginClaim.

Lemma interactive_login_only_with_visible_browser_witness :
  existsb is_login
    (new_events Examples.w0
       (snd (BrowserSessionManager._setup_client_and_login Examples.logged_out Examples.cfg0
               "xhs" 2%nat 3%nat EmptyString [] true Examples.w0))) = false /\
  exists client,
    fst (BrowserSessionManager._setup_client_and_login Examples.logged_out Examples.cfg0
           "xhs" 2%nat 3%nat EmptyString [] true Examples.w0) = Ret (client, false).
Proof.
  apply (interactive_login_only_with_visible_browser Examples.logged_out Examples.cfg0
           "xhs" 2%nat 3%nat EmptyString [] true Examples.w0 _ _).
  - vm_compute. reflexivity.
  - reflexivity.
  - vm_compute. reflexivity.
Defined.

Section ReplacementClaim.
Context (env : oracle) (cfg : Config).
Local Abbreviation get_session := (BrowserSessionManager.get_session env cfg).

Lemma create_and_store_stores P headless dir w s' w' :
  BrowserSessionManager.create_and_store env cfg P headless dir w = (Ret s', w') ->
  _sessions w' !! P = Some s'.
Proof.
  unfold BrowserSessionManager.create_and_store, bind, modify, ret.
  destruct (BrowserSessionManager._create_session env cfg P headless dir w)
    as [[s0| |] w0]; intros [= <- <-]. simpl. apply lookup_insert_eq.
Qed.

(** The path taken when the liveness probe of the stored session raises:
    [browser.close()] and [playwright.stop()] are called on the stored
    session before anything is launched. *)
Lemma stale_session_is_closed_first P headless dir w s e r w' :
  _sessions w !! P = Some s ->
  env (log w) (PageTitle (page s)) = Raises e ->
  get_session P headless dir false w = (r, w') ->
  exists r1 r2 evs,
    new_events w w' =
      Event (PageTitle (page s)) (Raises e)
      :: Event (BrowserClose (browser s)) r1
      :: Event (PlaywrightStop (playwright s)) r2 :: evs /\
    existsb is_close evs = false.
Proof.
  intros Hs He. unfold BrowserSessionManager.get_session, bind at 1, get_world.
  rewrite Hs. simpl. unfold bind at 1, attempt, external. rewrite He.
  unfold bind at 1, BrowserSessionManager._cleanup_session, bind at 1, get_world.
  simpl. rewrite Hs. unfold bind, attempt, external, modify. simpl.
  destruct (env _ (BrowserClose _)) as [v1|e1] eqn:E1; simpl;
    destruct (env _ (PlaywrightStop _)) as [v2|e2] eqn:E2; simpl; intros H;
    destruct (emits_create_and_store env cfg (fun e => negb (is_close e))
                ltac:(intros ? Hc _; simpl; by rewrite Hc) P headless dir _ _ _ H) as (_ & evs & L & F);
    simpl in L; rewrite <- !app_assoc in L; simpl in L;
    rewrite (new_events_app _ _ _ L);
    do 2 eexists; exists evs; (split; [reflexivity|by apply existsb_Forall_false]).
Qed.

(** Claim C5, what the code does on the [force_new] path.  When
    [get_session] is called with [force_new=True] for a platform that has a
    stored session, no [browser.close()] and no [playwright.stop()] is
    called during the whole call, and a session that is returned has taken
    the place of the stored one in the table: the displaced browser is
    left open.  (Compare [stale_session_is_closed_first].) *)
Theorem force_new_leaves_displaced_browser_open
    (P : string) (headless : bool) (dir : option string)
    (w : world) (s : BrowserSession) (r : outcome BrowserSession) (w' : world) :
  _sessions w !! P = Some s ->
  get_session P headless dir true w = (r, w') ->
  existsb is_close (new_events w w') = false /\
  forall s', r = Ret s' -> _sessions w' !! P = Some s'.
Proof.
  intros Hs. unfold BrowserSessionManager.get_session, bind at 1, get_world.
  rewrite Hs. simpl. intros H. split.
  - destruct (emits_create_and_store env cfg (fun e => negb (is_close e))
                ltac:(intros ? Hc _; simpl; by rewrite Hc) P headless dir _ _ _ H) as (_ & evs & L & F).
    rewrite (new_events_app _ _ _ L). by apply existsb_Forall_false.
  - intros s' ->. by eapply create_and_store_stores.
Qed.

End ReplacementClaim.

Lemma get_session_reuses_live_session_witness :
  exists w1 w2,
    BrowserSessionManager.get_session Examples.logged_in Examples.cfg0
      "xhs" true None false Examples.w1 = (Ret Examples.s1, w1) /\
    BrowserSessionManager.get_session Examples.logged_in Examples.cfg0
      "xhs" true None false w1 = (Ret Examples.s1, w2) /\
    _sessions w2 = _sessions Examples.w1 /\
    next_id w2 = next_id Examples.w1 /\
    new_events Examples.w1 w2 = [Event (PageTitle 3%nat) (Returns VNone);
                                 Event (PageTitle 3%nat) (Returns VNone)].
Proof.
  apply (get_session_reuses_live_session Examples.logged_in Examples.cfg0
           "xhs" Examples.s1 Examples.w1 true true None None VNone VNone).
  - vm_compute. reflexivity.
  - reflexivity.
  - reflexivity.
Defined.

Lemma force_new_leaves_displaced_browser_open_witness :
  existsb is_close
    (new_events Examples.w1
       (snd (BrowserSessionManager.get_session Examples.logged_in Examples.cfg0
               "xhs" true None true Examples.w1))) = false /\
  forall s',
    fst (BrowserSessionManager.get_session Examples.logged_in Examples.cfg0
           "xhs" true None true Examples.w1) = Ret s' ->
    _sessions (snd (BrowserSessionManager.get_session Examples.logged_in Examples.cfg0
                      "xhs" true None true Examples.w1)) !! "xhs" = Some s'.
Proof.
  apply (force_new_leaves_displaced_browser_open Examples.logged_in Examples.cfg0
           "xhs" true None Examples.w1 Examples.s1 _ _).
  - vm_compute. reflexivity.
  - vm_compute. reflexivity.
Defined.

(** The same on a sample run: a second session is created and stored, and
    the log holds no close of the browser or the Playwright instance of the
    first. *)
Example force_new_on_a_live_session :
  let run := BrowserSessionManager.get_session Examples.logged_in Examples.cfg0
               "xhs" true None true Examples.w1 in
  _sessions Examples.w1 !! "xhs" = Some Examples.s1 /\
  (exists s', fst run = Ret s' /\ oid s' = 11%nat /\ browser s' = 7%nat /\
              _sessions (snd run) !! "xhs" = Some s') /\
  existsb (is_close_of Examples.s1) (log (snd run)) = false.
Proof.
  vm_compute. split; [reflexivity|]. split; [|reflexivity].
  eexists. repeat split.
Qed.

(** ** Strings *)

Section Strings.

Import PyStr.
Implicit Types (s t : string) (c : ascii) (p : ascii -> bool).

Lemma app_cons c s t : String c s +:+ t = String c (s +:+ t).
Proof. reflexivity. Qed.

Lemma app_empty_l s : EmptyString +:+ s = s.
Proof. reflexivity. Qed.

Lemma app_empty_r s : s +:+ EmptyString = s.
Proof. induction s as [|c s IH]; [done|]. by rewrite app_cons, IH. Qed.

Lemma app_assoc_str s t u : (s +:+ t) +:+ u = s +:+ (t +:+ u).
Proof. induction s as [|c s IH]; [done|]. by rewrite !app_cons, IH. Qed.

Lemma has_char_app p s t : has_char p (s +:+ t) = has_char p s || has_char p t.
Proof.
  induction s as [|c s IH]; [done|]. rewrite app_cons. simpl.
  by rewrite IH, orb_assoc.
Qed.

(** *** [strip] *)

Lemma rstrip_by_idem p s : rstrip_by p (rstrip_by p s) = rstrip_by p s.
Proof.
  induction s as [|c s IH]; [done|]. simpl.
  destruct (rstrip_by p s) as [|d r] eqn:E.
  - destruct (p c) eqn:Ec; [done|]. simpl. by rewrite Ec.
  - simpl in *. by rewrite IH.
Qed.

Lemma rstrip_by_none p s : has_char p s = false -> rstrip_by p s = s.
Proof.
  induction s as [|c s IH]; [done|]. simpl.
  intros [Hc Hs]%orb_false_iff. rewrite (IH Hs), Hc. by destruct s.
Qed.

Lemma rstrip_by_app_char p s c :
  p c = true -> rstrip_by p (s +:+ String c EmptyString) = rstrip_by p s.
Proof.
  intros Hc. induction s as [|d s IH].
  - simpl. by rewrite Hc.
  - rewrite app_cons. simpl. by rewrite IH.
Qed.

Lemma rstrip_by_head p c s :
  p c = false -> exists r, rstrip_by p (String c s) = String c r.
Proof.
  intros Hc. simpl. destruct (rstrip_by p s); rewrite ?Hc; eauto.
Qed.

Lemma lstrip_by_head p s :
  lstrip_by p s = EmptyString \/
  exists c r, lstrip_by p s = String c r /\ p c = false.
Proof.
  induction s as [|c s IH]; [by left|]. simpl.
  destruct (p c) eqn:Ec; [done|]. right. eauto.
Qed.

Lemma strip_idem s : strip (strip s) = strip s.
Proof.
  unfold strip.
  destruct (lstrip_by_head is_space s) as [->|(c & r & -> & Hc)]; [done|].
  destruct (rstrip_by_head is_space c r Hc) as [r' E]. rewrite E.
  simpl lstrip_by. rewrite Hc, <- E. apply rstrip_by_idem.
Qed.

Lemma strip_app_space s c : is_space c = true -> strip (s +:+ String c EmptyString) = strip s.
Proof.
  intros Hc. unfold strip. induction s as [|d s IH].
  - simpl. by rewrite Hc.
  - rewrite app_cons. simpl. destruct (is_space d); [done|].
    by rewrite <- app_cons, rstrip_by_app_char.
Qed.

Lemma strip_nonempty s : nonempty (strip s) = true -> nonempty s = true.
Proof. by destruct s. Qed.

(** *** Lines *)

Local Abbreviation nl_char := (ascii_of_nat 10).

Lemma nl_eq : nl = String nl_char EmptyString.
Proof. reflexivity. Qed.

Lemma universal_newlines_id s : has_char is_cr s = false -> universal_newlines s = s.
Proof.
  induction s as [|c s IH]; [done|]. simpl.
  intros [-> Hs]%orb_false_iff. by rewrite IH.
Qed.

Lemma universal_newlines_no_cr s : has_char is_cr (universal_newlines s) = false.
Proof.
  induction s as [|c s IH]; [done|]. simpl.
  destruct (is_cr c) eqn:Ec.
  - simpl. destruct s as [|d s']; [done|].
    destruct (is_nl d) eqn:Ed; [|done].
    simpl in IH. destruct (is_cr d) eqn:Ed'.
    + unfold is_cr, is_nl in *. apply Nat.eqb_eq in Ed, Ed'. congruence.
    + simpl in IH. by rewrite Ed' in IH.
  - simpl. by rewrite Ec.
Qed.

Lemma split_lines_shape s :
  has_char is_cr s = false -> Forall line_of (split_lines s).
Proof.
  induction s as [|c s IH]; [constructor|]. simpl.
  intros [Hc Hs]%orb_false_iff. specialize (IH Hs).
  destruct (is_nl c) eqn:Ec.
  - constructor; [|done]. exists EmptyString. split; [done|]. left.
    unfold is_nl, code in Ec. apply Nat.eqb_eq in Ec.
    rewrite nl_eq, app_empty_l. rewrite <- Ec.
    by rewrite ascii_nat_embedding.
  - destruct (split_lines s) as [|h t].
    + constructor; [|done]. exists (String c EmptyString). split; [|by right].
      split; simpl; by rewrite ?Ec, ?Hc.
    + inversion IH as [|? ? (l & [Hl1 Hl2] & Hh) Ht]; subst.
      constructor; [|done]. exists (String c l). split.
      * split; simpl; by rewrite ?Ec, ?Hc.
      * destruct Hh as [->| ->]; [left|right]; done.
Qed.

Lemma file_lines_shape content : Forall line_of (file_lines content).
Proof. apply split_lines_shape, universal_newlines_no_cr. Qed.

Lemma rstrip_nl_line s l :
  one_line l -> s = l +:+ nl \/ s = l -> rstrip_nl s = l.
Proof.
  intros [Hl _] [-> | ->]; unfold rstrip_nl.
  - rewrite nl_eq, rstrip_by_app_char by done. by apply rstrip_by_none.
  - by apply rstrip_by_none.
Qed.

Lemma strip_line s l : s = l +:+ nl \/ s = l -> strip s = strip l.
Proof.
  intros [-> | ->]; [|done]. by rewrite nl_eq, strip_app_space.
Qed.

Lemma split_lines_app_line l rest :
  has_char is_nl l = false ->
  split_lines (l +:+ nl +:+ rest) = (l +:+ nl) :: split_lines rest.
Proof.
  induction l as [|c l IH]; [done|]. simpl.
  intros [Hc Hl]%orb_false_iff. rewrite !app_cons. simpl.
  by rewrite Hc, (IH Hl).
Qed.

End Strings.

(** ** The cookie store *)

Section CookieStore.

Import PyStr CookieManager.

Lemma render_cons l lines : render (l :: lines) = l +:+ nl +:+ render lines.
Proof.
  unfold render. destruct lines as [|x xs].
  - simpl. by rewrite app_empty_r.
  - change (join nl (l :: x :: xs)) with (l +:+ nl +:+ join nl (x :: xs)).
    by rewrite !app_assoc_str.
Qed.

Lemma render_no_cr lines :
  Forall one_line lines -> has_char is_cr (render lines) = false.
Proof.
  induction 1 as [|l lines [_ Hl] _ IH]; [done|].
  rewrite render_cons, !has_char_app, Hl, IH. reflexivity.
Qed.

Lemma split_lines_render lines :
  Forall one_line lines ->
  split_lines (render lines) = map (fun l => l +:+ nl) lines.
Proof.
  induction 1 as [|l lines [Hl _] _ IH]; [done|].
  rewrite render_cons, split_lines_app_line by done. simpl. by rewrite IH.
Qed.

(** Reading back what [save_cookie] wrote gives the lines it wrote. *)
Lemma file_lines_render lines :
  Forall one_line lines -> file_lines (render lines) = map (fun l => l +:+ nl) lines.
Proof.
  intros H. unfold file_lines.
  rewrite universal_newlines_id by by apply render_no_cr.
  by apply split_lines_render.
Qed.

Lemma load_lines_filter raw :
  load_lines raw = List.filter is_cookie_line (map strip raw).
Proof.
  induction raw as [|x raw IH]; [done|].
  cbn [load_lines map List.filter]. unfold is_cookie_line at 1.
  destruct (nonempty (strip x)); cbn [negb orb andb]; [|exact IH].
  destruct (startswith hash (strip x)); cbn [negb orb andb]; [exact IH|].
  destruct (has_eq (strip x)); by rewrite IH.
Qed.

Lemma load_written_lines lines :
  load_lines (map (fun l => l +:+ nl) lines)
  = List.filter is_cookie_line (map strip lines).
Proof.
  rewrite load_lines_filter, map_map. f_equal. apply map_ext. intros l.
  by rewrite nl_eq, strip_app_space.
Qed.

Lemma scan_lines_fst i raw : fst (scan_lines i raw) = map rstrip_nl raw.
Proof.
  revert i. induction raw as [|x raw IH]; intros i; [done|]. simpl.
  specialize (IH (S i)). destruct (scan_lines (S i) raw). simpl in *. by rewrite IH.
Qed.

Lemma scan_lines_none i raw :
  snd (scan_lines i raw) = [] ->
  Forall (fun x => is_cookie_line (strip x) = false) raw.
Proof.
  revert i. induction raw as [|x raw IH]; intros i; [constructor|].
  cbn [scan_lines].
  specialize (IH (S i)). destruct (scan_lines (S i) raw) as [ls idx]. cbn [snd] in *.
  fold (is_cookie_line (strip x)).
  destruct (is_cookie_line (strip x)) eqn:E; [done|]. intros ->. constructor; auto.
Qed.

Lemma scan_lines_first i raw t idx :
  snd (scan_lines i raw) = t :: idx ->
  exists pre x post,
    raw = pre ++ x :: post /\ t = (i + length pre)%nat /\
    Forall (fun y => is_cookie_line (strip y) = false) pre /\
    is_cookie_line (strip x) = true.
Proof.
  revert i. induction raw as [|x raw IH]; intros i; [done|].
  cbn [scan_lines].
  specialize (IH (S i)). destruct (scan_lines (S i) raw) as [ls idx']. cbn [snd] in *.
  fold (is_cookie_line (strip x)).
  destruct (is_cookie_line (strip x)) eqn:E.
  - intros [= <- <-]. exists [], x, raw. simpl. rewrite Nat.add_0_r. by repeat split.
  - intros H. destruct (IH H) as (pre & y & post & -> & -> & Hpre & Hy).
    exists (x :: pre), y, post. simpl. repeat split; [lia| |done].
    by constructor.
Qed.

Lemma filter_not_cookie lines :
  Forall (fun y => is_cookie_line (strip y) = false) lines ->
  List.filter is_cookie_line (map strip lines) = [].
Proof.
  induction 1 as [|y lines Hy _ IH]; [done|]. simpl. by rewrite Hy.
Qed.

Lemma rstrip_nl_lines raw :
  Forall line_of raw ->
  Forall one_line (map rstrip_nl raw) /\
  map strip (map rstrip_nl raw) = map strip raw.
Proof.
  induction 1 as [|x raw (l & Hl & Hx) _ [IH1 IH2]]; [by split|]. simpl.
  rewrite (rstrip_nl_line x l Hl Hx), (strip_line x l Hx), IH2.
  split; [by constructor|done].
Qed.

Lemma lower_char_idem c : lower_char (lower_char c) = lower_char c.
Proof. destruct c as [[] [] [] [] [] [] [] []]; reflexivity. Qed.

Lemma lower_idem s : lower (lower s) = lower s.
Proof. induction s as [|c s IH]; [done|]. simpl. by rewrite lower_char_idem, IH. Qed.

(** A platform name whose cookie file does not depend on its letter case:
    a registered name, in any case, or a name without capitals. *)
Lemma cookie_file_lower self P :
  assoc (lower P) platform_files <> None \/ lower P = P ->
  _get_cookie_file self (lower P) = _get_cookie_file self P.
Proof.
  unfold _get_cookie_file. rewrite lower_idem. intros [H| ->]; [|done].
  by destruct (assoc (lower P) platform_files).
Qed.

Lemma one_line_rstrip_nl raw : Forall line_of raw -> Forall one_line (map rstrip_nl raw).
Proof. intros H. by destruct (rstrip_nl_lines raw H). Qed.

Lemma filter_strip_rstrip_nl raw :
  Forall line_of raw ->
  Forall (fun y => is_cookie_line (strip y) = false) raw ->
  List.filter is_cookie_line (map strip (map rstrip_nl raw)) = [].
Proof.
  intros H1 H2. destruct (rstrip_nl_lines raw H1) as [_ ->]. by apply filter_not_cookie.
Qed.

(** The lines [save_cookie] writes for account 0, given the lines [raw] it
    read: one line each, and the first cookie among them is the new one. *)
Lemma save_cookie_lines raw s' :
  Forall line_of raw ->
  is_cookie_line s' = true -> strip s' = s' -> one_line s' ->
  exists new,
    (let '(lines, cookie_lines_indices) := scan_lines 0 raw in
     if 0 <? len cookie_lines_indices then
       match index cookie_lines_indices 0 with
       | Some target_line => Some (<[target_line := s']> lines)
       | None => None
       end
     else
       let lines :=
         match last lines with
         | Some l => if nonempty l then lines ++ [EmptyString] else lines
         | None => lines
         end in
       Some (lines ++ [auto_saved_comment (length cookie_lines_indices + 1)] ++ [s']))
    = Some new /\
    Forall one_line new /\
    exists rest, List.filter is_cookie_line (map strip new) = s' :: rest.
Proof.
  intros Hraw Hs' Hstrip Hone.
  pose proof (scan_lines_fst 0 raw) as Hfst.
  destruct (scan_lines 0 raw) as [lines idx] eqn:E. simpl in Hfst. subst lines.
  destruct idx as [|t idx].
  - (* no cookie line yet: the cookie is appended *)
    assert (Hnone : Forall (fun y => is_cookie_line (strip y) = false) raw).
    { apply (scan_lines_none 0). by rewrite E. }
    change (0 <? len []) with false. cbv iota.
    set (lines := match last (map rstrip_nl raw) with
                  | Some l => if nonempty l then map rstrip_nl raw ++ [EmptyString]
                              else map rstrip_nl raw
                  | None => map rstrip_nl raw
                  end).
    assert (Hl : Forall one_line lines /\
                 List.filter is_cookie_line (map strip lines) = []).
    { pose proof (one_line_rstrip_nl raw Hraw) as H1.
      pose proof (filter_strip_rstrip_nl raw Hraw Hnone) as H2.
      subst lines. destruct (last (map rstrip_nl raw)) as [l|]; [|done].
      destruct (nonempty l); [|done]. split.
      - apply Forall_app. split; [done|]. by repeat constructor.
      - by rewrite map_app, List.filter_app, H2. }
    destruct Hl as [Hl1 Hl2]. eexists. split; [reflexivity|]. split.
    + apply Forall_app. split; [done|]. repeat constructor; apply Hone.
    + exists []. rewrite map_app, List.filter_app, Hl2. simpl.
      change (strip (auto_saved_comment 1)) with (auto_saved_comment 1).
      change (is_cookie_line (auto_saved_comment 1)) with false.
      by rewrite Hstrip, Hs'.
  - (* the first cookie line is replaced *)
    destruct (scan_lines_first 0 raw t idx) as (pre & x & post & -> & -> & Hpre & Hx).
    { by rewrite E. }
    change (0 + length pre)%nat with (length pre).
    assert ((0 <? len (length pre :: idx)) = true) as ->.
    { unfold len. simpl length. apply Z.ltb_lt. lia. }
    change (index (length pre :: idx) 0) with (Some (length pre)). cbv iota.
    apply Forall_app in Hraw as [Hraw1 Hraw2].
    inversion Hraw2 as [|? ? _ Hraw3]; subst.
    rewrite map_app. simpl map.
    replace (length pre) with (length (map rstrip_nl pre) + 0)%nat
      by (rewrite length_map; lia).
    rewrite insert_app_r. simpl.
    eexists. split; [reflexivity|]. split.
    + apply Forall_app. split; [by apply one_line_rstrip_nl|].
      constructor; [done|by apply one_line_rstrip_nl].
    + rewrite map_app, List.filter_app, (filter_strip_rstrip_nl pre) by done.
      simpl. rewrite Hstrip, Hs'. eauto.
Qed.

(** Claim C6, amended.  For every platform [P] whose cookie file does not
    depend on the letter case of [P] (a registered platform name, or a name
    without capitals) and every string [s] whose stripped form is a cookie
    line (not empty, not starting with [#], containing [=]) without line
    break: [save_cookie(P, s)] returns [True], and [get_cookie(P,
    account_index=0, random_select=False)] then returns exactly
    [s.strip()]. *)
Theorem save_cookie_then_get_cookie
    (self : CookieManager.t) (fs : gmap string string) (rnd : nat) (P s : string) :
  is_cookie_line (strip s) = true ->
  one_line (strip s) ->
  assoc (lower P) platform_files <> None \/ lower P = P ->
  exists self' fs',
    save_cookie self fs P s 0 = (true, self', fs') /\
    fst (get_cookie self' fs' rnd P (Some 0) false) = strip s.
Proof.
  intros Hcookie Hone HP.
  assert (Hne : nonempty (strip s) = true).
  { unfold is_cookie_line in Hcookie. by destruct (nonempty (strip s)). }
  pose proof (strip_nonempty s Hne) as Hne'.
  set (raw := match fs !! _get_cookie_file self P with
              | Some content => file_lines content
              | None => []
              end).
  assert (Hraw : Forall line_of raw).
  { subst raw. destruct (fs !! _); [apply file_lines_shape|constructor]. }
  destruct (save_cookie_lines raw (strip s) Hraw Hcookie (strip_idem s) Hone)
    as (new & Hnew & Hnew1 & rest & Hfilter).
  unfold save_cookie. rewrite Hne, Hne'. cbn [negb orb].
  replace (match fs !! _get_cookie_file self P with
           | Some content => scan_lines 0 (file_lines content)
           | None => ([], [])
           end) with (scan_lines 0 raw)
    by (subst raw; by destruct (fs !! _)).
  destruct (scan_lines 0 raw) as [lines idx]. cbv zeta in Hnew |- *. rewrite Hnew.
  do 2 eexists. split; [reflexivity|].
  unfold get_cookie, get_all_cookies. cbn [_cache cookies_dir].
  rewrite lookup_delete_eq.
  replace (_get_cookie_file {| cookies_dir := cookies_dir self;
                               _cache := delete (lower P) (_cache self) |} (lower P))
    with (_get_cookie_file self P)
    by (symmetry; apply (cookie_file_lower self P HP)).
  unfold _load_cookies_from_file. rewrite lookup_insert_eq.
  rewrite file_lines_render, load_written_lines, Hfilter by done.
  reflexivity.
Qed.

(** Claim C8.  For every platform with at least one cookie, [get_cookie]
    with a negative [account_index] returns the empty string (the test
    [0 <= account_index] turns it away, whatever [cookies[account_index]]
    would be), which is also what it returns for every index past the
    end. *)
Theorem get_cookie_rejects_negative_index
    (self : CookieManager.t) (fs : gmap string string) (rnd : nat) (P : string)
    (i : Z) (random_select : bool) :
  fst (get_all_cookies self fs P) <> [] ->
  i < 0 ->
  fst (get_cookie self fs rnd P (Some i) random_select) = EmptyString /\
  forall j, len (fst (get_all_cookies self fs P)) <= j ->
    fst (get_cookie self fs rnd P (Some j) random_select)
    = fst (get_cookie self fs rnd P (Some i) random_select).
Proof.
  intros Hne Hi. unfold get_cookie.
  destruct (get_all_cookies self fs P) as [cookies self']. simpl in *.
  destruct cookies as [|c cookies]; [done|].
  assert ((0 <=? i) = false) as -> by (apply Z.leb_gt; lia).
  split; [done|]. intros j Hj.
  assert ((j <? len (c :: cookies)) = false) as -> by (apply Z.ltb_ge; lia).
  by rewrite andb_false_r.
Qed.

End CookieStore.

Lemma save_cookie_then_get_cookie_witness :
  exists self' fs',
    CookieManager.save_cookie (CookieManager.__init__ "cookies") ∅ "xhs" "  a=1; b=2 " 0
      = (true, self', fs') /\
    fst (CookieManager.get_cookie self' fs' 0 "xhs" (Some 0) false)
      = PyStr.strip "  a=1; b=2 ".
Proof.
  apply (save_cookie_then_get_cookie (CookieManager.__init__ "cookies") ∅ 0 "xhs"
           "  a=1; b=2 ").
  - reflexivity.
  - split; reflexivity.
  - left. vm_compute. discriminate.
Defined.

(** Claim C6 as stated fails: [abc] has no [=], so it is written to the file
    but never read back as a cookie. *)
Lemma save_cookie_then_get_cookie_counterexample :
  exists self' fs',
    CookieManager.save_cookie (CookieManager.__init__ "cookies") ∅ "xhs" "abc" 0
      = (true, self', fs') /\
    fst (CookieManager.get_cookie self' fs' 0 "xhs" (Some 0) false) = EmptyString /\
    PyStr.strip "abc" = "abc" /\
    fs' !! "cookies/xhs_cookies.txt"
      = Some ("# Account 1 - Auto-saved after login" +:+ PyStr.nl +:+ "abc" +:+ PyStr.nl).
Proof.
  exists (snd (fst (CookieManager.save_cookie (CookieManager.__init__ "cookies") ∅
                      "xhs" "abc" 0))),
         (snd (CookieManager.save_cookie (CookieManager.__init__ "cookies") ∅
                 "xhs" "abc" 0)).
  split; [vm_compute; reflexivity|]. split; [vm_compute; reflexivity|].
  split; vm_compute; reflexivity.
Qed.

Lemma get_cookie_rejects_negative_index_witness :
  fst (CookieManager.get_cookie (CookieManager.__init__ "cookies")
         Examples.disk 0 "xhs" (Some (-1)) true) = EmptyString /\
  forall j,
    len (fst (CookieManager.get_all_cookies (CookieManager.__init__ "cookies")
                Examples.disk "xhs")) <= j ->
    fst (CookieManager.get_cookie (CookieManager.__init__ "cookies")
           Examples.disk 0 "xhs" (Some j) true)
    = fst (CookieManager.get_cookie (CookieManager.__init__ "cookies")
             Examples.disk 0 "xhs" (Some (-1)) true).
Proof.
  apply (get_cookie_rejects_negative_index (CookieManager.__init__ "cookies")
           Examples.disk 0 "xhs" (-1) true).
  - vm_compute. discriminate.
  - lia.
Defined.

(** Python's [cookies[-1]] would have been the last account. *)
Example negative_index_would_select_last_account :
  index (fst (CookieManager.get_all_cookies (CookieManager.__init__ "cookies")
                Examples.disk "xhs")) (-1) = Some "b=2".
Proof. vm_compute. reflexivity. Qed.

(** For a platform that is not registered, [save_cookie] names the file
    after the platform as given and [get_all_cookies] after its lower-case
    form: with capitals in the name the saved cookie is not found. *)
Example save_cookie_keeps_capitals_in_file_name :
  fst (fst (CookieManager.save_cookie (CookieManager.__init__ "cookies") ∅
              "Foo" "a=1" 0)) = true /\
  fst (CookieManager.get_cookie
         (snd (fst (CookieManager.save_cookie (CookieManager.__init__ "cookies") ∅
                      "Foo" "a=1" 0)))
         (snd (CookieManager.save_cookie (CookieManager.__init__ "cookies") ∅
                 "Foo" "a=1" 0))
         0 "Foo" (Some 0) false) = EmptyString /\
  CookieManager._get_cookie_file (CookieManager.__init__ "cookies") "Foo"
    = "cookies/Foo_cookies.txt" /\
  CookieManager._get_cookie_file (CookieManager.__init__ "cookies") (PyStr.lower "Foo")
    = "cookies/foo_cookies.txt".
Proof.
  split; [vm_compute; reflexivity|]. split; [vm_compute; reflexivity|].
  split; vm_compute; reflexivity.
Qed.

(** ** The search loop *)

Section SearchLoop.

Import XhsSignalAdapter.

Lemma note_record_tagged keyword note record :
  note_record keyword note = Ret record -> tagged keyword record.
Proof.
  unfold note_record, obind.
  repeat match goal with
         | |- context [match get ?a ?b ?c with _ => _ end] => destruct (get a b c)
         end; try discriminate.
  intros [= <-]. reflexivity.
Qed.

(** One pass over the notes of a page never takes [keyword_results] beyond
    the larger of its length and the limit, and only adds tagged records. *)
Lemma append_notes_bound keyword limit_per_keyword notes keyword_results bound :
  len keyword_results <= bound -> limit_per_keyword <= bound ->
  len (fst (append_notes keyword limit_per_keyword notes keyword_results)) <= bound.
Proof.
  revert keyword_results. induction notes as [|note notes IH]; intros kr H1 H2; [done|].
  simpl. destruct (limit_per_keyword <=? len kr) eqn:E; [done|].
  apply Z.leb_gt in E.
  destruct (note_record keyword note); [|done..].
  apply IH; [|done]. unfold len in *. rewrite length_app. simpl. lia.
Qed.

Lemma append_notes_tagged keyword limit_per_keyword notes keyword_results :
  Forall (tagged keyword) keyword_results ->
  Forall (tagged keyword)
    (fst (append_notes keyword limit_per_keyword notes keyword_results)).
Proof.
  revert keyword_results. induction notes as [|note notes IH]; intros kr H; [done|].
  simpl. destruct (limit_per_keyword <=? len kr); [done|].
  destruct (note_record keyword note) eqn:E; [|done..].
  apply IH, Forall_app. split; [done|]. repeat constructor.
  by eapply note_record_tagged.
Qed.

Lemma handle_response_bound keyword limit_per_keyword response keyword_results bound :
  len keyword_results <= bound -> limit_per_keyword <= bound ->
  len (fst (handle_response keyword limit_per_keyword response keyword_results)) <= bound.
Proof.
  intros H1 H2. unfold handle_response.
  destruct (truthy response); [|done]. simpl.
  destruct (get response "items" (VList [])) as [notes| |]; [|done..].
  destruct (truthy notes); [|done]. simpl.
  destruct (obind (iter notes) _) as [l| |]; [|done..].
  pose proof (append_notes_bound keyword limit_per_keyword l keyword_results bound H1 H2).
  destruct (append_notes keyword limit_per_keyword l keyword_results) as [kr [e|]];
    [done|].
  by destruct (get response "has_more" (VBool false)).
Qed.

Lemma handle_response_tagged keyword limit_per_keyword response keyword_results :
  Forall (tagged keyword) keyword_results ->
  Forall (tagged keyword)
    (fst (handle_response keyword limit_per_keyword response keyword_results)).
Proof.
  intros H. unfold handle_response.
  destruct (truthy response); [|done]. simpl.
  destruct (get response "items" (VList [])) as [notes| |]; [|done..].
  destruct (truthy notes); [|done]. simpl.
  destruct (obind (iter notes) _) as [l| |]; [|done..].
  pose proof (append_notes_tagged keyword limit_per_keyword l keyword_results H).
  destruct (append_notes keyword limit_per_keyword l keyword_results) as [kr [e|]];
    [done|].
  by destruct (get response "has_more" (VBool false)).
Qed.

Context (env : oracle) (cfg : Config).

(** What the [while] loop of one keyword does to the world: it asks for
    pages, nothing else. *)
Lemma keyword_loop_spec fuel client keyword sort_type limit_per_keyword :
  forall page keyword_results w r w',
    keyword_loop env fuel client keyword sort_type limit_per_keyword
      page keyword_results w = (r, w') ->
    exists evs,
      log w' = log w ++ evs /\
      Forall (fun e => is_search e = true) evs /\
      next_id w' = next_id w /\ fs w' = fs w /\
      _cookie_manager w' = _cookie_manager w /\ _sessions w' = _sessions w /\
      match r with
      | Ret results =>
          (forall bound, len keyword_results <= bound -> limit_per_keyword <= bound ->
                         len results <= bound) /\
          (Forall (tagged keyword) keyword_results -> Forall (tagged keyword) results)
      | Raise _ => False
      | Diverge => length evs = fuel
      end.
Proof.
  induction fuel as [|fuel IH]; intros page kr w r w'; simpl.
  - destruct (len kr <? limit_per_keyword); intros [= <- <-];
      exists []; rewrite app_nil_r; repeat split; auto.
  - destruct (len kr <? limit_per_keyword).
    2:{ intros [= <- <-]. exists []. rewrite app_nil_r. repeat split; auto. }
    unfold bind, attempt, external.
    set (c := GetNoteByKeyword client keyword page sort_type).
    set (w1 := set_log w (log w ++ [Event c (env (log w) c)])).
    destruct (env (log w) c) as [response|e] eqn:E.
    2:{ intros [= <- <-]. exists [Event c (Raises e)].
        repeat split; auto. }
    pose proof (handle_response_bound keyword limit_per_keyword response kr) as Hb.
    pose proof (handle_response_tagged keyword limit_per_keyword response kr) as Ht.
    destruct (handle_response keyword limit_per_keyword response kr) as [kr1 [|]];
      simpl in Hb, Ht.
    + intros H. destruct (IH _ _ _ _ _ H) as (evs & L & F & N1 & N2 & N3 & N4 & Hr).
      exists (Event c (Returns response) :: evs). subst w1. simpl in *.
      rewrite L, <- app_assoc. repeat split; auto.
      destruct r as [results|e|]; [|done|simpl; by rewrite Hr].
      destruct Hr as [Hr1 Hr2]. split.
      * intros bound B1 B2. apply Hr1; [|done]. by apply Hb.
      * intros T. by apply Hr2, Ht.
    + intros [= <- <-]. exists [Event c (Returns response)].
      repeat split; auto.
Qed.

Lemma keyword_loop_full fuel client keyword sort_type limit_per_keyword page
    keyword_results w :
  limit_per_keyword <= len keyword_results ->
  keyword_loop env fuel client keyword sort_type limit_per_keyword
    page keyword_results w = (Ret keyword_results, w).
Proof.
  intros H. apply Z.ltb_ge in H. destruct fuel; simpl; by rewrite H.
Qed.

(** The [for] loop over the keywords: one segment of results per keyword,
    in order, each from the loop of its keyword. *)
Lemma keywords_loop_spec fuel client sort_type limit_per_keyword :
  forall keyword_list results w r w',
    keywords_loop env fuel client sort_type limit_per_keyword
      keyword_list results w = (r, w') ->
    exists evs,
      log w' = log w ++ evs /\
      Forall (fun e => is_search e = true) evs /\
      match r with
      | Ret all =>
          exists segs,
            all = results ++ concat segs /\
            Forall2 (fun keyword seg =>
                       (forall bound, 0 <= bound -> limit_per_keyword <= bound ->
                                      len seg <= bound) /\
                       Forall (tagged keyword) seg)
                    keyword_list segs
      | Raise _ => False
      | Diverge => (fuel <= length evs)%nat
      end.
Proof.
  induction keyword_list as [|keyword rest IH]; intros results w r w'; simpl.
  - intros [= <- <-]. exists []. rewrite app_nil_r. repeat split; [done|].
    exists []. by rewrite app_nil_r.
  - unfold bind.
    destruct (keyword_loop env fuel client keyword sort_type limit_per_keyword 1 [] w)
      as [[seg|e|] w1] eqn:E;
      destruct (keyword_loop_spec _ _ _ _ _ _ _ _ _ _ E)
        as (evs1 & L1 & F1 & _ & _ & _ & _ & Hr); [|done|].
    + intros H. destruct (IH _ _ _ _ H) as (evs2 & L2 & F2 & Hr2).
      exists (evs1 ++ evs2). rewrite L2, L1, app_assoc.
      split; [done|]. split; [by apply Forall_app|].
      destruct r as [all|e|]; [|done|rewrite length_app; lia].
      destruct Hr2 as (segs & -> & Hsegs). exists (seg :: segs).
      simpl. rewrite app_assoc. split; [done|].
      constructor; [|done]. destruct Hr as [Hb Ht]. split; [|by apply Ht].
      intros bound B1 B2. by apply Hb.
    + intros [= <- <-]. exists evs1. split; [done|]. split; [done|]. lia.
Qed.

Lemma keywords_loop_nothing fuel client sort_type limit_per_keyword keyword_list
    results w :
  limit_per_keyword <= 0 ->
  keywords_loop env fuel client sort_type limit_per_keyword keyword_list results w
  = (Ret results, w).
Proof.
  intros H. revert results. induction keyword_list as [|keyword rest IH]; intros results;
    simpl; [done|].
  unfold bind. rewrite keyword_loop_full by (unfold len; simpl; lia).
  by rewrite IH, app_nil_r.
Qed.

Lemma split_not_nil sep s : PyStr.split sep s <> [].
Proof.
  destruct s as [|c s]; simpl; [done|].
  destruct (PyStr.is_char sep c); [done|]. by destruct (PyStr.split sep s).
Qed.

Lemma concat_bound (keyword_list : list string) (segs : list (list value)) (b : Z) P :
  0 <= b ->
  Forall2 (fun keyword seg =>
             (forall bound, 0 <= bound -> b <= bound -> len seg <= bound) /\ P keyword seg)
          keyword_list segs ->
  len (concat segs) <= len keyword_list * b /\
  Forall2 (fun keyword seg => len seg <= b /\ P keyword seg) keyword_list segs.
Proof.
  intros Hb. induction 1 as [|keyword seg keyword_list segs [H1 H2] _ [IH1 IH2]].
  - split; [unfold len; simpl; lia|constructor].
  - specialize (H1 b Hb ltac:(lia)). split; [|by constructor].
    unfold len in *. simpl. rewrite length_app, Nat2Z.inj_add, Nat2Z.inj_succ. lia.
Qed.

Lemma slice_to_all {X} (l : list X) (n : Z) : len l <= n -> slice_to l n = l.
Proof.
  intros H. unfold slice_to, len in *.
  assert ((0 <=? n) = true) as -> by (apply Z.leb_le; lia).
  apply take_ge. lia.
Qed.

(** Claim C1.  For every call of [search_notes] with a total limit
    [limit >= 0] that returns a list in [data]: with [keyword_list] the
    [k >= 1] comma-separated keywords, the list has at most [limit] items,
    and it is made of [k] segments, the i-th of which holds the items of
    the i-th keyword (each carries that keyword in its [keyword] field) and
    has at most [limit // k] items. *)
Theorem search_notes_pagination_bound
    (fuel : nat) (self : XhsSignalAdapter.t) (keywords : string) (limit : Z)
    (sort_by : string) (save_results : bool) (w : world) (tr : ToolResult) (w' : world) :
  0 <= limit ->
  search_notes env cfg fuel self keywords limit sort_by save_results w = (Ret tr, w') ->
  forall items, data tr = VList items ->
    let keyword_list := map PyStr.strip (PyStr.split "," keywords) in
    len items <= limit /\
    exists segs,
      items = concat segs /\
      Forall2 (fun keyword seg =>
                 len seg <= limit / len keyword_list /\ Forall (tagged keyword) seg)
              keyword_list segs.
Proof.
  intros Hlimit H items Hitems keyword_list.
  assert (Hk : 0 < len keyword_list).
  { subst keyword_list. pose proof (split_not_nil "," keywords).
    destruct (PyStr.split "," keywords); [done|]. unfold len. simpl. lia. }
  unfold search_notes, try_except, search_notes_try, bind in H.
  destruct (_get_session env cfg self false w) as [[s|e|] w1];
    [|injection H as <- <-; done|done].
  destruct (no_cookie_headless env cfg self s w1) as [[[|]|e|] w2];
    [injection H as <- <-; done| |injection H as <- <-; done|done].
  fold keyword_list in H. clearbody keyword_list.
  replace (match keyword_list with [] => limit | _ :: _ => limit / len keyword_list end)
    with (limit / len keyword_list) in H
    by (destruct keyword_list; [unfold len in Hk; simpl in Hk; lia|done]).
  destruct (keywords_loop env fuel (client s) (sort_type_map sort_by)
              (limit / len keyword_list) keyword_list [] w2) as [[results|e|] w3] eqn:E;
    [|injection H as <- <-; done|done].
  destruct (keywords_loop_spec _ _ _ _ _ _ _ _ _ E) as (_ & _ & _ & segs & -> & Hsegs).
  simpl in H.
  assert (Hlpk : 0 <= limit / len keyword_list) by (apply Z.div_pos; lia).
  destruct (concat_bound _ _ _ _ Hlpk Hsegs) as [Hsum Hsegs'].
  assert (Hall : len (concat segs) <= limit).
  { pose proof (Z.mul_div_le limit (len keyword_list) Hk). lia. }
  rewrite (slice_to_all _ _ Hall) in H.
  assert (items = concat segs) as ->.
  { destruct (_ && _) in H.
    - unfold external in H. destruct (env _ _); injection H as <- <-;
        simpl in Hitems; congruence.
    - unfold ret in H. injection H as <- <-. simpl in Hitems. congruence. }
  split; [done|]. by exists segs.
Qed.

End SearchLoop.

Lemma search_notes_pagination_bound_witness :
  len (Examples.found "k1" ++ Examples.found "k3") <= 10 /\
  exists segs,
    Examples.found "k1" ++ Examples.found "k3" = concat segs /\
    Forall2 (fun keyword seg =>
               len seg <= 10 / len (map PyStr.strip (PyStr.split "," "k1, bad,k3")) /\
               Forall (XhsSignalAdapter.tagged keyword) seg)
            (map PyStr.strip (PyStr.split "," "k1, bad,k3")) segs.
Proof.
  apply (search_notes_pagination_bound Examples.logged_in Examples.cfg0 5
           Examples.adapter "k1, bad,k3" 10 "general" false Examples.w0
           (Examples.returned
              (XhsSignalAdapter.search_notes Examples.logged_in Examples.cfg0 5
                 Examples.adapter "k1, bad,k3" 10 "general" false Examples.w0))
           (snd (XhsSignalAdapter.search_notes Examples.logged_in Examples.cfg0 5
                   Examples.adapter "k1, bad,k3" 10 "general" false Examples.w0))).
  - lia.
  - vm_compute. reflexivity.
  - vm_compute. reflexivity.
Defined.

(** On that run the bound is reached by [k1] and [k3]: three items each,
    with a limit of [10 // 3 = 3] per keyword. *)
Example search_notes_sample_run :
  data (Examples.returned
          (XhsSignalAdapter.search_notes Examples.logged_in Examples.cfg0 5
             Examples.adapter "k1, bad,k3" 10 "general" false Examples.w0))
  = VList (Examples.found "k1" ++ Examples.found "k3").
Proof. vm_compute. reflexivity. Qed.

Section SearchNotes.

Import XhsSignalAdapter.
Context (env : oracle) (cfg : Config).

Lemma no_search_ok e : is_search e = false -> no_search e = true.
Proof. unfold no_search. by intros ->. Qed.

Lemma no_search_existsb evs :
  Forall (fun e => no_search e = true) evs -> existsb is_search evs = false.
Proof. apply existsb_Forall_false. Qed.

(** Claim C9, amended.  For every call of [search_notes] with more
    comma-separated keywords than the limit ([k > limit >= 1]): the limit per
    keyword [limit // k] is 0, no search request is sent to the client, and
    the call returns a [ToolResult] whatever the loop budget; if that result
    has [success=True] its data is the empty list, with [total] 0 and no
    saved file; and it has [success=True] exactly when the session is
    obtained and the guard against a headless browser without cookies lets
    the call pass. *)
Theorem search_notes_more_keywords_than_limit
    (fuel : nat) (self : XhsSignalAdapter.t) (keywords : string) (limit : Z)
    (sort_by : string) (save_results : bool)
    (w : world) (r : outcome ToolResult) (w' : world) :
  let keyword_list := map PyStr.strip (PyStr.split "," keywords) in
  1 <= limit ->
  limit < len keyword_list ->
  search_notes env cfg fuel self keywords limit sort_by save_results w = (r, w') ->
  limit / len keyword_list = 0 /\
  existsb is_search (new_events w w') = false /\
  exists tr,
    r = Ret tr /\
    (success tr = true ->
     tr = {| success := true;
             data := VList [];
             error := None;
             metadata := [ ("total", VInt 0);
                           ("keywords", VList (map VStr keyword_list));
                           ("platform", VStr "xhs");
                           ("saved_path", VNone) ] |}) /\
    (success tr = true <->
     exists s w1 w2,
       _get_session env cfg self false w = (Ret s, w1) /\
       no_cookie_headless env cfg self s w1 = (Ret false, w2)).
Proof.
  intros keyword_list H1 H2 H.
  assert (Hz : limit / len keyword_list = 0) by (apply Z.div_small; lia).
  split; [done|].
  unfold search_notes, try_except, search_notes_try, bind in H.
  fold keyword_list in H. clearbody keyword_list.
  destruct (_get_session env cfg self false w) as [[s|e|] w1] eqn:E1;
    destruct (emits__get_session env cfg no_search no_search_ok _ _ _ _ _ E1)
      as (D1 & evs1 & L1 & F1); [| |done].
  2:{ injection H as <- <-. rewrite (new_events_app _ _ _ L1).
      split; [by apply no_search_existsb|]. eexists. split; [done|].
      split; [done|]. split; [done|]. intros (? & ? & ? & [=] & _). }
  destruct (no_cookie_headless env cfg self s w1) as [[rejected|e|] w2] eqn:E2;
    destruct (emits_no_cookie_headless env cfg no_search no_search_ok _ _ _ _ _ E2)
      as (D2 & evs2 & L2 & F2); [| |done].
  2:{ injection H as <- <-. rewrite (new_events_extend _ _ _ _ _ L1 L2).
      split; [apply no_search_existsb; by apply Forall_app|]. eexists. split; [done|].
      split; [done|]. split; [done|].
      intros (? & ? & ? & [= <- <-] & E2'). rewrite E2 in E2'. discriminate E2'. }
  destruct rejected.
  { injection H as <- <-. rewrite (new_events_extend _ _ _ _ _ L1 L2).
    split; [apply no_search_existsb; by apply Forall_app|]. eexists. split; [done|].
    split; [done|]. split; [done|].
    intros (? & ? & ? & [= <- <-] & E2'). rewrite E2 in E2'. discriminate E2'. }
  replace (match keyword_list with [] => limit | _ :: _ => limit / len keyword_list end)
    with 0 in H
    by (destruct keyword_list; [unfold len in H2; simpl in H2; lia|done]).
  rewrite keywords_loop_nothing in H by done.
  assert (slice_to (@nil value) limit = []) as Hs.
  { unfold slice_to. by destruct (0 <=? limit); rewrite take_nil. }
  rewrite Hs, andb_false_r in H. unfold ret in H. injection H as <- <-.
  rewrite (new_events_extend _ _ _ _ _ L1 L2).
  split; [apply no_search_existsb; by apply Forall_app|].
  eexists. split; [done|]. split; [done|]. split; [|done].
  intros _. by exists s, w1, w2.
Qed.

End SearchNotes.

Lemma search_notes_more_keywords_than_limit_witness :
  let run := XhsSignalAdapter.search_notes Examples.logged_in Examples.cfg0
               5 Examples.adapter "a,b,c" 2 "general" true Examples.w0 in
  2 / len (map PyStr.strip (PyStr.split "," "a,b,c")) = 0 /\
  existsb is_search (new_events Examples.w0 (snd run)) = false /\
  exists tr,
    fst run = Ret tr /\
    (success tr = true ->
     tr = {| success := true;
             data := VList [];
             error := None;
             metadata := [ ("total", VInt 0);
                           ("keywords",
                            VList (map VStr (map PyStr.strip (PyStr.split "," "a,b,c"))));
                           ("platform", VStr "xhs");
                           ("saved_path", VNone) ] |}) /\
    (success tr = true <->
     exists s w1 w2,
       XhsSignalAdapter._get_session Examples.logged_in Examples.cfg0
         Examples.adapter false Examples.w0 = (Ret s, w1) /\
       XhsSignalAdapter.no_cookie_headless Examples.logged_in Examples.cfg0
         Examples.adapter s w1 = (Ret false, w2)).
Proof.
  apply (search_notes_more_keywords_than_limit Examples.logged_in Examples.cfg0
           5 Examples.adapter "a,b,c" 2 "general" true Examples.w0 _ _).
  - lia.
  - vm_compute. reflexivity.
  - vm_compute. reflexivity.
Defined.

(** Claim C9 as stated fails: without cookies a headless adapter is turned
    away before the keyword loop, with [success=False]. *)
Lemma search_notes_more_keywords_than_limit_counterexample :
  exists tr w',
    1 <= 1 /\ 1 < len (map PyStr.strip (PyStr.split "," "a,b")) /\
    XhsSignalAdapter.search_notes Examples.logged_out Examples.cfg0 5 Examples.adapter
      "a,b" 1 "general" false Examples.w0 = (Ret tr, w') /\
    success tr = false /\
    data tr = VNone /\
    existsb is_launch (new_events Examples.w0 w') = true /\
    existsb is_failed_probe (new_events Examples.w0 w') = true.
Proof.
  exists (Examples.returned
            (XhsSignalAdapter.search_notes Examples.logged_out Examples.cfg0 5
               Examples.adapter "a,b" 1 "general" false Examples.w0)),
         (snd (XhsSignalAdapter.search_notes Examples.logged_out Examples.cfg0 5
                 Examples.adapter "a,b" 1 "general" false Examples.w0)).
  split; [lia|]. split; [vm_compute; reflexivity|].
  split; [vm_compute; reflexivity|]. split; [vm_compute; reflexivity|].
  split; [vm_compute; reflexivity|]. split; vm_compute; reflexivity.
Qed.

Section KeywordFailure.

Import XhsSignalAdapter.
Context (env : oracle) (cfg : Config).

(** An exception of the client ends the loop of the keyword at hand, which
    keeps what it has collected. *)
Lemma keyword_loop_raise fuel client keyword sort_type limit_per_keyword page
    keyword_results w e :
  len keyword_results < limit_per_keyword ->
  env (log w) (GetNoteByKeyword client keyword page sort_type) = Raises e ->
  keyword_loop env (S fuel) client keyword sort_type limit_per_keyword
    page keyword_results w
  = (Ret keyword_results,
     set_log w (log w ++ [Event (GetNoteByKeyword client keyword page sort_type)
                            (Raises e)])).
Proof.
  intros H He. apply Z.ltb_lt in H. simpl. rewrite H.
  unfold bind, attempt, external. by rewrite He.
Qed.





End KeywordFailure.



(** ** Code without loops comes to an end *)

Section Finishes.

Import XhsSignalAdapter.

Lemma get_finishes v key default : get v key default <> Diverge.
Proof. by destruct v. Qed.

Lemma iter_finishes v : iter v <> Diverge.
Proof. by destruct v. Qed.

Lemma contains_key_finishes key v : contains_key key v <> Diverge.
Proof. by destruct v. Qed.

Lemma obind_finishes {A B} (m : outcome A) (k : A -> outcome B) :
  m <> Diverge -> (forall a, k a <> Diverge) -> obind m k <> Diverge.
Proof. intros Hm Hk. destruct m; simpl; auto. Qed.

Local Ltac finishes :=
  repeat first [ apply get_finishes | apply iter_finishes
               | apply obind_finishes; [|intros ?] ];
  try done.


Lemma comment_record_finishes comment : comment_record comment <> Diverge.
Proof. unfold comment_record. finishes. Qed.

Lemma append_comments_finishes page_comments comments :
  append_comments page_comments comments <> Diverge.
Proof.
  revert comments. induction page_comments as [|c l IH]; intros comments; simpl; [done|].
  apply obind_finishes; [apply comment_record_finishes|auto].
Qed.



End Finishes.

Section Comments.

Import XhsSignalAdapter.
Context (env : oracle) (cfg : Config).


Local Ltac stops_after ev :=
  intros [= <- <-]; exists [ev]; split; [done|]; split; [by repeat constructor|done].

(** The [while] loop of [get_note_comments] asks for pages of comments and
    does nothing else; when the budget runs out every pass has asked for
    one. *)
Lemma comments_loop_spec fuel client note_id xsec_token limit :
  forall cursor comments w r w',
    comments_loop env fuel client note_id xsec_token limit cursor comments w = (r, w') ->
    exists evs,
      log w' = log w ++ evs /\
      Forall (fun e => is_comments_request e = true) evs /\
      (r = Diverge -> length evs = fuel).
Proof.
  induction fuel as [|fuel IH]; intros cursor comments w r w'; simpl.
  - destruct (len comments <? limit); intros [= <- <-];
      exists []; rewrite app_nil_r; by repeat split.
  - destruct (len comments <? limit).
    2:{ intros [= <- <-]. exists []. rewrite app_nil_r. by repeat split. }
    unfold bind at 1, external.
    set (c := Effects.GetNoteComments client note_id xsec_token cursor).
    destruct (env (log w) c) as [result|e] eqn:E.
    2:{ stops_after (Event c (Raises e)). }
    unfold bind, lift, ret.
    pose proof (contains_key_finishes "comments" result) as F1.
    destruct (if negb (truthy result) then Ret false else contains_key "comments" result)
      as [[|]|e|] eqn:E1;
      [| | |by destruct (negb (truthy result))];
      try (stops_after (Event c (Returns result))).
    simpl.
    match goal with
    | |- context [match ?X with _ => _ end] =>
        assert (F2 : X <> Diverge)
          by (apply obind_finishes; [apply get_finishes|intros ?];
              apply obind_finishes; [apply iter_finishes|intros ?];
              apply append_comments_finishes);
        destruct X as [comments1|e|]; [| |done]
    end;
      try (stops_after (Event c (Returns result))).
    pose proof (get_finishes result "cursor" (VStr EmptyString)) as F3.
    destruct (get result "cursor" (VStr EmptyString)) as [cursor1|e|]; [| |done];
      try (stops_after (Event c (Returns result))).
    pose proof (get_finishes result "has_more" (VBool false)) as F4.
    destruct (get result "has_more" (VBool false)) as [has_more|e|]; [| |done];
      try (stops_after (Event c (Returns result))).
    destruct (negb (truthy has_more));
      try (stops_after (Event c (Returns result))).
    intros H. destruct (IH _ _ _ _ _ H) as (evs & L & F & D).
    exists (Event c (Returns result) :: evs). simpl in L.
    rewrite L, <- app_assoc. repeat split; auto.
    intros Hr. simpl. by rewrite D.
Qed.



End Comments.



Section Facade.

Import XhsSignalAdapter.
Context (env : oracle) (cfg : Config).








(** ** The loops come to an end when the pages that announce more hold
    something *)











End Facade.



(** A browser that cannot be started: the exception ends up in the result. *)
Example broken_browser_is_reported :
  fst (XhsSignalAdapter.get_note_detail Examples.broken Examples.cfg0 Examples.adapter
         "note" EmptyString false Examples.w0)
  = Ret {| success := false;
           data := VNone;
           error := Some "browser not installed";
           metadata := [("platform", VStr "xhs")] |}.
Proof. vm_compute. reflexivity. Qed.



(** ** The cookie file, account by account *)

Section CookieAccounts.

Import PyStr CookieManager.

Lemma has_char_lstrip_by p q s :
  has_char p s = false -> has_char p (lstrip_by q s) = false.
Proof.
  induction s as [|c s IH]; [done|]. simpl.
  intros [Hc Hs]%orb_false_iff. destruct (q c); [auto|]. simpl. by rewrite Hc, Hs.
Qed.

Lemma has_char_rstrip_by p q s :
  has_char p s = false -> has_char p (rstrip_by q s) = false.
Proof.
  induction s as [|c s IH]; [done|]. simpl.
  intros [Hc Hs]%orb_false_iff. specialize (IH Hs).
  destruct (rstrip_by q s) as [|d r].
  - destruct (q c); [done|]. simpl. by rewrite Hc.
  - simpl in *. by rewrite Hc, IH.
Qed.

Lemma one_line_strip s : one_line s -> one_line (strip s).
Proof.
  intros [H1 H2]. split; unfold strip;
    by apply has_char_rstrip_by, has_char_lstrip_by.
Qed.

Lemma one_line_app s t : one_line s -> one_line t -> one_line (s +:+ t).
Proof. intros [H1 H2] [H3 H4]. split; rewrite has_char_app; by rewrite ?H1, ?H2, ?H3, ?H4. Qed.

(** A text that starts with [#] is no cookie line, however it goes on. *)
Lemma comment_is_no_cookie_line r :
  is_cookie_line (strip (String "#" r)) = false.
Proof.
  unfold strip. simpl lstrip_by.
  destruct (rstrip_by_head is_space "#" r eq_refl) as [r' ->].
  reflexivity.
Qed.

Lemma of_uint_one_line u : one_line (NilZero.string_of_uint u).
Proof.
  assert (H : forall u, one_line (NilEmpty.string_of_uint u)).
  { clear u. induction u as [|u [H1 H2]|u [H1 H2]|u [H1 H2]|u [H1 H2]|u [H1 H2]
                              |u [H1 H2]|u [H1 H2]|u [H1 H2]|u [H1 H2]|u [H1 H2]];
      split; simpl; by rewrite ?H1, ?H2. }
  destruct u; try apply H. by split.
Qed.

Lemma auto_saved_comment_line n :
  one_line (auto_saved_comment n) /\ is_cookie_line (strip (auto_saved_comment n)) = false.
Proof.
  split; [|apply comment_is_no_cookie_line].
  unfold auto_saved_comment. apply one_line_app; [by split|].
  apply one_line_app; [apply of_uint_one_line|by split].
Qed.

(** The positions that [save_cookie] collects are those of the cookies that
    [_load_cookies_from_file] reads: writing a cookie line over the line
    of the [i]-th position replaces the [i]-th cookie. *)
Lemma scan_lines_length raw k :
  length (snd (scan_lines k raw)) = length (List.filter is_cookie_line (map strip raw)).
Proof.
  revert k. induction raw as [|x raw IH]; intros k; [done|].
  cbn [scan_lines map List.filter]. specialize (IH (S k)).
  destruct (scan_lines (S k) raw) as [ls idx]. cbn [snd] in *.
  fold (is_cookie_line (strip x)).
  destruct (is_cookie_line (strip x)); simpl; by rewrite IH.
Qed.

Lemma scan_lines_insert raw s' :
  is_cookie_line s' = true ->
  forall k i t,
    snd (scan_lines k raw) !! i = Some t ->
    (k <= t)%nat /\
    List.filter is_cookie_line (<[(t - k)%nat := s']> (map strip raw))
    = <[i := s']> (List.filter is_cookie_line (map strip raw)).
Proof.
  intros Hs'. induction raw as [|x raw IH]; intros k i t; [done|].
  cbn [scan_lines map]. specialize (IH (S k)).
  destruct (scan_lines (S k) raw) as [ls idx]. cbn [snd] in *.
  fold (is_cookie_line (strip x)). cbn [List.filter].
  destruct (is_cookie_line (strip x)) eqn:E.
  - destruct i as [|i]; simpl.
    + intros [= <-]. rewrite Nat.sub_diag. simpl. by rewrite Hs'.
    + intros H. destruct (IH i t H) as [Hk IH'].
      replace (t - k)%nat with (S (t - S k)) by lia. simpl.
      rewrite E, IH'. split; [lia|done].
  - intros H. destruct (IH i t H) as [Hk IH'].
    replace (t - k)%nat with (S (t - S k)) by lia. simpl.
    rewrite E, IH'. split; [lia|done].
Qed.

Lemma scan_lines_bound raw k i t :
  snd (scan_lines k raw) !! i = Some t -> (t < k + length raw)%nat.
Proof.
  revert k i. induction raw as [|x raw IH]; intros k i; [done|].
  cbn [scan_lines]. specialize (IH (S k)).
  destruct (scan_lines (S k) raw) as [ls idx]. cbn [snd] in *.
  destruct (_ && _).
  - destruct i as [|i]; simpl; [intros [= <-]; lia|].
    intros H. specialize (IH _ H). lia.
  - intros H. specialize (IH _ H). simpl. lia.
Qed.

Lemma map_insert {X Y} (f : X -> Y) (l : list X) (i : nat) (x : X) :
  map f (<[i := x]> l) = <[i := f x]> (map f l).
Proof. revert i. induction l as [|y l IH]; intros [|i]; simpl; by rewrite ?IH. Qed.

(** The lines that [save_cookie] writes for the account index [i], given
    the lines [raw] it has read: none when [i] lies before the first
    account counted from the end; otherwise lines that are read back as
    the old cookies with the new one in place [i] (counted from the end
    when [i] is negative), or after the last one when there is no place
    [i]. *)
Lemma save_cookie_new_lines raw s' i :
  Forall line_of raw ->
  is_cookie_line s' = true -> strip s' = s' -> one_line s' ->
  let old := load_lines raw in
  exists res,
    (let '(lines, cookie_lines_indices) := scan_lines 0 raw in
     if i <? len cookie_lines_indices then
       match index cookie_lines_indices i with
       | Some target_line => Some (<[target_line := s']> lines)
       | None => None
       end
     else
       let lines :=
         match last lines with
         | Some l => if nonempty l then lines ++ [EmptyString] else lines
         | None => lines
         end in
       Some (lines ++ [auto_saved_comment (length cookie_lines_indices + 1)] ++ [s']))
    = res /\
    match res with
    | None => i < - len old
    | Some new =>
        - len old <= i /\
        Forall one_line new /\
        List.filter is_cookie_line (map strip new)
        = if i <? len old
          then <[Z.to_nat (if 0 <=? i then i else len old + i) := s']> old
          else old ++ [s']
    end.
Proof.
  intros Hraw Hs' Hstrip Hone old.
  assert (Hold : old = List.filter is_cookie_line (map strip raw))
    by apply load_lines_filter.
  pose proof (scan_lines_fst 0 raw) as Hfst.
  pose proof (scan_lines_length raw 0) as Hlen.
  pose proof (scan_lines_insert raw s' Hs' 0) as Hins.
  pose proof (scan_lines_bound raw 0) as Hbound.
  destruct (scan_lines 0 raw) as [lines idx]. cbn [fst snd] in *. subst lines.
  rewrite <- Hold in Hlen, Hins.
  assert (Hl : len idx = len old) by (unfold len; by rewrite Hlen).
  destruct (rstrip_nl_lines raw Hraw) as [Hone_raw Hstrip_raw].
  assert (Hreplace : forall n t, idx !! n = Some t ->
    Forall one_line (<[t := s']> (map rstrip_nl raw)) /\
    List.filter is_cookie_line (map strip (<[t := s']> (map rstrip_nl raw)))
    = <[n := s']> old).
  { intros n t Ht. split; [by apply Forall_insert|].
    destruct (Hins n t Ht) as [_ H]. rewrite Nat.sub_0_r in H.
    by rewrite map_insert, Hstrip, Hstrip_raw. }
  rewrite Hl. destruct (i <? len old) eqn:Hlt.
  - apply Z.ltb_lt in Hlt. unfold index. rewrite Hlen. fold (len old).
    destruct (0 <=? i) eqn:H0.
    + apply Z.leb_le in H0.
      destruct (lookup_lt_is_Some_2 idx (Z.to_nat i)) as [t Ht].
      { unfold len in Hl, Hlt. lia. }
      rewrite Ht. eexists. split; [reflexivity|]. cbv beta iota.
      split; [unfold len; lia|]. by apply Hreplace.
    + apply Z.leb_gt in H0. destruct (- len old <=? i) eqn:H1.
      * apply Z.leb_le in H1.
        destruct (lookup_lt_is_Some_2 idx (Z.to_nat (len old + i))) as [t Ht].
        { unfold len in *. lia. }
        rewrite Ht. eexists. split; [reflexivity|]. cbv beta iota.
        split; [done|]. by apply Hreplace.
      * apply Z.leb_gt in H1. eexists. split; [reflexivity|]. done.
  - apply Z.ltb_ge in Hlt.
    set (lines := match last (map rstrip_nl raw) with
                  | Some l => if nonempty l then map rstrip_nl raw ++ [EmptyString]
                              else map rstrip_nl raw
                  | None => map rstrip_nl raw
                  end).
    assert (Hlines : Forall one_line lines /\
                     List.filter is_cookie_line (map strip lines) = old).
    { subst lines. rewrite Hold, <- Hstrip_raw.
      destruct (last (map rstrip_nl raw)) as [l|]; [|done].
      destruct (nonempty l); [|done]. split.
      - apply Forall_app. split; [done|]. by repeat constructor.
      - rewrite map_app, List.filter_app. simpl. by rewrite app_nil_r. }
    destruct Hlines as [Hl1 Hl2].
    destruct (auto_saved_comment_line (length idx + 1)) as [Hc1 Hc2].
    eexists. split; [reflexivity|]. cbv beta iota.
    split; [unfold len in *; lia|]. split.
    + apply Forall_app. split; [done|].
      constructor; [exact Hc1|]. constructor; [exact Hone|constructor].
    + rewrite map_app, List.filter_app, Hl2. simpl. by rewrite Hc2, Hstrip, Hs'.
Qed.


(** [save_cookie] with a cookie line: what it returns and what the file
    holds afterwards. *)
Lemma save_cookie_spec self fs P s i :
  is_cookie_line (strip s) = true ->
  one_line (strip s) ->
  let file := _get_cookie_file self P in
  let old := _load_cookies_from_file fs file in
  if i <? - len old then save_cookie self fs P s i = (false, self, fs)
  else
    exists fs',
      save_cookie self fs P s i
      = (true, {| cookies_dir := cookies_dir self;
                  _cache := delete (lower P) (_cache self) |}, fs') /\
      _load_cookies_from_file fs' file
      = (if i <? len old
         then <[Z.to_nat (if 0 <=? i then i else len old + i) := strip s]> old
         else old ++ [strip s]) /\
      (forall path, path <> file -> fs' !! path = fs !! path).
Proof.
  intros Hcookie Hone file old.
  assert (Hne : nonempty (strip s) = true).
  { unfold is_cookie_line in Hcookie. by destruct (nonempty (strip s)). }
  pose proof (strip_nonempty s Hne) as Hne'.
  set (raw := match fs !! file with
              | Some content => file_lines content
              | None => []
              end).
  assert (Hraw : Forall line_of raw).
  { subst raw. destruct (fs !! _); [apply file_lines_shape|constructor]. }
  assert (Hold : old = load_lines raw).
  { subst old raw. unfold _load_cookies_from_file. by destruct (fs !! file). }
  destruct (save_cookie_new_lines raw (strip s) i Hraw Hcookie (strip_idem s) Hone)
    as (res & Hres & Hspec).
  rewrite <- Hold in Hspec.
  unfold save_cookie. rewrite Hne, Hne'. cbn [negb orb]. fold file.
  replace (match fs !! file with
           | Some content => scan_lines 0 (file_lines content)
           | None => ([], [])
           end) with (scan_lines 0 raw)
    by (subst raw; by destruct (fs !! file)).
  destruct (scan_lines 0 raw) as [lines idx]. cbv zeta in Hres |- *. rewrite Hres.
  destruct res as [new|].
  - destruct Hspec as (Hi & Hnew & Hfilter).
    assert ((i <? - len old) = false) as -> by (apply Z.ltb_ge; lia).
    eexists. split; [reflexivity|]. split.
    + unfold _load_cookies_from_file. rewrite lookup_insert_eq.
      by rewrite file_lines_render, load_written_lines.
    + intros path Hpath. by rewrite lookup_insert_ne.
  - by assert ((i <? - len old) = true) as -> by (by apply Z.ltb_lt).
Qed.

(** Property X1.  [save_cookie(P, s, i)] with [i >= 0] and a string [s]
    whose stripped form is a cookie line without line break returns [True];
    the cookies that are read from the file of [P] afterwards are the ones
    read from it before, with [s.strip()] in place [i] when there was an
    account [i], and after the last one otherwise (whatever [i] is: the
    list is not padded); and that is what [get_all_cookies(P)] returns
    next, for a platform whose file does not depend on the letter case of
    its name. *)
Theorem save_cookie_replaces_or_appends
    (self : CookieManager.t) (fs : gmap string string) (P s : string) (i : Z) :
  is_cookie_line (strip s) = true ->
  one_line (strip s) ->
  0 <= i ->
  let file := _get_cookie_file self P in
  let old := _load_cookies_from_file fs file in
  let new := if i <? len old then <[Z.to_nat i := strip s]> old else old ++ [strip s] in
  exists self' fs',
    save_cookie self fs P s i = (true, self', fs') /\
    _load_cookies_from_file fs' file = new /\
    (assoc (lower P) platform_files <> None \/ lower P = P ->
     fst (get_all_cookies self' fs' P) = new).
Proof.
  intros Hcookie Hone Hi file old new.
  pose proof (save_cookie_spec self fs P s i Hcookie Hone) as H. cbv zeta in H.
  fold file old in H.
  assert ((i <? - len old) = false) as E by (apply Z.ltb_ge; unfold len; lia).
  rewrite E in H. destruct H as (fs' & Hsave & Hload & _).
  assert ((0 <=? i) = true) as E0 by by apply Z.leb_le.
  rewrite E0 in Hload. fold new in Hload.
  do 2 eexists. split; [exact Hsave|]. split; [exact Hload|].
  intros HP. unfold get_all_cookies. cbn [_cache cookies_dir].
  rewrite lookup_delete_eq. cbn [fst].
  replace (_get_cookie_file {| cookies_dir := cookies_dir self;
                               _cache := delete (lower P) (_cache self) |} (lower P))
    with file by (symmetry; apply (cookie_file_lower self P HP)).
  exact Hload.
Qed.

(** Property X2.  [save_cookie] counts a negative account index from the
    end: with [n] accounts in the file and [-n <= i < 0] it returns [True]
    and writes [s.strip()] over account [n + i]; [get_cookie] with the same
    index then still returns the empty string. *)
Theorem save_cookie_counts_a_negative_index_from_the_end
    (self : CookieManager.t) (fs : gmap string string) (P s : string) (i : Z) :
  is_cookie_line (strip s) = true ->
  one_line (strip s) ->
  let file := _get_cookie_file self P in
  let old := _load_cookies_from_file fs file in
  - len old <= i < 0 ->
  exists self' fs',
    save_cookie self fs P s i = (true, self', fs') /\
    _load_cookies_from_file fs' file = <[Z.to_nat (len old + i) := strip s]> old /\
    forall rnd random_select,
      fst (get_cookie self' fs' rnd P (Some i) random_select) = EmptyString.
Proof.
  intros Hcookie Hone file old Hi.
  pose proof (save_cookie_spec self fs P s i Hcookie Hone) as H. cbv zeta in H.
  fold file old in H.
  assert ((i <? - len old) = false) as E by (apply Z.ltb_ge; lia).
  rewrite E in H. destruct H as (fs' & Hsave & Hload & _).
  assert ((0 <=? i) = false) as E0 by (apply Z.leb_gt; lia).
  assert ((i <? len old) = true) as E1 by (apply Z.ltb_lt; unfold len; lia).
  rewrite E0, E1 in Hload.
  do 2 eexists. split; [exact Hsave|]. split; [exact Hload|].
  intros rnd random_select. unfold get_cookie.
  destruct (get_all_cookies _ fs' P) as [cookies self']. cbn [fst].
  destruct cookies; [done|]. by rewrite E0.
Qed.


End CookieAccounts.

(** ** The cache of the cookie manager *)

Section CookieCache.

Import PyStr CookieManager.

(** Property X4.  [get_all_cookies] reads the file of a platform once:
    after a first call, every later call for that platform returns the same
    list and leaves the manager as it is, whatever the disk holds by then;
    after [clear_cache] the next call reads the file again. *)
Theorem get_all_cookies_reads_the_file_once
    (self : CookieManager.t) (fs : gmap string string) (P : string)
    (cookies : list string) (self' : CookieManager.t) :
  get_all_cookies self fs P = (cookies, self') ->
  (forall fs2, get_all_cookies self' fs2 P = (cookies, self')) /\
  (forall fs2, fst (get_all_cookies (clear_cache self') fs2 P)
               = _load_cookies_from_file fs2 (_get_cookie_file self (lower P))).
Proof.
  unfold get_all_cookies.
  destruct (_cache self !! lower P) as [c|] eqn:E; intros [= <- <-].
  - split; intros fs2; [by rewrite E|]. cbn [clear_cache _cache].
    by rewrite lookup_empty.
  - split; intros fs2; cbn [_cache clear_cache].
    + by rewrite lookup_insert_eq.
    + by rewrite lookup_empty.
Qed.

Lemma save_cookie_outcome self fs P s i :
  save_cookie self fs P s i = (false, self, fs) \/
  exists new,
    save_cookie self fs P s i
    = (true, {| cookies_dir := cookies_dir self;
                _cache := delete (lower P) (_cache self) |},
       <[_get_cookie_file self P := render new]> fs).
Proof.
  unfold save_cookie. destruct (_ || _); [by left|].
  destruct (match fs !! _ with Some _ => _ | None => _ end) as [lines idx].
  destruct (i <? len idx); [|right; eauto].
  destruct (index idx i); [right; eauto|by left].
Qed.

(** Property X5.  [save_cookie(P, ...)] drops the cache entry of
    [P.lower()] and no other: a list that is cached under another name is
    returned as before, also when that name is an alias of the same file. *)
Theorem save_cookie_drops_one_cache_entry
    (self : CookieManager.t) (fs : gmap string string) (P s : string) (i : Z)
    (Q : string) (cached : list string) :
  _cache self !! lower Q = Some cached ->
  lower Q <> lower P ->
  let '(ok, self', fs') := save_cookie self fs P s i in
  get_all_cookies self' fs' Q = (cached, self').
Proof.
  intros Hc Hne.
  destruct (save_cookie_outcome self fs P s i) as [-> | [new ->]];
    unfold get_all_cookies; cbn [_cache].
  - by rewrite Hc.
  - by rewrite lookup_delete_ne, Hc.
Qed.

(** Property X6.  [get_cookie] never makes up a cookie: it returns the
    empty string or one of the cookies of the platform; without an account
    index and with at least one cookie it returns one of them (the first
    one when [random_select] is off), and with an index in range the cookie
    at that index. *)
Theorem get_cookie_returns_a_stored_cookie
    (self : CookieManager.t) (fs : gmap string string) (rnd : nat) (P : string)
    (account_index : option Z) (random_select : bool) :
  let cookies := fst (get_all_cookies self fs P) in
  let c := fst (get_cookie self fs rnd P account_index random_select) in
  (c = EmptyString \/ c ∈ cookies) /\
  (cookies <> [] -> account_index = None -> c ∈ cookies) /\
  (cookies <> [] -> account_index = None -> random_select = false ->
   cookies !! 0%nat = Some c) /\
  (forall i, account_index = Some i -> 0 <= i < len cookies ->
             cookies !! Z.to_nat i = Some c).
Proof.
  unfold get_cookie. destruct (get_all_cookies self fs P) as [cookies self'].
  cbn [fst]. destruct cookies as [|c0 cookies].
  { cbn [fst]. split; [by left|]. split; [done|]. split; [done|].
    intros i _. unfold len. simpl. lia. }
  set (l := c0 :: cookies).
  destruct account_index as [i|].
  - destruct ((0 <=? i) && (i <? len l)) eqn:E; cbn [fst].
    + apply andb_true_iff in E as [E1%Z.leb_le E2%Z.ltb_lt].
      destruct (lookup_lt_is_Some_2 l (Z.to_nat i)) as [c Hc].
      { unfold len in E2. lia. }
      rewrite Hc. cbn [default]. split; [right; by eapply list_elem_of_lookup_2|].
      split; [done|]. split; [done|]. by intros ? [= <-] _.
    + split; [by left|]. split; [done|]. split; [done|].
      intros ? [= <-] [H1%Z.leb_le H2%Z.ltb_lt]. by rewrite H1, H2 in E.
  - assert (H0 : l !! 0%nat = Some c0) by done.
    destruct random_select; cbn [fst].
    + unfold random_choice.
      destruct (lookup_lt_is_Some_2 l (rnd mod length l)) as [c Hc].
      { apply Nat.mod_upper_bound. done. }
      rewrite Hc. cbn [default].
      assert (c ∈ l) by by eapply list_elem_of_lookup_2.
      split; [by right|]. split; [done|]. split; [done|]. done.
    + rewrite H0. cbn [default].
      assert (c0 ∈ l) by by eapply list_elem_of_lookup_2.
      split; [by right|]. split; [done|]. split; [done|]. done.
Qed.

(** Property X7.  Every cookie that [_load_cookies_from_file] reads is a
    stripped, non-empty line that holds a [=], is no comment and has no line
    break in it; a file that does not exist gives no cookie. *)
Theorem loaded_cookies_are_cookie_lines
    (fs : gmap string string) (filepath : string) :
  Forall (fun c => is_cookie_line c = true /\ strip c = c /\ one_line c)
         (_load_cookies_from_file fs filepath) /\
  (fs !! filepath = None -> _load_cookies_from_file fs filepath = []).
Proof.
  unfold _load_cookies_from_file. split; [|by intros ->].
  destruct (fs !! filepath) as [content|]; [|constructor].
  rewrite load_lines_filter.
  pose proof (file_lines_shape content) as H.
  induction H as [|x raw (l & Hl & Hx) _ IH]; [constructor|].
  cbn [map List.filter]. destruct (is_cookie_line (strip x)) eqn:E; [|exact IH].
  constructor; [|exact IH]. split; [done|]. split; [apply strip_idem|].
  rewrite (strip_line x l Hx). by apply one_line_strip.
Qed.

End CookieCache.

(** ** Cookie strings *)

Section CookieStrings.

Import PyStr CookieManager.

Lemma dict_set_keys k v d x :
  x ∈ map fst (dict_set k v d) <-> x = k \/ x ∈ map fst d.
Proof.
  induction d as [|[k' v'] d IH]; simpl.
  - rewrite list_elem_of_singleton. split; [intros ->; by left|].
    intros [->|H]; [done|]. by apply elem_of_nil in H.
  - destruct (String.eqb k' k) eqn:E; simpl.
    + apply String.eqb_eq in E as ->. rewrite elem_of_cons. tauto.
    + rewrite !elem_of_cons, IH. tauto.
Qed.

Lemma dict_set_NoDup k v d : NoDup (map fst d) -> NoDup (map fst (dict_set k v d)).
Proof.
  induction d as [|[k' v'] d IH]; simpl.
  - intros _. apply NoDup_singleton.
  - rewrite NoDup_cons. intros [Hk' Hd].
    destruct (String.eqb k' k) eqn:E; simpl.
    + apply NoDup_cons. by split.
    + apply NoDup_cons. split; [|auto]. rewrite dict_set_keys.
      intros [->|H]; [|done]. by rewrite String.eqb_refl in E.
Qed.

Lemma dict_set_Forall (Q : string * string -> Prop) k v d :
  Q (k, v) -> Forall Q d -> Forall Q (dict_set k v d).
Proof.
  intros Hkv. induction 1 as [|[k' v'] d Hx Hd IH]; simpl.
  - by repeat constructor.
  - destruct (String.eqb k' k) eqn:E.
    + apply String.eqb_eq in E as ->. by constructor.
    + by constructor.
Qed.

Lemma dict_set_fresh k v d : k ∉ map fst d -> dict_set k v d = d ++ [(k, v)].
Proof.
  induction d as [|[k' v'] d IH]; simpl; [done|].
  rewrite not_elem_of_cons. intros [Hk Hd].
  destruct (String.eqb k' k) eqn:E.
  - apply String.eqb_eq in E. congruence.
  - by rewrite IH.
Qed.

Lemma parse_items_invariant items d :
  NoDup (map fst d) ->
  Forall (fun kv => strip (fst kv) = fst kv /\ strip (snd kv) = snd kv) d ->
  NoDup (map fst (parse_items items d)) /\
  Forall (fun kv => strip (fst kv) = fst kv /\ strip (snd kv) = snd kv)
         (parse_items items d).
Proof.
  revert d. induction items as [|item items IH]; intros d H1 H2; simpl; [done|].
  destruct (split1 "=" (strip item)) as [key [value|]]; [|auto].
  apply IH; [by apply dict_set_NoDup|].
  apply dict_set_Forall; [|done]. split; apply strip_idem.
Qed.

(** Property X8.  The dictionary that [parse_cookie_string] builds has
    stripped names and values and no name twice, so that
    [format_cookies_for_playwright] yields one cookie for each name, every
    one with the domain and the path given; the empty string yields
    none. *)
Theorem cookie_names_are_distinct_and_stripped
    (cookie_str domain path : string) :
  let cookie_dict := parse_cookie_string cookie_str in
  let cookies := format_cookies_for_playwright cookie_str domain path in
  NoDup (map fst cookie_dict) /\
  Forall (fun kv => strip (fst kv) = fst kv /\ strip (snd kv) = snd kv) cookie_dict /\
  NoDup (map (fun c => fst (fst (fst c))) cookies) /\
  Forall (fun c => snd (fst c) = domain /\ snd c = path) cookies /\
  length cookies = length cookie_dict /\
  format_cookies_for_playwright EmptyString domain path = [].
Proof.
  intros cookie_dict cookies.
  assert (H : NoDup (map fst cookie_dict) /\
              Forall (fun kv => strip (fst kv) = fst kv /\ strip (snd kv) = snd kv)
                     cookie_dict).
  { subst cookie_dict. unfold parse_cookie_string.
    destruct (negb (nonempty cookie_str)); [split; constructor|].
    apply parse_items_invariant; constructor. }
  destruct H as [H1 H2]. split; [done|]. split; [done|].
  subst cookies. unfold format_cookies_for_playwright. fold cookie_dict.
  split; [|split; [|split; [|done]]].
  - by rewrite map_map.
  - clear. induction cookie_dict; by constructor.
  - apply length_map.
Qed.

(** *** Reading back a cookie string *)

Lemma lstrip_by_shorter p s :
  lstrip_by p s = s \/ (String.length (lstrip_by p s) < String.length s)%nat.
Proof.
  induction s as [|c s IH]; [by left|]. simpl.
  destruct (p c); [|by left]. right. destruct IH as [-> | IH]; lia.
Qed.

Lemma rstrip_by_length p s : (String.length (rstrip_by p s) <= String.length s)%nat.
Proof.
  induction s as [|c s IH]; [done|]. simpl.
  destruct (rstrip_by p s) as [|d r]; [destruct (p c); simpl; lia|simpl in *; lia].
Qed.

Lemma strip_fixed s :
  strip s = s -> lstrip_by is_space s = s /\ rstrip_by is_space s = s.
Proof.
  unfold strip. intros H.
  destruct (lstrip_by_shorter is_space s) as [E|E].
  - by rewrite E in H.
  - pose proof (rstrip_by_length is_space (lstrip_by is_space s)) as L.
    rewrite H in L. lia.
Qed.

Lemma lstrip_by_app p k t :
  lstrip_by p k = k -> k <> EmptyString -> lstrip_by p (k +:+ t) = k +:+ t.
Proof.
  destruct k as [|c k]; [done|]. simpl. intros H _.
  destruct (p c); [|done].
  destruct (lstrip_by_shorter p k) as [E|E]; rewrite ?E in H.
  - assert (L : String.length k = String.length (String c k)) by by rewrite <- H.
    simpl in L. lia.
  - rewrite H in E. simpl in E. lia.
Qed.

Lemma rstrip_by_app_fixed p a b :
  rstrip_by p b = b -> b <> EmptyString -> rstrip_by p (a +:+ b) = a +:+ b.
Proof.
  intros Hb Hne. induction a as [|c a IH]; [done|].
  rewrite app_cons. simpl. rewrite IH.
  destruct (a +:+ b) eqn:E; [|done]. by destruct a.
Qed.

Lemma lstrip_by_blank p ws x :
  lstrip_by p ws = EmptyString -> lstrip_by p (ws +:+ x) = lstrip_by p x.
Proof.
  induction ws as [|c ws IH]; [done|]. simpl. destruct (p c); [auto|done].
Qed.

Lemma blank_has_no_semicolon ws :
  lstrip_by is_space ws = EmptyString -> has_char (is_char ";") ws = false.
Proof.
  induction ws as [|c ws IH]; [done|]. simpl.
  destruct (is_space c) eqn:E; [|done]. intros H. rewrite (IH H), orb_false_r.
  destruct c as [[] [] [] [] [] [] [] []]; try done; by vm_compute in E.
Qed.

Lemma split_no_sep sep a : has_char (is_char sep) a = false -> split sep a = [a].
Proof.
  induction a as [|c a IH]; [done|]. simpl.
  intros [-> Ha]%orb_false_iff. by rewrite (IH Ha).
Qed.

Lemma split_app_sep sep a c b :
  has_char (is_char sep) a = false -> is_char sep c = true ->
  split sep (a +:+ String c b) = a :: split sep b.
Proof.
  intros Ha Hc. induction a as [|d a IH]; simpl.
  - by rewrite Hc.
  - simpl in Ha. apply orb_false_iff in Ha as [-> Ha]. by rewrite (IH Ha).
Qed.

Lemma split_app_no_sep sep a b :
  has_char (is_char sep) a = false ->
  split sep (a +:+ b)
  = match split sep b with
    | h :: t => (a +:+ h) :: t
    | [] => [a]
    end.
Proof.
  pose proof (split_not_nil sep b) as Hb.
  induction a as [|d a IH].
  - intros _. rewrite app_empty_l.
    destruct (split sep b) as [|h t]; [by destruct Hb|by rewrite app_empty_l].
  - simpl. intros [-> Ha]%orb_false_iff. rewrite (IH Ha).
    destruct (split sep b) as [|h t]; [by destruct Hb|done].
Qed.

Lemma split1_app_sep sep k v :
  has_char (is_char sep) k = false ->
  split1 sep (k +:+ String sep v) = (k, Some v).
Proof.
  induction k as [|c k IH]; simpl.
  - intros _. unfold is_char. by rewrite Nat.eqb_refl.
  - intros [-> Hk]%orb_false_iff. by rewrite (IH Hk).
Qed.

(** A pair of a stripped name without [;] and [=] and a stripped value
    without [;]. *)
Local Abbreviation clean kv :=
  (strip (fst kv) = fst kv /\ strip (snd kv) = snd kv /\
   has_char (is_char ";") (fst kv) = false /\
   has_char (is_char "=") (fst kv) = false /\
   has_char (is_char ";") (snd kv) = false).

Local Abbreviation pair_text kv := (fst kv +:+ "=" +:+ snd kv).

Lemma pair_text_stripped (kv : string * string) :
  strip (fst kv) = fst kv -> strip (snd kv) = snd kv ->
  strip (pair_text kv) = pair_text kv.
Proof.
  destruct kv as [k v]. cbn [fst snd]. intros [Hk1 Hk2]%strip_fixed [Hv1 Hv2]%strip_fixed.
  assert (R1 : rstrip_by is_space ("=" +:+ v) = "=" +:+ v).
  { destruct v as [|c v]; [done|]. by apply rstrip_by_app_fixed. }
  assert (R2 : rstrip_by is_space (k +:+ "=" +:+ v) = k +:+ "=" +:+ v)
    by by apply rstrip_by_app_fixed.
  unfold strip. destruct k as [|c k].
  - simpl lstrip_by. exact R2.
  - by rewrite lstrip_by_app.
Qed.

Lemma pair_text_no_semicolon (kv : string * string) :
  has_char (is_char ";") (fst kv) = false -> has_char (is_char ";") (snd kv) = false ->
  has_char (is_char ";") (pair_text kv) = false.
Proof. intros H1 H2. by rewrite !has_char_app, H1, H2. Qed.

Lemma split_joined_pairs ws kv kvs :
  lstrip_by is_space ws = EmptyString ->
  Forall (fun kv => clean kv) (kv :: kvs) ->
  exists h t,
    split ";" (join (";" +:+ ws) (map (fun kv => pair_text kv) (kv :: kvs))) = h :: t /\
    Forall2 (fun item kv => strip item = pair_text kv) (h :: t) (kv :: kvs).
Proof.
  intros Hws. revert kv. induction kvs as [|kv2 kvs IH]; intros kv Hclean.
  - inversion Hclean as [|? ? (H1 & H2 & H3 & H4 & H5) _]; subst.
    exists (pair_text kv), []. simpl map. cbn [join].
    rewrite split_no_sep by by apply pair_text_no_semicolon.
    split; [done|]. constructor; [|constructor]. by apply pair_text_stripped.
  - inversion Hclean as [|? ? (H1 & H2 & H3 & H4 & H5) Hrest]; subst.
    destruct (IH kv2 Hrest) as (h & t & Hsplit & Hitems).
    change (join (";" +:+ ws) (map (fun kv => pair_text kv) (kv :: kv2 :: kvs)))
      with (pair_text kv +:+ String ";" (ws +:+
              join (";" +:+ ws) (map (fun kv => pair_text kv) (kv2 :: kvs)))).
    rewrite split_app_sep; [|by apply pair_text_no_semicolon|done].
    rewrite split_app_no_sep by by apply blank_has_no_semicolon.
    rewrite Hsplit. eexists _, _. split; [reflexivity|].
    constructor; [by apply pair_text_stripped|].
    inversion Hitems as [|? ? ? ? Hh Ht]; subst. constructor; [|done].
    unfold strip. rewrite lstrip_by_blank by done. exact Hh.
Qed.

Lemma parse_items_pairs items kvs :
  Forall2 (fun item kv => strip item = pair_text kv) items kvs ->
  Forall (fun kv => clean kv) kvs ->
  forall acc, NoDup (map fst acc ++ map fst kvs) ->
              parse_items items acc = acc ++ kvs.
Proof.
  induction 1 as [|item [k v] items kvs Hitem _ IH]; intros Hclean acc Hnd.
  - simpl. by rewrite app_nil_r.
  - inversion Hclean as [|? ? (H1 & H2 & H3 & H4 & H5) Hrest]; subst.
    cbn [fst snd] in *. cbn [parse_items]. rewrite Hitem.
    change (k +:+ "=" +:+ v) with (k +:+ String "=" v).
    rewrite split1_app_sep by done. rewrite H1, H2.
    assert (Hfresh : k ∉ map fst acc).
    { apply NoDup_app in Hnd as (_ & Hd & _). intros Hk. apply (Hd k Hk).
      simpl. apply elem_of_cons. by left. }
    rewrite (dict_set_fresh k v acc Hfresh).
    rewrite IH; [by rewrite <- app_assoc|done|].
    rewrite map_app. simpl. by rewrite <- app_assoc.
Qed.

(** Property X9.  A cookie string is read back as it was put together:
    for pairs of stripped names without [;] and [=] and stripped values
    without [;], no name twice, joined as [name=value] with [;] and any
    amount of white space between them, [parse_cookie_string] gives the
    pairs back, in their order. *)
Theorem parse_cookie_string_of_joined_pairs
    (ws : string) (kvs : list (string * string)) :
  lstrip_by is_space ws = EmptyString ->
  NoDup (map fst kvs) ->
  Forall (fun kv => strip (fst kv) = fst kv /\ strip (snd kv) = snd kv /\
                    has_char (is_char ";") (fst kv) = false /\
                    has_char (is_char "=") (fst kv) = false /\
                    has_char (is_char ";") (snd kv) = false) kvs ->
  parse_cookie_string
    (join (";" +:+ ws) (map (fun kv => fst kv +:+ "=" +:+ snd kv) kvs)) = kvs.
Proof.
  intros Hws Hnd Hclean. destruct kvs as [|kv kvs]; [done|].
  destruct (split_joined_pairs ws kv kvs Hws Hclean) as (h & t & Hsplit & Hitems).
  unfold parse_cookie_string.
  assert (nonempty (join (";" +:+ ws) (map (fun kv => pair_text kv) (kv :: kvs))) = true)
    as ->.
  { destruct kv as [[|c k] v]; destruct kvs; done. }
  cbn [negb]. rewrite Hsplit.
  by rewrite (parse_items_pairs _ _ Hitems Hclean []).
Qed.

End CookieStrings.

(** ** The template of a cookie file *)

Section CookieTemplate.

Import PyStr CookieManager.

Lemma template_lines u :
  one_line u ->
  file_lines (template u)
  = [ "# " +:+ u +:+ " Cookies" +:+ nl;
      "# Each line is a cookie string for one account" +:+ nl;
      "# Empty lines and lines starting with # are ignored" +:+ nl;
      "# Format: key1=value1; key2=value2; ..." +:+ nl;
      nl;
      "# Account 1 - paste your cookie string below" +:+ nl;
      "# Example: a1=xxx; web_session=yyy; ..." +:+ nl;
      nl ].
Proof.
  intros [Hnl Hcr]. unfold file_lines, template.
  rewrite universal_newlines_id.
  2:{ rewrite !has_char_app, Hcr. reflexivity. }
  replace ("# " +:+ u +:+ " Cookies" +:+ nl +:+
           "# Each line is a cookie string for one account" +:+ nl +:+
           "# Empty lines and lines starting with # are ignored" +:+ nl +:+
           "# Format: key1=value1; key2=value2; ..." +:+ nl +:+
           nl +:+
           "# Account 1 - paste your cookie string below" +:+ nl +:+
           "# Example: a1=xxx; web_session=yyy; ..." +:+ nl +:+
           nl)
    with (("# " +:+ u +:+ " Cookies") +:+ nl +:+
          ("# Each line is a cookie string for one account" +:+ nl +:+
           "# Empty lines and lines starting with # are ignored" +:+ nl +:+
           "# Format: key1=value1; key2=value2; ..." +:+ nl +:+
           nl +:+
           "# Account 1 - paste your cookie string below" +:+ nl +:+
           "# Example: a1=xxx; web_session=yyy; ..." +:+ nl +:+
           nl))
    by by rewrite !app_assoc_str.
  rewrite split_lines_app_line.
  2:{ rewrite !has_char_app, Hnl. reflexivity. }
  by rewrite !app_assoc_str.
Qed.

(** Property X10.  [create_template] never touches a cookie file that
    exists, and changes no other file; the template it writes for a
    platform (whose upper-case name has no line break) holds no account:
    every line of it is empty or a comment, the example line included. *)
Theorem create_template_holds_no_account
    (upper : string -> string) (self : CookieManager.t)
    (fs : gmap string string) (P : string) :
  let file := _get_cookie_file self P in
  let fs' := create_template upper self fs P in
  (is_Some (fs !! file) -> fs' = fs) /\
  (forall path, path <> file -> fs' !! path = fs !! path) /\
  (fs !! file = None -> one_line (upper P) ->
   fs' !! file = Some (template (upper P)) /\
   _load_cookies_from_file fs' file = []).
Proof.
  intros file fs'. subst fs'. unfold create_template. fold file.
  split; [|split].
  - intros [c ->]. done.
  - intros path Hpath. destruct (fs !! file); [done|]. by rewrite lookup_insert_ne.
  - intros -> Hu. split; [by rewrite lookup_insert_eq|].
    unfold _load_cookies_from_file. rewrite lookup_insert_eq.
    rewrite (template_lines _ Hu), load_lines_filter.
    cbn [map List.filter].
    change ("# " +:+ upper P +:+ " Cookies" +:+ nl)
      with (String "#" (String " " (upper P +:+ " Cookies" +:+ nl))).
    rewrite comment_is_no_cookie_line. reflexivity.
Qed.

End CookieTemplate.

(** On a file with the accounts [a=1] and [b=2], account index 5 is
    written as the third account. *)
Lemma save_cookie_replaces_or_appends_witness :
  exists self' fs',
    CookieManager.save_cookie (CookieManager.__init__ "cookies") Examples.disk
      "xhs" " c=3 " 5 = (true, self', fs') /\
    CookieManager._load_cookies_from_file fs' "cookies/xhs_cookies.txt"
    = ["a=1"; "b=2"; "c=3"] /\
    (assoc (PyStr.lower "xhs") CookieManager.platform_files <> None \/
     PyStr.lower "xhs" = "xhs" ->
     fst (CookieManager.get_all_cookies self' fs' "xhs") = ["a=1"; "b=2"; "c=3"]).
Proof.
  apply (save_cookie_replaces_or_appends (CookieManager.__init__ "cookies")
           Examples.disk "xhs" " c=3 " 5).
  - reflexivity.
  - split; reflexivity.
  - lia.
Defined.

(** On that file, account index -1 is the second account. *)
Lemma save_cookie_counts_a_negative_index_from_the_end_witness :
  exists self' fs',
    CookieManager.save_cookie (CookieManager.__init__ "cookies") Examples.disk
      "xhs" "c=3" (-1) = (true, self', fs') /\
    CookieManager._load_cookies_from_file fs' "cookies/xhs_cookies.txt"
    = ["a=1"; "c=3"] /\
    forall rnd random_select,
      fst (CookieManager.get_cookie self' fs' rnd "xhs" (Some (-1)) random_select)
      = EmptyString.
Proof.
  apply (save_cookie_counts_a_negative_index_from_the_end
           (CookieManager.__init__ "cookies") Examples.disk "xhs" "c=3" (-1)).
  - reflexivity.
  - split; reflexivity.
  - split; [by vm_compute|lia].
Defined.

(** A manager that has read the two accounts keeps returning them from an
    empty disk. *)
Lemma get_all_cookies_reads_the_file_once_witness :
  (forall fs2,
     CookieManager.get_all_cookies
       (snd (CookieManager.get_all_cookies (CookieManager.__init__ "cookies")
               Examples.disk "xhs")) fs2 "xhs"
     = (["a=1"; "b=2"],
        snd (CookieManager.get_all_cookies (CookieManager.__init__ "cookies")
               Examples.disk "xhs"))) /\
  (forall fs2,
     fst (CookieManager.get_all_cookies
            (CookieManager.clear_cache
               (snd (CookieManager.get_all_cookies (CookieManager.__init__ "cookies")
                       Examples.disk "xhs"))) fs2 "xhs")
     = CookieManager._load_cookies_from_file fs2
         (CookieManager._get_cookie_file (CookieManager.__init__ "cookies")
            (PyStr.lower "xhs"))).
Proof.
  apply (get_all_cookies_reads_the_file_once (CookieManager.__init__ "cookies")
           Examples.disk "xhs").
  vm_compute. reflexivity.
Defined.

(** [xiaohongshu] names the file of [xhs]: a manager that has read the two
    accounts under that name still returns them after [a=1] has been
    replaced under the name [xhs]. *)
Lemma save_cookie_drops_one_cache_entry_witness :
  let self := snd (CookieManager.get_all_cookies (CookieManager.__init__ "cookies")
                     Examples.disk "xiaohongshu") in
  let '(ok, self', fs') := CookieManager.save_cookie self Examples.disk "xhs" "c=3" 0 in
  CookieManager.get_all_cookies self' fs' "xiaohongshu" = (["a=1"; "b=2"], self').
Proof.
  apply (save_cookie_drops_one_cache_entry
           (snd (CookieManager.get_all_cookies (CookieManager.__init__ "cookies")
                   Examples.disk "xiaohongshu"))
           Examples.disk "xhs" "c=3" 0 "xiaohongshu" ["a=1"; "b=2"]).
  - vm_compute. reflexivity.
  - vm_compute. discriminate.
Defined.

(** What the manager reads from the file by then. *)
Example alias_reads_a_stale_list :
  let self := snd (CookieManager.get_all_cookies (CookieManager.__init__ "cookies")
                     Examples.disk "xiaohongshu") in
  let fs' := snd (CookieManager.save_cookie self Examples.disk "xhs" "c=3" 0) in
  CookieManager._get_cookie_file self "xiaohongshu"
  = CookieManager._get_cookie_file self "xhs" /\
  CookieManager._load_cookies_from_file fs' (CookieManager._get_cookie_file self "xhs")
  = ["c=3"; "b=2"].
Proof. vm_compute. split; reflexivity. Qed.

Lemma parse_cookie_string_of_joined_pairs_witness :
  CookieManager.parse_cookie_string "a1=x=y; web_session=z; id="
  = [("a1", "x=y"); ("web_session", "z"); ("id", EmptyString)].
Proof.
  apply (parse_cookie_string_of_joined_pairs " "
           [("a1", "x=y"); ("web_session", "z"); ("id", EmptyString)]).
  - reflexivity.
  - apply (bool_decide_unpack _). by vm_compute.
  - repeat constructor.
Defined.

(** ** What running code leaves alone *)

Section StateLemmas.

Context (env : oracle).
Context {A B X : Type}.
Variable f : world -> X.
Hypothesis f_log : forall w l, f (set_log w l) = f w.
Hypothesis f_next_id : forall w n, f (set_next_id w n) = f w.

Lemma keeps_ret (a : A) : keeps f (ret a).
Proof. by intros w r w' [= <- <-]. Qed.

Lemma keeps_raise (e : exn) : keeps f (@raise A e).
Proof. by intros w r w' [= <- <-]. Qed.

Lemma keeps_lift (o : outcome A) : keeps f (lift o).
Proof. by intros w r w' [= <- <-]. Qed.

Lemma keeps_of_sum (o : exn + A) : keeps f (of_sum o).
Proof. by intros w r w' [= <- <-]. Qed.

Lemma keeps_get_world : keeps f get_world.
Proof. by intros w r w' [= <- <-]. Qed.

Lemma keeps_fresh : keeps f fresh.
Proof. intros w r w' [= <- <-]. apply f_next_id. Qed.

Lemma keeps_modify (g : world -> world) :
  (forall w, f (g w) = f w) -> keeps f (modify g).
Proof. intros Hg w r w' [= <- <-]. apply Hg. Qed.

Lemma keeps_external (c : call) : keeps f (external env c).
Proof. intros w r w' [= <- <-]. apply f_log. Qed.

Lemma keeps_notify (c : call) : keeps f (notify env c).
Proof. intros w r w' [= <- <-]. apply f_log. Qed.

Lemma keeps_random_index (n : nat) : keeps f (random_index env n).
Proof. intros w r w' [= <- <-]. apply f_log. Qed.

Lemma keeps_now : keeps f (now env).
Proof. intros w r w' [= <- <-]. apply f_log. Qed.

Lemma keeps_bind (m : M A) (k : A -> M B) :
  keeps f m -> (forall a, keeps f (k a)) -> keeps f (bind m k).
Proof.
  intros Hm Hk w r w'. unfold bind.
  destruct (m w) as [[a|e|] w1] eqn:E; intros H.
  - rewrite (Hk a _ _ _ H). by eapply Hm.
  - injection H as <- <-. by eapply Hm.
  - injection H as <- <-. by eapply Hm.
Qed.

Lemma keeps_try_except (body : M A) (handler : exn -> M A) :
  keeps f body -> (forall e, keeps f (handler e)) -> keeps f (try_except body handler).
Proof.
  intros Hm Hk w r w'. unfold try_except.
  destruct (body w) as [[a|e|] w1] eqn:E; intros H.
  - injection H as <- <-. by eapply Hm.
  - rewrite (Hk e _ _ _ H). by eapply Hm.
  - injection H as <- <-. by eapply Hm.
Qed.

Lemma keeps_attempt (m : M A) : keeps f m -> keeps f (attempt m).
Proof.
  intros Hm w r w'. unfold attempt.
  destruct (m w) as [[a|e|] w1] eqn:E; intros [= <- <-]; by eapply Hm.
Qed.

End StateLemmas.

Ltac keeps_step :=
  match goal with
  | |- keeps _ (bind _ _) => apply keeps_bind; [|intros ?]
  | |- keeps _ (ret _) => apply keeps_ret
  | |- keeps _ (raise _) => apply keeps_raise
  | |- keeps _ (of_sum _) => apply keeps_of_sum
  | |- keeps _ fresh => apply keeps_fresh; solve [auto]
  | |- keeps _ get_world => apply keeps_get_world
  | |- keeps _ (external _ _) => apply keeps_external; solve [auto]
  | |- keeps _ (notify _ _) => apply keeps_notify; solve [auto]
  | |- keeps _ (now _) => apply keeps_now; solve [auto]
  | |- keeps _ (random_index _ _) => apply keeps_random_index; solve [auto]
  | |- keeps _ (modify _) => apply keeps_modify; intros ?; solve [reflexivity | auto]
  | |- keeps _ (try_except _ _) => apply keeps_try_except; [|intros ?]
  | |- keeps _ (attempt _) => apply keeps_attempt
  | |- keeps _ (if ?b then _ else _) => destruct b
  | |- keeps _ (match ?x with _ => _ end) => destruct x
  | |- keeps _ _ => solve [eauto]
  end.

Ltac keeps_auto := repeat keeps_step.

(** ** Closing sessions *)

Section Closing.

Context (env : oracle) (cfg : Config).

Local Ltac by_membership :=
  exfalso;
  repeat match goal with
         | H : context [_ ∈ _ :: _] |- _ => rewrite elem_of_cons in H
         end;
  tauto.

Local Abbreviation close_session := (BrowserSessionManager.close_session env).
Local Abbreviation close_each := (BrowserSessionManager.close_each env).
Local Abbreviation close_all := (BrowserSessionManager.close_all env).

(** The world after [close_session] for a stored session [s]. *)
Local Abbreviation closed P s w r1 r2 :=
  (set_sessions
     (set_log w (log w ++ [Event (BrowserClose (browser s)) r1;
                           Event (PlaywrightStop (playwright s)) r2]))
     (delete P (_sessions w))).

Lemma close_session_run P w :
  match _sessions w !! P with
  | Some s =>
      exists r1 r2, close_session P w = (Ret tt, closed P s w r1 r2)
  | None => close_session P w = (Ret tt, w)
  end.
Proof.
  destruct (_sessions w !! P) as [s|] eqn:E;
    unfold BrowserSessionManager.close_session, BrowserSessionManager._cleanup_session;
    unfold bind at 1, get_world; cbv beta iota; rewrite E; [|done].
  unfold bind, attempt, external, modify. simpl.
  exists (env (log w) (BrowserClose (browser s))),
         (env (log w ++ [Event (BrowserClose (browser s))
                           (env (log w) (BrowserClose (browser s)))])
              (PlaywrightStop (playwright s))).
  destruct (env (log w) (BrowserClose (browser s))); simpl;
    destruct (env _ (PlaywrightStop (playwright s))); simpl;
    unfold set_sessions, set_log; simpl; by rewrite <- app_assoc.
Qed.

(** Property X11.  [close_session(P)] never raises.  For a stored session
    it calls [browser.close()] and then [playwright.stop()] on it, once
    each and whatever the first call answers (an exception of either is
    swallowed), makes no other call, and removes the entry of [P] and no
    other, so that [has_session(P)] is false afterwards; without a stored
    session it does nothing at all. *)
Theorem close_session_always_forgets_the_session (P : string) (w : world) :
  match _sessions w !! P with
  | Some s =>
      exists r1 r2 w',
        close_session P w = (Ret tt, w') /\
        new_events w w' = [Event (BrowserClose (browser s)) r1;
                           Event (PlaywrightStop (playwright s)) r2] /\
        _sessions w' = delete P (_sessions w) /\
        BrowserSessionManager.has_session P w' = (Ret false, w') /\
        fs w' = fs w /\ next_id w' = next_id w
  | None => close_session P w = (Ret tt, w)
  end.
Proof.
  pose proof (close_session_run P w) as H.
  destruct (_sessions w !! P) as [s|]; [|done].
  destruct H as (r1 & r2 & H). exists r1, r2. eexists. split; [exact H|].
  split; [|split; [done|split; [|done]]].
  - apply new_events_app. reflexivity.
  - unfold BrowserSessionManager.has_session, bind, get_world, ret. simpl.
    by rewrite lookup_delete_eq.
Qed.

Lemma close_each_run platforms :
  forall w,
    exists w' evs,
      close_each platforms w = (Ret tt, w') /\
      log w' = log w ++ evs /\
      Forall (fun e => is_close e = true) evs /\
      fs w' = fs w /\
      (forall Q, _sessions w' !! Q
                 = if decide (Q ∈ platforms) then None else _sessions w !! Q) /\
      (forall Q s, Q ∈ platforms -> _sessions w !! Q = Some s ->
                   exists r1 r2,
                     Event (BrowserClose (browser s)) r1 ∈ evs /\
                     Event (PlaywrightStop (playwright s)) r2 ∈ evs).
Proof.
  induction platforms as [|P rest IH]; intros w.
  - exists w, []. rewrite app_nil_r. repeat split; try done.
    intros Q s HQ. by apply elem_of_nil in HQ.
  - cbn [BrowserSessionManager.close_each]. unfold bind.
    pose proof (close_session_run P w) as H1.
    destruct (_sessions w !! P) as [s|] eqn:E.
    + destruct H1 as (r1 & r2 & ->).
      destruct (IH (closed P s w r1 r2)) as (w' & evs & Hrun & L & F & Hfs & Ht & Hc).
      exists w', ([Event (BrowserClose (browser s)) r1;
                   Event (PlaywrightStop (playwright s)) r2] ++ evs).
      split; [exact Hrun|]. split; [by rewrite L; simpl; rewrite <- app_assoc|].
      split; [by repeat constructor|]. split; [done|]. split.
      * intros Q. rewrite Ht. simpl.
        destruct (decide (Q = P)) as [->|Hne];
          [rewrite lookup_delete_eq|rewrite lookup_delete_ne by done];
          repeat case_decide; try done; by_membership.
      * intros Q s' HQ Hs'. destruct (decide (Q = P)) as [->|Hne].
        -- assert (s' = s) as -> by congruence. exists r1, r2.
           split; apply elem_of_app; left;
             [|apply elem_of_cons; right]; apply elem_of_cons; by left.
        -- apply elem_of_cons in HQ as [->|HQ]; [done|].
           destruct (Hc Q s' HQ) as (q1 & q2 & H3 & H4).
           { simpl. by rewrite lookup_delete_ne. }
           exists q1, q2. split; apply elem_of_app; by right.
    + rewrite H1.
      destruct (IH w) as (w' & evs & Hrun & L & F & Hfs & Ht & Hc).
      exists w', evs. split; [exact Hrun|]. split; [done|]. split; [done|].
      split; [done|]. split.
      * intros Q. rewrite Ht.
        destruct (decide (Q = P)) as [->|Hne]; rewrite ?E;
          repeat case_decide; try done; by_membership.
      * intros Q s' HQ Hs'. apply elem_of_cons in HQ as [->|HQ]; [congruence|].
        by apply (Hc Q s').
Qed.

(** Property X12.  Running [close_session] over any list of platforms that
    holds every platform of the session table (the list of keys that
    [close_all] takes, in whatever order) never raises and leaves the table
    empty; [browser.close()] and [playwright.stop()] have been called on
    every session that was stored, and nothing else has been called; that
    is in particular what [close_all] does. *)
Theorem close_all_leaves_no_session (platforms : list string) (w : world) :
  (forall P, is_Some (_sessions w !! P) -> P ∈ platforms) ->
  (exists w',
     close_each platforms w = (Ret tt, w') /\
     _sessions w' = ∅ /\
     Forall (fun e => is_close e = true) (new_events w w') /\
     forall P s, _sessions w !! P = Some s ->
       exists r1 r2,
         Event (BrowserClose (browser s)) r1 ∈ new_events w w' /\
         Event (PlaywrightStop (playwright s)) r2 ∈ new_events w w') /\
  (exists w', close_all w = (Ret tt, w') /\ _sessions w' = ∅).
Proof.
  intros Hall.
  assert (Hempty : forall (keys : list string) w',
    (forall P, is_Some (_sessions w !! P) -> P ∈ keys) ->
    (forall Q, _sessions w' !! Q
               = if decide (Q ∈ keys) then None else _sessions w !! Q) ->
    _sessions w' = ∅).
  { intros keys w' Hk Ht. apply map_empty. intros Q. rewrite Ht.
    destruct (decide (Q ∈ keys)) as [|Hout]; [done|].
    destruct (_sessions w !! Q) eqn:E; [|done]. destruct Hout. apply Hk. by rewrite E. }
  split.
  - destruct (close_each_run platforms w) as (w' & evs & Hrun & L & F & _ & Ht & Hc).
    exists w'. split; [exact Hrun|]. rewrite (new_events_app _ _ _ L).
    split; [by eapply Hempty|]. split; [done|].
    intros P s Hs. apply (Hc P s); [|done]. apply Hall. by rewrite Hs.
  - unfold BrowserSessionManager.close_all, bind, get_world.
    destruct (close_each_run (map fst (map_to_list (_sessions w))) w)
      as (w' & evs & Hrun & L & F & _ & Ht & Hc).
    exists w'. split; [exact Hrun|]. eapply Hempty; [|exact Ht].
    intros P [s Hs]. apply list_elem_of_In, in_map_iff. exists (P, s). split; [done|].
    by apply list_elem_of_In, elem_of_map_to_list.
Qed.

End Closing.

(** ** What creating a session leaves alone *)

Section CreationKeeps.

Context (env : oracle) (cfg : Config).
Context {X : Type}.

(** [f] is a part of the state that neither the log, nor the object
    counter, nor the cookie store belongs to. *)
Variable f : world -> X.
Hypothesis f_log : forall w l, f (set_log w l) = f w.
Hypothesis f_next_id : forall w n, f (set_next_id w n) = f w.
Hypothesis f_cookies : forall w m files, f (set_cookies w m files) = f w.

Lemma keeps_use_cookie_manager dir : keeps f (Globals.use_cookie_manager dir).
Proof. unfold Globals.use_cookie_manager. keeps_auto. Qed.

Lemma keeps_cm_get_cookie platform : keeps f (Globals.cm_get_cookie env cfg platform).
Proof. unfold Globals.cm_get_cookie. keeps_auto. Qed.

Lemma keeps_cm_save_cookie platform c : keeps f (Globals.cm_save_cookie cfg platform c).
Proof. unfold Globals.cm_save_cookie. keeps_auto. Qed.

Lemma keeps_context_cookies context urls :
  keeps f (Globals.context_cookies env cfg context urls).
Proof. unfold Globals.context_cookies. keeps_auto. Qed.

Lemma keeps_save_if_logged_in platform context b :
  keeps f (BrowserSessionManager.save_if_logged_in env cfg platform context b).
Proof.
  pose proof keeps_context_cookies. pose proof keeps_cm_save_cookie.
  unfold BrowserSessionManager.save_if_logged_in. keeps_auto.
Qed.

Lemma keeps_setup platform ctx page cookie_str cookie_dict headless :
  keeps f (BrowserSessionManager._setup_client_and_login env cfg
             platform ctx page cookie_str cookie_dict headless).
Proof.
  pose proof keeps_context_cookies. pose proof keeps_save_if_logged_in.
  unfold BrowserSessionManager._setup_client_and_login,
    BrowserSessionManager._setup_xhs_client,
    BrowserSessionManager._setup_weibo_client,
    BrowserSessionManager._setup_douyin_client.
  keeps_auto.
Qed.

Lemma keeps_inject_cookies ctx cookie_str domains :
  keeps f (BrowserSessionManager.inject_cookies env ctx cookie_str domains).
Proof. induction domains as [|d ds IH]; simpl; keeps_auto. Qed.

Lemma keeps_create_session platform headless cookies_dir :
  keeps f (BrowserSessionManager._create_session env cfg platform headless cookies_dir).
Proof.
  pose proof keeps_context_cookies. pose proof keeps_cm_get_cookie.
  pose proof keeps_use_cookie_manager. pose proof keeps_inject_cookies.
  pose proof keeps_setup.
  unfold BrowserSessionManager._create_session. keeps_auto.
Qed.

End CreationKeeps.

Section SessionTable.

Context (env : oracle) (cfg : Config).

Local Abbreviation get_session := (BrowserSessionManager.get_session env cfg).
Local Abbreviation create_and_store := (BrowserSessionManager.create_and_store env cfg).
Local Abbreviation _create_session := (BrowserSessionManager._create_session env cfg).

Lemma keeps_sessions_create_session platform headless dir :
  keeps _sessions (_create_session platform headless dir).
Proof. by apply keeps_create_session. Qed.

(** [create_and_store] that does not return a session has stored none. *)
Lemma create_and_store_fails P headless dir w r w' :
  create_and_store P headless dir w = (r, w') ->
  (forall s, r <> Ret s) ->
  _sessions w' = _sessions w.
Proof.
  unfold BrowserSessionManager.create_and_store, bind, modify, ret.
  destruct (_create_session P headless dir w) as [[s| |] w1] eqn:E;
    intros [= <- <-] Hr.
  - by destruct (Hr s).
  - by eapply keeps_sessions_create_session.
  - by eapply keeps_sessions_create_session.
Qed.

Lemma get_session_keeps_the_others P headless dir force_new :
  keeps (fun w => delete P (_sessions w)) (get_session P headless dir force_new).
Proof.
  assert (K1 : keeps (fun w => delete P (_sessions w))
                 (create_and_store P headless dir)).
  { unfold BrowserSessionManager.create_and_store.
    apply keeps_bind; [by apply keeps_create_session|intros s].
    apply keeps_bind; [|intros ?; apply keeps_ret].
    apply keeps_modify. intros w. simpl. apply delete_insert_eq. }
  assert (K2 : keeps (fun w => delete P (_sessions w))
                 (BrowserSessionManager._cleanup_session env P)).
  { unfold BrowserSessionManager._cleanup_session.
    apply keeps_bind; [apply keeps_get_world|intros w0].
    destruct (_sessions w0 !! P); [|apply keeps_ret].
    apply keeps_bind; [by apply keeps_attempt, keeps_external|intros ?].
    apply keeps_bind; [by apply keeps_attempt, keeps_external|intros ?].
    apply keeps_modify. intros w. simpl. apply delete_delete_eq. }
  unfold BrowserSessionManager.get_session.
  apply keeps_bind; [apply keeps_get_world|intros w0].
  destruct (_sessions w0 !! P); [|done].
  destruct (negb force_new); [|done].
  apply keeps_bind; [by apply keeps_attempt, keeps_external|intros [e|t]].
  - apply keeps_bind; [done|by intros ?].
  - apply keeps_ret.
Qed.

Lemma get_session_stores P headless dir force_new w s w' :
  get_session P headless dir force_new w = (Ret s, w') ->
  _sessions w' !! P = Some s.
Proof.
  unfold BrowserSessionManager.get_session, bind at 1, get_world.
  destruct (_sessions w !! P) as [s0|] eqn:E; [|by apply create_and_store_stores].
  destruct (negb force_new); [|by apply create_and_store_stores].
  unfold bind at 1, attempt, external.
  destruct (env (log w) (PageTitle (page s0))) as [t|e].
  - by intros [= <- <-].
  - unfold bind at 1.
    destruct (BrowserSessionManager._cleanup_session env P _) as [[[]|e1|] w1];
      [|done..].
    by apply create_and_store_stores.
Qed.

(** Property X13.  [get_session(P, ...)] changes the entry of [P] in the
    session table and no other, on every path and also when it raises; a
    session that it returns is the one the table then holds for [P]. *)
Theorem get_session_changes_its_own_entry_only
    (P : string) (headless : bool) (dir : option string) (force_new : bool)
    (w : world) (r : outcome BrowserSession) (w' : world) :
  get_session P headless dir force_new w = (r, w') ->
  (forall Q, Q <> P -> _sessions w' !! Q = _sessions w !! Q) /\
  (forall s, r = Ret s -> _sessions w' !! P = Some s).
Proof.
  intros H. split.
  - intros Q HQ.
    pose proof (get_session_keeps_the_others P headless dir force_new _ _ _ H) as K.
    simpl in K.
    rewrite <- (lookup_delete_ne (_sessions w') P Q) by done.
    rewrite K. by apply lookup_delete_ne.
  - intros s ->. by eapply get_session_stores.
Qed.

(** Property X14.  When the liveness probe of the stored session raises,
    [get_session] calls [browser.close()] and [playwright.stop()] on that
    session right after the probe and before anything else, closes nothing
    else, and forgets the session: afterwards the table holds the new
    session if one is returned, and no session for the platform if the
    creation of the new one has failed. *)
Theorem stale_session_is_replaced_or_forgotten
    (P : string) (headless : bool) (dir : option string)
    (w : world) (s : BrowserSession) (e : exn)
    (r : outcome BrowserSession) (w' : world) :
  _sessions w !! P = Some s ->
  env (log w) (PageTitle (page s)) = Raises e ->
  get_session P headless dir false w = (r, w') ->
  (exists r1 r2 evs,
     new_events w w'
     = Event (PageTitle (page s)) (Raises e)
       :: Event (BrowserClose (browser s)) r1
       :: Event (PlaywrightStop (playwright s)) r2 :: evs /\
     existsb is_close evs = false) /\
  _sessions w' !! P = match r with Ret s' => Some s' | _ => None end.
Proof.
  intros Hs He H. split; [by eapply stale_session_is_closed_first|].
  destruct r as [s'|e'|]; [by eapply get_session_stores| |].
  all: revert H; unfold BrowserSessionManager.get_session, bind at 1, get_world;
    rewrite Hs; simpl; unfold bind at 1, attempt, external; rewrite He;
    unfold bind at 1;
    pose proof (close_session_run env P
                  (set_log w (log w ++ [Event (PageTitle (page s)) (Raises e)]))) as Hc;
    simpl in Hc; rewrite Hs in Hc; destruct Hc as (r1 & r2 & Hc);
    unfold BrowserSessionManager.close_session in Hc; rewrite Hc;
    intros H; apply create_and_store_fails in H; [|done];
    rewrite H; simpl; apply lookup_delete_eq.
Qed.

End SessionTable.

Lemma get_session_changes_its_own_entry_only_witness :
  (forall Q, Q <> "xhs" ->
     _sessions (snd (BrowserSessionManager.get_session Examples.logged_in Examples.cfg0
                       "xhs" true None true Examples.w1)) !! Q
     = _sessions Examples.w1 !! Q) /\
  (forall s,
     fst (BrowserSessionManager.get_session Examples.logged_in Examples.cfg0
            "xhs" true None true Examples.w1) = Ret s ->
     _sessions (snd (BrowserSessionManager.get_session Examples.logged_in Examples.cfg0
                       "xhs" true None true Examples.w1)) !! "xhs" = Some s).
Proof.
  apply (get_session_changes_its_own_entry_only Examples.logged_in Examples.cfg0
           "xhs" true None true Examples.w1 _ _).
  vm_compute. reflexivity.
Defined.

Lemma close_all_leaves_no_session_witness :
  (exists w',
     BrowserSessionManager.close_each Examples.logged_in ["xhs"] Examples.w1
     = (Ret tt, w') /\
     _sessions w' = ∅ /\
     Forall (fun e => is_close e = true) (new_events Examples.w1 w') /\
     forall P s, _sessions Examples.w1 !! P = Some s ->
       exists r1 r2,
         Event (BrowserClose (browser s)) r1 ∈ new_events Examples.w1 w' /\
         Event (PlaywrightStop (playwright s)) r2 ∈ new_events Examples.w1 w') /\
  (exists w', BrowserSessionManager.close_all Examples.logged_in Examples.w1
              = (Ret tt, w') /\ _sessions w' = ∅).
Proof.
  apply (close_all_leaves_no_session Examples.logged_in ["xhs"] Examples.w1).
  intros P [s Hs]. destruct (decide (P = "xhs")) as [->|Hne].
  - apply elem_of_cons. by left.
  - exfalso.
    pose proof (get_session_keeps_the_others Examples.logged_in Examples.cfg0
                  "xhs" true None false Examples.w0 _ _ (surjective_pairing _)) as K.
    change (delete "xhs" (_sessions Examples.w1) = delete "xhs" ∅) in K.
    rewrite <- (lookup_delete_ne (_sessions Examples.w1) "xhs" P) in Hs
      by (intros Heq; exact (Hne (eq_sym Heq))).
    rewrite K, lookup_delete_ne, lookup_empty in Hs
      by (intros Heq; exact (Hne (eq_sym Heq))).
    clear K. discriminate Hs.
Defined.

Lemma stale_session_is_replaced_or_forgotten_witness :
  let run := BrowserSessionManager.get_session Examples.broken Examples.cfg0
               "xhs" true None false Examples.w1 in
  (exists r1 r2 evs,
     new_events Examples.w1 (snd run)
     = Event (PageTitle (page Examples.s1)) (Raises (Exn "Error" "browser not installed"))
       :: Event (BrowserClose (browser Examples.s1)) r1
       :: Event (PlaywrightStop (playwright Examples.s1)) r2 :: evs /\
     existsb is_close evs = false) /\
  _sessions (snd run) !! "xhs" = match fst run with Ret s' => Some s' | _ => None end.
Proof.
  intros run.
  apply (stale_session_is_replaced_or_forgotten Examples.broken Examples.cfg0
           "xhs" true None Examples.w1 Examples.s1 (Exn "Error" "browser not installed")
           (fst run) (snd run)).
  - vm_compute. reflexivity.
  - reflexivity.
  - vm_compute. reflexivity.
Defined.

(** A session that cannot be replaced is forgotten all the same. *)
Example stale_session_without_a_successor :
  let run := BrowserSessionManager.get_session Examples.broken Examples.cfg0
               "xhs" true None false Examples.w1 in
  fst run = Raise (Exn "Error" "browser not installed") /\
  fst (BrowserSessionManager.has_session "xhs" (snd run)) = Ret false.
Proof. vm_compute. by split. Qed.

(** ** The pages the loops ask for *)

(** The chain of cursors fixes what is asked for: the requests of a chain
    are all for the comments of the one note. *)
Lemma cursor_chain_requests client note_id xsec_token :
  forall evs cursor,
    cursor_chain client note_id xsec_token cursor evs ->
    Forall (fun ev => exists cursor' reply,
                        ev = Event (GetNoteComments client note_id xsec_token cursor') reply)
           evs.
Proof.
  induction evs as [|[c reply] rest IH]; intros cursor; [done|].
  cbn [cursor_chain]. intros [-> H]. constructor; [by eauto|].
  destruct rest as [|ev rest]; [done|].
  destruct H as (result & next & _ & _ & H). by apply (IH next).
Qed.

Section Pages.

Import XhsSignalAdapter.
Context (env : oracle).

(** Property X15.  The [while] loop of one keyword asks the client for the
    pages [page], [page + 1], ... of that keyword, one after the other and
    with the same sort type, and makes no other call; only its last request
    can have raised, and every answer before it was handed to the loop
    body, so that the list the loop returns is the one these answers
    bring, whether or not the last request raised. *)
Theorem keyword_loop_asks_for_the_pages_in_order
    (fuel : nat) (client : handle) (keyword : string) (sort_type : SearchSortType)
    (limit_per_keyword : Z) (page : Z) (keyword_results : list value)
    (w : world) (r : outcome (list value)) (w' : world) :
  keyword_loop env fuel client keyword sort_type limit_per_keyword
    page keyword_results w = (r, w') ->
  exists (responses : list value) (failure : option exn),
    new_events w w'
    = answered_pages client keyword sort_type page responses
      ++ match failure with
         | Some e =>
             [Event (GetNoteByKeyword client keyword (page + len responses) sort_type)
                (Raises e)]
         | None => []
         end /\
    match r with
    | Ret results =>
        results = collect_pages keyword limit_per_keyword responses keyword_results
    | Raise _ => False
    | Diverge => failure = None /\ length responses = fuel
    end.
Proof.
  revert page keyword_results w.
  induction fuel as [|fuel IH]; intros page kr w; simpl.
  - destruct (len kr <? limit_per_keyword); intros [= <- <-];
      exists [], None; rewrite (new_events_app w w []) by (by rewrite app_nil_r);
      by repeat split.
  - destruct (len kr <? limit_per_keyword).
    2:{ intros [= <- <-]. exists [], None.
        rewrite (new_events_app w w []) by (by rewrite app_nil_r). by repeat split. }
    unfold bind, attempt, external.
    set (c := GetNoteByKeyword client keyword page sort_type).
    set (w1 := set_log w (log w ++ [Event c (env (log w) c)])).
    destruct (env (log w) c) as [response|e] eqn:E.
    2:{ intros [= <- <-]. exists [], (Some e). subst w1.
        rewrite (new_events_app w _ [Event c (Raises e)]) by done.
        split; [|done]. simpl. subst c. do 3 f_equal. unfold len. simpl. lia. }
    destruct (handle_response keyword limit_per_keyword response kr) as [kr1 [|]] eqn:Eh.
    + intros H.
      destruct (keyword_loop_spec _ _ _ _ _ _ _ _ _ _ _ H) as (evs & L & _).
      destruct (IH _ _ _ H) as (responses & failure & Hev & Hr).
      rewrite (new_events_app w1 w' evs L) in Hev.
      exists (response :: responses), failure.
      rewrite (new_events_app w w' (Event c (Returns response) :: evs))
        by (rewrite L; subst w1; simpl; by rewrite <- app_assoc).
      split.
      * cbn [answered_pages app]. f_equal. rewrite Hev. f_equal.
        destruct failure; [|done]. do 3 f_equal. unfold len. simpl length. lia.
      * destruct r as [results|e|]; [|done|].
        -- cbn [collect_pages]. by rewrite Eh.
        -- destruct Hr as [-> <-]. done.
    + intros [= <- <-]. exists [response], None. subst w1.
      rewrite (new_events_app w _ [Event c (Returns response)]) by done.
      split; [done|]. cbn [collect_pages]. by rewrite Eh.
Qed.

(** Property X16.  The [while] loop of [get_note_comments] asks the client
    for comments of the one note, with the one token, and makes no other
    call; its first request carries the cursor the loop starts with, and
    every later request the cursor that the answer to the request before it
    holds (the empty string when that answer holds none); only the last
    request can have raised. *)
Theorem comments_loop_follows_the_cursor
    (fuel : nat) (client : handle) (note_id xsec_token : string) (limit : Z)
    (cursor : value) (comments : list value)
    (w : world) (r : outcome (list value)) (w' : world) :
  comments_loop env fuel client note_id xsec_token limit cursor comments w = (r, w') ->
  cursor_chain client note_id xsec_token cursor (new_events w w') /\
  Forall (fun ev => exists cursor' reply,
                      ev = Event (GetNoteComments client note_id xsec_token cursor') reply)
         (new_events w w').
Proof.
  intros Hrun.
  assert (H : cursor_chain client note_id xsec_token cursor (new_events w w'));
    [|split; [exact H|by eapply cursor_chain_requests]].
  revert cursor comments w Hrun.
  induction fuel as [|fuel IH]; intros cursor comments w; simpl.
  - destruct (len comments <? limit); intros [= <- <-];
      by rewrite (new_events_app w w []) by (by rewrite app_nil_r).
  - destruct (len comments <? limit).
    2:{ intros [= <- <-].
        by rewrite (new_events_app w w []) by (by rewrite app_nil_r). }
    unfold bind at 1, external.
    set (c := Effects.GetNoteComments client note_id xsec_token cursor).
    assert (Hone : forall reply,
              cursor_chain client note_id xsec_token cursor
                (new_events w (set_log w (log w ++ [Event c reply])))).
    { intros reply. by rewrite (new_events_app w _ [Event c reply]). }
    destruct (env (log w) c) as [result|e] eqn:E; [|by intros [= <- <-]].
    unfold bind, lift, ret.
    destruct (if negb (truthy result) then Ret false else contains_key "comments" result)
      as [[|]|e|]; try (by intros [= <- <-]).
    simpl.
    match goal with
    | |- context [match ?X with _ => _ end] =>
        destruct X as [comments1|e|]
    end; try (by intros [= <- <-]).
    destruct (get result "cursor" (VStr EmptyString)) as [cursor1|e|] eqn:Ec;
      try (by intros [= <- <-]).
    destruct (get result "has_more" (VBool false)) as [has_more|e|];
      try (by intros [= <- <-]).
    destruct (negb (truthy has_more)); try (by intros [= <- <-]).
    intros H.
    destruct (comments_loop_spec _ _ _ _ _ _ _ _ _ _ _ H) as (evs & L & _).
    apply IH in H. rewrite (new_events_app _ w' evs L) in H.
    rewrite (new_events_app w w' (Event c (Returns result) :: evs))
      by (rewrite L; simpl; by rewrite <- app_assoc).
    cbn [cursor_chain]. split; [done|].
    destruct evs as [|ev evs]; [done|]. by exists result, cursor1.
Qed.

End Pages.

(** ** Notes given by their address *)

Section NoteUrls.

Import XhsSignalAdapter.
Context (env : oracle) (cfg : Config).



End NoteUrls.

Lemma keyword_loop_asks_for_the_pages_in_order_witness :
  exists (responses : list value) (failure : option exn),
    new_events Examples.w1
      (snd (XhsSignalAdapter.keyword_loop Examples.flaky 5 4%nat "bad" GENERAL 4 1 []
              Examples.w1))
    = answered_pages 4%nat "bad" GENERAL 1 responses
      ++ match failure with
         | Some e => [Event (GetNoteByKeyword 4%nat "bad" (1 + len responses) GENERAL)
                        (Raises e)]
         | None => []
         end /\
    match fst (XhsSignalAdapter.keyword_loop Examples.flaky 5 4%nat "bad" GENERAL 4 1 []
                 Examples.w1) with
    | Ret results => results = XhsSignalAdapter.collect_pages "bad" 4 responses []
    | Raise _ => False
    | Diverge => failure = None /\ length responses = 5%nat
    end.
Proof.
  apply (keyword_loop_asks_for_the_pages_in_order Examples.flaky 5 4%nat "bad" GENERAL
           4 1 [] Examples.w1 _ _).
  vm_compute. reflexivity.
Defined.

Lemma comments_loop_follows_the_cursor_witness :
  let w' := snd (XhsSignalAdapter.comments_loop Examples.logged_in 5 4%nat "note"
                   EmptyString 4 (VStr EmptyString) [] Examples.w1) in
  cursor_chain 4%nat "note" EmptyString (VStr EmptyString) (new_events Examples.w1 w') /\
  Forall (fun ev => exists cursor' reply,
                      ev = Event (GetNoteComments 4%nat "note" EmptyString cursor') reply)
         (new_events Examples.w1 w').
Proof.
  set (run := XhsSignalAdapter.comments_loop Examples.logged_in 5 4%nat "note"
                EmptyString 4 (VStr EmptyString) [] Examples.w1).
  apply (comments_loop_follows_the_cursor Examples.logged_in 5 4%nat "note" EmptyString
           4 (VStr EmptyString) [] Examples.w1 (fst run) (snd run)).
  vm_compute. reflexivity.
Defined.

(** In the sample run the second page of comments is asked for with the
    cursor of the first. *)
Example comments_sample_cursors :
  map call_of
    (new_events Examples.w1
       (snd (XhsSignalAdapter.comments_loop Examples.logged_in 5 4%nat "note" EmptyString
               4 (VStr EmptyString) [] Examples.w1)))
  = [GetNoteComments 4%nat "note" EmptyString (VStr EmptyString);
     GetNoteComments 4%nat "note" EmptyString (VStr "next")].
Proof. vm_compute. reflexivity. Qed.
